(** * Column normalisation and date-header transposition

    A shallow embedding of [normalized_raw_data.py] (class
    [FixedColumnProcessor]: mapping resolver and record normaliser) and of
    [raw_data_etl.py] (class [DreamsRawDataCreator]: the wide-to-long
    transposer), with the properties of the specification stated and
    proved over the embedded functions.

    Conventions.
    - Python [str] values are modelled as ASCII [string]s.
    - A Python exception is an explicit [Raise] result; [try/except] is a
      match on it.
    - A [dict] keeps insertion order, so it is an association list whose
      keys are unique ([Dict.set] overwrites in place or appends).
    - A binary64 [float] is represented by the exact rational it denotes;
      rounding is not modelled and no property below depends on it. *)

From Stdlib Require Import List String Ascii Bool Arith ZArith QArith Lia.
From Stdlib Require Import Orders Sorting.Mergesort Sorting.Sorted Sorting.Permutation.
Import ListNotations.
Local Close Scope Q_scope.
Local Open Scope nat_scope.
Local Open Scope string_scope.
Local Open Scope list_scope.

(* ================================================================== *)
(** * Python prelude *)
(* ================================================================== *)

Module Py.

(** Exceptions the modelled code can let escape or catch. *)
Inductive exn : Set :=
| IndexError | KeyError | OverflowError | AttributeError | ReError | OSError
| TypeError.

Inductive result (A : Type) : Type :=
| Ok (a : A)
| Raise (e : exn).
Arguments Ok {A} a.
Arguments Raise {A} e.

Definition bind {A B} (r : result A) (k : A -> result B) : result B :=
  match r with
  | Ok a => k a
  | Raise e => Raise e
  end.

(** ** Characters and strings *)

(** [str.isspace] on one ASCII character: TAB..CR, FS..US and space. *)
Definition is_space (c : ascii) : bool :=
  let n := nat_of_ascii c in
  ((9 <=? n)%nat && (n <=? 13)%nat) || ((28 <=? n)%nat && (n <=? 32)%nat).

(** [\d] on an ASCII character. *)
Definition is_digit (c : ascii) : bool :=
  let n := nat_of_ascii c in (48 <=? n)%nat && (n <=? 57)%nat.

Definition is_empty (s : string) : bool :=
  match s with EmptyString => true | String _ _ => false end.

Fixpoint lstrip (s : string) : string :=
  match s with
  | EmptyString => EmptyString
  | String c r => if is_space c then lstrip r else s
  end.

Fixpoint rstrip (s : string) : string :=
  match s with
  | EmptyString => EmptyString
  | String c r =>
      let r' := rstrip r in
      if is_space c && is_empty r' then EmptyString else String c r'
  end.

(** [s.strip()] *)
Definition strip (s : string) : string := rstrip (lstrip s).

(** [s.split()]: maximal runs of non-whitespace characters. [cur] is the
    run being read. *)
Fixpoint split_from (s cur : string) : list string :=
  match s with
  | EmptyString => if is_empty cur then [] else [cur]
  | String c r =>
      if is_space c
      then (if is_empty cur then split_from r EmptyString
            else cur :: split_from r EmptyString)
      else split_from r (cur ++ String c EmptyString)
  end.

Definition split (s : string) : list string := split_from s EmptyString.

(** [needle in hay] for strings. *)
Fixpoint contains (needle hay : string) : bool :=
  prefix needle hay ||
  match hay with
  | EmptyString => false
  | String _ r => contains needle r
  end.

(** [x in xs] for a list of strings. *)
Definition mem (x : string) (xs : list string) : bool :=
  existsb (String.eqb x) xs.

(** [s.lower()] on ASCII. *)
Definition lower_char (c : ascii) : ascii :=
  let n := nat_of_ascii c in
  if (65 <=? n)%nat && (n <=? 90)%nat then ascii_of_nat (n + 32) else c.

Fixpoint lower (s : string) : string :=
  match s with
  | EmptyString => EmptyString
  | String c r => String (lower_char c) (lower r)
  end.

(** Pieces of [s] between occurrences of the character [d]. *)
Fixpoint split_on (d : ascii) (s : string) : list string :=
  match s with
  | EmptyString => [EmptyString]
  | String c r =>
      if Ascii.eqb c d then EmptyString :: split_on d r
      else match split_on d r with
           | [] => [String c EmptyString]
           | p :: ps => String c p :: ps
           end
  end.

(** A [for] loop whose body may raise: the state is threaded through the
    items and the first exception ends the loop. *)
Fixpoint for_each {A S} (body : S -> A -> result S) (items : list A) (st : S)
  : result S :=
  match items with
  | [] => Ok st
  | x :: r =>
      match body st x with
      | Ok st' => for_each body r st'
      | Raise e => Raise e
      end
  end.

(** [s.endswith(suffix)] *)
Fixpoint endswith (s suffix : string) : bool :=
  String.eqb s suffix ||
  match s with
  | EmptyString => false
  | String _ r => endswith r suffix
  end.

(** [s[:-n]] for [0 < n]: all but the last [n] characters, nothing when
    the string is shorter. *)
Definition drop_last (n : nat) (s : string) : string :=
  substring 0 (String.length s - n) s.

(** Decimal digits of a natural number, as [str(n)] prints them. *)
Definition digit_char (n : nat) : ascii := ascii_of_nat (48 + n).

Fixpoint str_of_nat_fuel (fuel n : nat) (acc : string) : string :=
  match fuel with
  | O => acc
  | S f =>
      let acc' := String (digit_char (n mod 10)) acc in
      if (n / 10 =? 0)%nat then acc' else str_of_nat_fuel f (n / 10) acc'
  end.

Definition str_of_nat (n : nat) : string := str_of_nat_fuel (S n) n EmptyString.

Definition str_of_Z (z : Z) : string :=
  if (z <? 0)%Z then String "-" (str_of_nat (Z.to_nat (- z)))
  else str_of_nat (Z.to_nat z).

(** ** [sorted] on a list of strings *)

Module StringOrder <: TotalLeBool.
Definition t := string.
Definition leb := String.leb.
Definition leb_total :
  forall a1 a2, leb a1 a2 = true \/ leb a2 a1 = true := String.leb_total.
End StringOrder.

Module StringSort := Sort StringOrder.

(** [sorted(xs)]: strings compare character by character, by code. The
    order is total and antisymmetric, so the sorted permutation is unique
    and the sorting algorithm does not matter. *)
Definition sorted (xs : list string) : list string := StringSort.sort xs.

Definition str_le (a b : string) : Prop := String.leb a b = true.

End Py.

Import Py.

Notation "x <- r ;; k" := (Py.bind r (fun x => k))
  (at level 61, r at next level, right associativity).

(** ** Insertion-ordered dictionaries *)

Module Dict.

Section WithValue.
Context {V : Type}.

Definition t := list (string * V).

Definition empty : t := [].

(** [d.get(k)] *)
Fixpoint get (d : t) (k : string) : option V :=
  match d with
  | [] => None
  | (k', v) :: r => if String.eqb k k' then Some v else get r k
  end.

(** [d[k] = v]: an existing key keeps its position. *)
Fixpoint set (d : t) (k : string) (v : V) : t :=
  match d with
  | [] => [(k, v)]
  | (k', v') :: r =>
      if String.eqb k k' then (k', v) :: r else (k', v') :: set r k v
  end.

Definition keys (d : t) : list string := map fst d.

(** [k in d] *)
Definition has (d : t) (k : string) : bool := Py.mem k (keys d).

End WithValue.

Arguments t : clear implicits.

End Dict.

(* ================================================================== *)
(** * Spreadsheet values *)
(* ================================================================== *)

Module Pandas.

(** A [pandas.Timestamp] / [datetime]: calendar date and nanoseconds since
    midnight. *)
Record Timestamp : Set := mkTimestamp
  { year : Z; month : Z; day : Z; time_ns : Z }.

(** The value of one spreadsheet cell, by its Python type. *)
Inductive cell : Type :=
| CNaN                       (* missing: NaN, None, NaT *)
| CStr (s : string)
| CInt (z : Z)
| CFloat (q : Q)
| CBool (b : bool)           (* [bool] is a subclass of [int] *)
| CDatetime (t : Timestamp)
| COther.                    (* any other object, e.g. a [time] *)

(** [pd.isna(v)] / [pd.notna(v)] on a scalar. *)
Definition isna (v : cell) : bool :=
  match v with CNaN => true | _ => false end.

Definition notna (v : cell) : bool := negb (isna v).

(** A sheet read with [header=None]: a rectangular matrix addressed by
    position. *)
Record Sheet : Type := mkSheet
  { shape0 : nat; shape1 : nat; values : nat -> nat -> cell }.

(** [df.iloc[r, c]] *)
Definition iloc (df : Sheet) (r c : nat) : result cell :=
  if (r <? shape0 df)%nat && (c <? shape1 df)%nat
  then Ok (values df r c) else Raise IndexError.

(** [df.iloc[r, start:].tolist()] *)
Definition iloc_row_from (df : Sheet) (r start : nat) : result (list cell) :=
  if (r <? shape0 df)%nat
  then Ok (map (values df r) (seq start (shape1 df - start)))
  else Raise IndexError.

(** The sheet holding the given rows, short rows padded with missing
    values. *)
Definition sheet_of_rows (rows : list (list cell)) : Sheet :=
  {| shape0 := List.length rows;
     shape1 := fold_right (fun r m => Nat.max (List.length r) m) 0 rows;
     values := fun r c => nth c (nth r rows []) CNaN |}.

End Pandas.

Import Pandas.

(* ================================================================== *)
(** * raw_data_etl.py: value coercion *)
(* ================================================================== *)

Module Coercion.

(** A value stored in an emitted record. *)
Inductive pyval : Type :=
| PyStr (s : string)
| PyInt (z : Z)
| PyFloat (q : Q).

(** [re.sub(r'[^\d.-]', '', s)]: keep digits, '.' and '-'. *)
Definition keep_char (c : ascii) : bool :=
  is_digit c || Ascii.eqb c "." || Ascii.eqb c "-".

Fixpoint strip_non_numeric (s : string) : string :=
  match s with
  | EmptyString => EmptyString
  | String c r =>
      if keep_char c then String c (strip_non_numeric r)
      else strip_non_numeric r
  end.

(** Every character of the string satisfies [p]. *)
Fixpoint all_chars (p : ascii -> bool) (s : string) : bool :=
  match s with
  | EmptyString => true
  | String c r => p c && all_chars p r
  end.

(** Value of a run of decimal digits, most significant first; [None] if a
    character is not a digit. *)
Fixpoint digits_value (s : string) (acc : Z) : option Z :=
  match s with
  | EmptyString => Some acc
  | String c r =>
      if is_digit c
      then digits_value r (10 * acc + Z.of_nat (nat_of_ascii c - 48))%Z
      else None
  end.

(** Splits at the first '.', if any. *)
Fixpoint split_point (s : string) : string * option string :=
  match s with
  | EmptyString => (EmptyString, None)
  | String c r =>
      if Ascii.eqb c "." then (EmptyString, Some r)
      else let '(a, b) := split_point r in (String c a, b)
  end.

(** [float(s)] for a string over the alphabet left by
    [strip_non_numeric]: an optional '-', then digits with at most one
    '.', at least one digit in all. Anything else is a [ValueError],
    here [None]. *)
Definition float_of_cleaned (s : string) : option Q :=
  let '(neg, body) :=
    match s with
    | String "-" r => (true, r)
    | _ => (false, s)
    end in
  let '(ip, fp) := split_point body in
  let fp := match fp with Some f => f | None => EmptyString end in
  if is_empty ip && is_empty fp then None
  else
    match digits_value ip 0, digits_value fp 0 with
    | Some i, Some f =>
        let k := String.length fp in
        let m := (i * 10 ^ Z.of_nat k + f)%Z in
        Some (Qred (Qmake (if neg then - m else m) (Z.to_pos (10 ^ Z.of_nat k))))
    | _, _ => None
    end.

(** [float(n)] for an [int] raises [OverflowError] once [n] rounds past
    the largest finite binary64 value. *)
Definition float_overflow_bound : Z := (2 ^ 1024 - 2 ^ 970)%Z.

Definition float_of_int (z : Z) : result Q :=
  if (Z.abs z <? float_overflow_bound)%Z then Ok (inject_Z z)
  else Raise OverflowError.

(** The cleaning of one source value in [create_raw_data_records]
    (the [if pd.isna(value) ... else: value = 0] chain). *)
Definition clean_value (value : cell) : result pyval :=
  if isna value then Ok (PyInt 0)
  else
    match value with
    | CStr s =>
        let cleaned_value := strip_non_numeric s in
        if is_empty cleaned_value then Ok (PyInt 0)
        else
          match float_of_cleaned cleaned_value with
          | Some q => Ok (PyFloat q)
          | None => Ok (PyInt 0)          (* except: value = 0 *)
          end
    | CInt z => q <- float_of_int z ;; Ok (PyFloat q)
    | CBool b => Ok (PyFloat (inject_Z (if b then 1 else 0)))
    | CFloat q => Ok (PyFloat q)
    | _ => Ok (PyInt 0)
    end.

End Coercion.

(* ================================================================== *)
(** * raw_data_etl.py: class DreamsRawDataCreator *)
(* ================================================================== *)

Module Etl.

Import Coercion.

(** ** Dates *)

Definition month_names : list string :=
  ["January"; "February"; "March"; "April"; "May"; "June"; "July";
   "August"; "September"; "October"; "November"; "December"].

Definition month_abbrs : list string :=
  ["Jan"; "Feb"; "Mar"; "Apr"; "May"; "Jun"; "Jul"; "Aug"; "Sep"; "Oct";
   "Nov"; "Dec"].

(** Month number (1..12) of a month name, ignoring case. *)
Fixpoint month_index (names : list string) (s : string) (i : Z) : option Z :=
  match names with
  | [] => None
  | n :: r =>
      if String.eqb (lower n) (lower s) then Some i
      else month_index r s (i + 1)%Z
  end.

Definition all_digits (s : string) : bool :=
  match digits_value s 0 with Some _ => true | None => false end.

Definition digits_or_zero (s : string) : Z :=
  match digits_value s 0 with Some v => v | None => 0%Z end.

(** [%Y]: exactly four digits. *)
Definition parse_Y (s : string) : option Z :=
  if (String.length s =? 4)%nat && all_digits s
  then Some (digits_or_zero s) else None.

(** [%y]: exactly two digits; 00..68 are 2000..2068, 69..99 are
    1969..1999. *)
Definition parse_y (s : string) : option Z :=
  if (String.length s =? 2)%nat && all_digits s
  then let v := digits_or_zero s in
       Some (if (v <=? 68)%Z then 2000 + v else 1900 + v)%Z
  else None.

(** [%m]: [1[0-2]|0[1-9]|[1-9]]. *)
Definition parse_m (s : string) : option Z :=
  let v := digits_or_zero s in
  if all_digits s && (1 <=? String.length s)%nat && (String.length s <=? 2)%nat
     && (1 <=? v)%Z && (v <=? 12)%Z
  then Some v else None.

(** [%d]: [3[0-1]|[1-2]\d|0[1-9]|[1-9]| [1-9]]. *)
Definition parse_d (s : string) : option Z :=
  let s' := match s with String " " r => if (String.length r =? 1)%nat then r else s | _ => s end in
  let v := digits_or_zero s' in
  if all_digits s' && (1 <=? String.length s')%nat && (String.length s' <=? 2)%nat
     && (1 <=? v)%Z && (v <=? 31)%Z
  then Some v else None.

Definition is_leap (y : Z) : bool :=
  ((y mod 4 =? 0)%Z && negb (y mod 100 =? 0)%Z) || (y mod 400 =? 0)%Z.

Definition days_in_month (y m : Z) : Z :=
  if (m =? 2)%Z then (if is_leap y then 29 else 28)%Z
  else if (m =? 4)%Z || (m =? 6)%Z || (m =? 9)%Z || (m =? 11)%Z then 30%Z
  else 31%Z.

(** Order of timestamps: [a < b]. *)
Definition ts_ltb (a b : Timestamp) : bool :=
  (Pandas.year a <? Pandas.year b)%Z ||
  ((Pandas.year a =? Pandas.year b)%Z &&
   ((Pandas.month a <? Pandas.month b)%Z ||
    ((Pandas.month a =? Pandas.month b)%Z &&
     ((Pandas.day a <? Pandas.day b)%Z ||
      ((Pandas.day a =? Pandas.day b)%Z &&
       (Pandas.time_ns a <? Pandas.time_ns b)%Z))))).

(** Range of a nanosecond-resolution [Timestamp]. *)
Definition ts_min : Timestamp := mkTimestamp 1677 9 21 763145224193.
Definition ts_max : Timestamp := mkTimestamp 2262 4 11 85636854775807.

(** Midnight of a calendar date, when the date exists and the timestamp
    is in range; otherwise the conversion raises, here [None]. *)
Definition make_date (y m d : Z) : option Timestamp :=
  let t := mkTimestamp y m d 0 in
  if (d <=? days_in_month y m)%Z && negb (ts_ltb t ts_min) && negb (ts_ltb ts_max t)
  then Some t else None.

(** Whitespace in a format matches one or more whitespace characters:
    the text before the first whitespace and the text after the run. *)
Fixpoint split_space_run (s : string) : option (string * string) :=
  match s with
  | EmptyString => None
  | String c r =>
      if is_space c then Some (EmptyString, lstrip r)
      else match split_space_run r with
           | Some (a, b) => Some (String c a, b)
           | None => None
           end
  end.

Inductive date_format : Set :=
| Fmt_b_y        (* '%b-%y' *)
| Fmt_B_Y        (* '%B %Y' *)
| Fmt_m_Y        (* '%m/%Y' *)
| Fmt_Y_m        (* '%Y-%m' *)
| Fmt_Y_m_d.     (* '%Y-%m-%d' *)

(** [pd.to_datetime(s, format=fmt)]: the whole string has to match the
    format; [None] stands for the exception a mismatch raises. *)
Definition strptime (fmt : date_format) (s : string) : option Timestamp :=
  match fmt with
  | Fmt_b_y =>
      match split_on "-" s with
      | [b; y] =>
          match month_index month_abbrs b 1, parse_y y with
          | Some m, Some yy => make_date yy m 1
          | _, _ => None
          end
      | _ => None
      end
  | Fmt_B_Y =>
      match split_space_run s with
      | Some (b, y) =>
          match month_index month_names b 1, parse_Y y with
          | Some m, Some yy => make_date yy m 1
          | _, _ => None
          end
      | None => None
      end
  | Fmt_m_Y =>
      match split_on "/" s with
      | [m; y] =>
          match parse_m m, parse_Y y with
          | Some mm, Some yy => make_date yy mm 1
          | _, _ => None
          end
      | _ => None
      end
  | Fmt_Y_m =>
      match split_on "-" s with
      | [y; m] =>
          match parse_Y y, parse_m m with
          | Some yy, Some mm => make_date yy mm 1
          | _, _ => None
          end
      | _ => None
      end
  | Fmt_Y_m_d =>
      match split_on "-" s with
      | [y; m; d] =>
          match parse_Y y, parse_m m, parse_d d with
          | Some yy, Some mm, Some dd => make_date yy mm dd
          | _, _, _ => None
          end
      | _ => None
      end
  end.

(** The formats tried on a string header, in this order. *)
Definition common_formats : list date_format :=
  [Fmt_b_y; Fmt_B_Y; Fmt_m_Y; Fmt_Y_m; Fmt_Y_m_d].

(** The [for fmt in ...] loop: the first format that parses wins. *)
Fixpoint try_formats (fmts : list date_format) (s : string) : option Timestamp :=
  match fmts with
  | [] => None
  | f :: r =>
      match strptime f s with
      | Some t => Some t
      | None => try_formats r s
      end
  end.

(** [datetime(2025, 6, 30)] *)
Definition forecast_cutoff : Timestamp := mkTimestamp 2025 6 30 0.

(** A timestamp strictly after midnight of 2025-06-30. *)
Definition after_cutoff (t : Timestamp) : Prop :=
  (2025 < Pandas.year t \/
   (Pandas.year t = 2025 /\
    (6 < Pandas.month t \/
     (Pandas.month t = 6 /\
      (30 < Pandas.day t \/
       (Pandas.day t = 30 /\ 0 < Pandas.time_ns t))))))%Z.

Definition pad2 (z : Z) : string :=
  if (z <? 10)%Z then String "0" (str_of_Z z) else str_of_Z z.

Definition pad4 (z : Z) : string :=
  if (z <? 10)%Z then "000" ++ str_of_Z z
  else if (z <? 100)%Z then "00" ++ str_of_Z z
  else if (z <? 1000)%Z then String "0" (str_of_Z z)
  else str_of_Z z.

(** One entry of [date_info]. *)
Record DateInfo : Type := mkDateInfo
  { col_idx : nat;
    original_header : string;
    parsed_date : Timestamp;
    month : string;
    year : Z;
    quarter : string;
    date : string;
    forecast_type : string }.

(** One entry of [categories_with_rows]. *)
Record CategoryInfo : Set := mkCategoryInfo
  { category : string; actual_row : nat }.

(** An emitted record: column name to value, in insertion order. *)
Definition record : Type := Dict.t pyval.

(** [self.dreams_locations] *)
Definition dreams_locations : list (string * string) :=
  [("Okotoks", "Okotoks"); ("Barlow NE", "Barlow NE");
   ("Eastpoint SE", "Eastpoint SE"); ("Corp", "Corporate");
   ("General", "General")].

Definition location_specific_fields : list string :=
  ["Okotoks Revenue"; "Barlow NE Revenue"; "Eastpoint SE Revenue";
   "Corp Revenue"].

Definition is_location_specific_field (field_name : string)
  : bool * option string :=
  let field_clean := strip field_name in
  if mem field_clean location_specific_fields then
    if contains "Okotoks" field_clean then (true, Some "Okotoks")
    else if contains "Barlow NE" field_clean then (true, Some "Barlow NE")
    else if contains "Eastpoint SE" field_clean then (true, Some "Eastpoint SE")
    else if contains "Corp" field_clean then (true, Some "Corp")
    else (false, None)
  else (false, None).

Definition should_include_field_for_location
  (field_name current_location_key : string) : bool :=
  let '(is_location_specific, field_location) :=
    is_location_specific_field field_name in
  if is_location_specific then
    match field_location with
    | Some l => String.eqb l current_location_key
    | None => false
    end
  else String.eqb current_location_key "General".

(** The entity whose row carries a category, in the words of the
    specification: the location of one of the four per-location revenue
    labels, otherwise "General". *)
Definition entity_of_label (label : string) : string :=
  if String.eqb label "Okotoks Revenue" then "Okotoks"
  else if String.eqb label "Barlow NE Revenue" then "Barlow NE"
  else if String.eqb label "Eastpoint SE Revenue" then "Eastpoint SE"
  else if String.eqb label "Corp Revenue" then "Corp"
  else "General".

Definition standard_cols : list string :=
  ["Location"; "Month"; "Year"; "Quarter"; "Date"; "Forecast Type"].

Section Reader.

(** [pd.to_datetime(cell, errors='coerce')], the library's type-aware
    parser: [Ok None] is [NaT], [Raise] an exception. *)
Variable pd_to_datetime : cell -> result (option Timestamp).

(** [str(v)] for a float, a datetime or another object. *)
Variable repr_other : cell -> string.

(** [str(v)] *)
Definition str_of_cell (v : cell) : string :=
  match v with
  | CStr s => s
  | CInt z => str_of_Z z
  | CBool b => if b then "True" else "False"
  | _ => repr_other v
  end.

(** The cell of column A at a row is a category. *)
Definition labelled (df : Sheet) (r : nat) : bool :=
  notna (values df r 0)
  && negb (is_empty (strip (str_of_cell (values df r 0)))).

(** A discovered category: its row exists, its label is the stripped
    text of the cell in column A, and is not empty. *)
Definition discovered (df : Sheet) (c : CategoryInfo) : Prop :=
  (actual_row c < shape0 df)%nat /\
  category c = strip (str_of_cell (values df (actual_row c) 0)) /\
  is_empty (category c) = false.

(** The cells the loop reads are cleaned without raising. *)
Definition cleanable (df : Sheet) : Prop :=
  forall r c z, values df r c = CInt z -> (Z.abs z < float_overflow_bound)%Z.

(** The parsing of one non-empty header cell: direct parsing first, then
    the string formats. An exception of the direct parser is swallowed
    and leaves no date. *)
Definition parse_header_cell (c : cell) : option Timestamp :=
  match pd_to_datetime c with
  | Raise _ => None
  | Ok (Some t) => Some t
  | Ok None =>
      match c with
      | CStr s => try_formats common_formats (strip s)
      | _ => None
      end
  end.

Definition make_date_info (col : nat) (c : cell) (t : Timestamp) : DateInfo :=
  {| col_idx := col;
     original_header := str_of_cell c;
     parsed_date := t;
     month := nth (Z.to_nat (Pandas.month t - 1)) month_names "";
     year := Pandas.year t;
     quarter := "Q" ++ str_of_Z ((Pandas.month t - 1) / 3 + 1);
     date := pad4 (Pandas.year t) ++ "-" ++ pad2 (Pandas.month t) ++ "-"
             ++ pad2 (Pandas.day t);
     forecast_type := if ts_ltb forecast_cutoff t then "FORECAST" else "ACTUAL" |}.

(** The loop over [enumerate(row_data)]; [col] is
    [start_col + col_offset]. *)
Fixpoint scan_headers (col : nat) (row_data : list cell) : list DateInfo :=
  match row_data with
  | [] => []
  | c :: r =>
      if notna c then
        match parse_header_cell c with
        | Some t => make_date_info col c t :: scan_headers (S col) r
        | None => scan_headers (S col) r
        end
      else scan_headers (S col) r
  end.

(** [find_date_headers]. The argument is the sheet [pd.read_excel]
    returns, [None] when reading raises. The result is
    [(row_idx, date_info, df_raw)]. *)
Definition find_date_headers (file : option Sheet)
  : option nat * list DateInfo * option Sheet :=
  let body : result (option nat * list DateInfo * option Sheet) :=
    match file with
    | None => Raise OSError
    | Some df_raw =>
        let row_idx := 0 in
        let start_col := 1 in
        row_data <- iloc_row_from df_raw row_idx start_col ;;
        let date_info := scan_headers start_col row_data in
        if (3 <=? List.length date_info)%nat
        then Ok (Some row_idx, date_info, Some df_raw)
        else Ok (None, [], None)
    end in
  match body with
  | Ok r => r
  | Raise _ => (None, [], None)          (* except Exception *)
  end.

(** [extract_categories_from_column_a] *)
Definition extract_categories_from_column_a (df_raw : Sheet)
  : result (list CategoryInfo) :=
  for_each
    (fun categories_with_rows row_idx =>
       cell_value <- iloc df_raw row_idx 0 ;;
       if notna cell_value then
         let category := strip (str_of_cell cell_value) in
         if negb (is_empty category)
         then Ok (categories_with_rows ++ [mkCategoryInfo category row_idx])
         else Ok categories_with_rows
       else Ok categories_with_rows)
    (seq 0 (shape0 df_raw)) [].

(** The body of the [for category_info in categories_with_rows] loop. *)
Definition add_category (df_raw : Sheet) (col_idx : nat) (location_key : string)
  (rec : record) (category_info : CategoryInfo) : result record :=
  let category := category category_info in
  let actual_row := actual_row category_info in
  if negb (is_empty category) && negb (String.eqb category "nan") then
    value <- (if (col_idx <? shape1 df_raw)%nat
              then iloc df_raw actual_row col_idx else Ok (CInt 0)) ;;
    value <- clean_value value ;;
    if should_include_field_for_location category location_key
    then Ok (Dict.set rec category value)
    else Ok (Dict.set rec category (PyInt 0))
  else Ok rec.

(** The record of one date and one location. *)
Definition make_record (df_raw : Sheet) (categories_with_rows : list CategoryInfo)
  (date_item : DateInfo) (location : string * string) : result record :=
  let '(location_key, location_name) := location in
  let rec : record :=
    [("Location", PyStr location_name);
     ("Month", PyStr (month date_item));
     ("Year", PyInt (year date_item));
     ("Quarter", PyStr (quarter date_item));
     ("Date", PyStr (date date_item));
     ("Forecast Type", PyStr (forecast_type date_item))] in
  for_each (add_category df_raw (col_idx date_item) location_key)
           categories_with_rows rec.

(** [create_raw_data_records] *)
Definition create_raw_data_records (df_raw : Sheet) (date_info : list DateInfo)
  (categories_with_rows : list CategoryInfo) : result (list record) :=
  for_each
    (fun raw_data_records date_item =>
       for_each
         (fun raw_data_records location =>
            rec <- make_record df_raw categories_with_rows date_item location ;;
            Ok (raw_data_records ++ [rec]))
         dreams_locations raw_data_records)
    date_info [].

(** The labels that [add_category] writes, in the order of the
    categories. *)
Definition written_labels (categories_with_rows : list CategoryInfo) : list string :=
  map category
      (filter (fun c => negb (is_empty (category c))
                        && negb (String.eqb (category c) "nan"))
              categories_with_rows).

(** Columns of [pd.DataFrame(records)]: the keys of the records in order
    of first appearance. *)
Fixpoint add_new (cols ks : list string) : list string :=
  match ks with
  | [] => cols
  | k :: r => add_new (if mem k cols then cols else cols ++ [k]) r
  end.

Definition frame_columns (records : list record) : list string :=
  fold_left (fun cols r => add_new cols (Dict.keys r)) records [].

(** The table written by [save_raw_data]: the ordered columns and the
    rows. *)
Record RawData : Type := mkRawData
  { column_order : list string; rows : list record }.

(** [save_raw_data], up to the files written; selecting a column the
    frame lacks raises [KeyError]. *)
Definition save_raw_data (raw_data_records : list record)
  : result (option RawData) :=
  match raw_data_records with
  | [] => Ok None
  | _ =>
      let columns := frame_columns raw_data_records in
      let other_cols :=
        sorted (filter (fun col => negb (mem col standard_cols)) columns) in
      let column_order := standard_cols ++ other_cols in
      if forallb (fun c => mem c columns) column_order
      then Ok (Some (mkRawData column_order raw_data_records))
      else Raise KeyError
  end.

(** [create_dreams_raw_data], up to the saved table ([show_summary] only
    prints). [None] is the failed result. *)
Definition create_dreams_raw_data (file : option Sheet)
  : result (option RawData) :=
  let '(date_row_idx, date_info, df_raw) := find_date_headers file in
  match date_info, df_raw with
  | [], _ => Ok None
  | _, None => Ok None
  | _ :: _, Some df_raw =>
      categories_with_rows <- extract_categories_from_column_a df_raw ;;
      match categories_with_rows with
      | [] => Ok None
      | _ =>
          raw_data_records <-
            create_raw_data_records df_raw date_info categories_with_rows ;;
          match raw_data_records with
          | [] => Ok None
          | _ => save_raw_data raw_data_records
          end
      end
  end.

End Reader.

End Etl.

(* ================================================================== *)
(** * normalized_raw_data.py: class FixedColumnProcessor *)
(* ================================================================== *)

Module Processor.

(** [self.normalized_columns], in declaration order. *)
Definition normalized_columns : list string :=
  ["Administrative"; "Bank Charges"; "Licenses & Subscriptions"; "Office Supplies";
   "Professional Fees"; "Telephone"; "Date"; "Date Header"; "Forecast Type";
   "Month"; "Quarter"; "Year"; "Insurance"; "Land Lease"; "Property Tax";
   "Utilities - Energy"; "Utilities - Water"; "Waste Disposal"; "Annualized Revenue";
   "Payroll Expenses"; "WCB"; "Advertising & Promotion"; "Client Reimbursement";
   "Sponsorship/Fundraiser"; "Car Wash Supplies"; "Equipment Rental"; "Landscaping";
   "Repairs & Maintenance"; "Shop Supplies"; "Uniforms"; "Annualized EBITDA";
   "Annualized Net Income"; "Barlow NE Revenue"; "Combined EBITDA"; "Consulting Services";
   "Delivery, Shipping"; "Eastpoint SE Revenue"; "Okotoks Revenue"; "Total Combined Net Income";
   "Total Interest Expense"; "Total Revenue"; "Other Expenses"; "Total Expenses";
   "Software Fees"; "Chemicals"; "Merchant Fees"; "Product"; "Total Direct Expenses";
   "Location"; "Rent/Lease"; "Utilities"; "Gross Profit"; "Gross Profit %";
   "Net Operating Income"; "Meals & Entertainment"; "Members (End of Month)";
   "Hydrovac Cleaning"; "PPE & Safety"; "Security"; "Tools"; "Total Indirect Expenses";
   "Travel"; "Wages"; "Windshield Tags"; "Discounts"; "Revenue Share"; "Ancillary Sales";
   "Gift Card Sales"; "Service Revenue"; "Member Wash Count"; "Direct Costs";
   "% of Revenue"; "Salary & Wages"; "Avg Revenue per Member"; "Member Wash Frequency";
   "Member Wash Volume %"; "Revenue per Member Wash"; "Revenue per Retail Wash";
   "Revenue per Total Wash"; "Member Wash Revenue"; "Retail Wash Count";
   "Retail Wash Revenue"; "Total Wash Count"; "Office Expenses"; "Amortization";
   "Interest and bank charges"; "Tounel Express"; "Vehicle"; "Interest Income";
   "Lease Revenue"; "Lube Shop Revenue"; "Office Sales"; "Self Serve Sales"; "Cash Sales"].

(** [numeric_columns] of [run_processing]. *)
Definition numeric_columns : list string :=
  ["% of Revenue"; "Administrative"; "Advertising & Promotion"; "Amortization";
   "Ancillary Sales"; "Annualized EBITDA"; "Annualized Net Income"; "Annualized Revenue";
   "Avg Revenue per Member"; "Bank Charges"; "Barlow NE Revenue"; "Car Wash Supplies";
   "Cash Sales"; "Chemicals"; "Client Reimbursement"; "Combined EBITDA";
   "Consulting Services"; "Delivery, Shipping"; "Direct Costs"; "Discounts";
   "Eastpoint SE Revenue"; "Equipment Rental"; "Gift Card Sales"; "Gross Profit";
   "Gross Profit %"; "Hydrovac Cleaning"; "Insurance"; "Interest Income";
   "Interest and bank charges"; "Land Lease"; "Landscaping"; "Lease Revenue";
   "Licenses & Subscriptions"; "Lube Shop Revenue"; "Meals & Entertainment";
   "Member Wash Count"; "Member Wash Frequency"; "Member Wash Revenue";
   "Member Wash Volume %"; "Members (End of Month)"; "Merchant Fees";
   "Net Operating Income"; "Office Expenses"; "Office Sales"; "Office Supplies";
   "Okotoks Revenue"; "Other Expenses"; "PPE & Safety"; "Payroll Expenses";
   "Product"; "Professional Fees"; "Property Tax"; "Rent/Lease";
   "Repairs & Maintenance"; "Retail Wash Count"; "Retail Wash Revenue";
   "Revenue Share"; "Revenue per Member Wash"; "Revenue per Retail Wash";
   "Revenue per Total Wash"; "Salary & Wages"; "Security"; "Self Serve Sales";
   "Service Revenue"; "Shop Supplies"; "Sponsorship/Fundraiser"; "Telephone";
   "Tools"; "Total Combined Net Income"; "Total Direct Expenses"; "Total Expenses";
   "Total Interest Expense"; "Total Revenue"; "Total Wash Count"; "Tounel Express";
   "Travel"; "Uniforms"; "Utilities"; "Utilities - Energy"; "Utilities - Water";
   "Vehicle"; "WCB"; "Wages"; "Waste Disposal"; "Windshield Tags"].

(** [standard_columns] of [create_normalized_output_with_verification]. *)
Definition standard_columns : list string :=
  ["Record ID"; "File Name"; "Client Name"; "Location"; "Month"; "Year";
   "Quarter"; "Date"; "Forecast Type"].

(** [financial_columns] of the same method. *)
Definition financial_columns : list string :=
  ["Total Revenue"; "Total Expenses"; "Administrative"; "Annualized Revenue"].

(** [client_fixes]: the manual column fixes, keyed by client name. *)
Definition client_fixes : Dict.t (Dict.t string) :=
  [("Great White Car Wash", [("Total - Revenue", "Total Revenue")]);
   ("Nolan Hill Car Wash", [("Total - Revenue", "Total Revenue")]);
   ("Dreams Car Wash", [("Total Location Revenue", "Total Revenue")]);
   ("Mint Med Hat Car Wash", [("Total - Revenue", "Total Revenue")])].

(** One row of the master dataframe; [None] is a missing value. The three
    columns hold text. *)
Record MasterRow : Set := mkMasterRow
  { Client_Name : option string;
    Original_Column_Names : option string;
    Normalized_Column_Name : option string }.

(** A dataframe with named columns: column name to column values, in
    column order. All columns have the same length. *)
Definition Frame : Type := Dict.t (list cell).

(** [len(df)] *)
Definition len (df : Frame) : nat :=
  match df with
  | [] => 0
  | (_, c) :: _ => List.length c
  end.

Definition option_eqb (a : option string) (b : string) : bool :=
  match a with Some x => String.eqb x b | None => false end.

(** [suffixes] of [extract_client_name], in the order they are tried. *)
Definition suffixes : list string :=
  [" Raw Data"; " Data"; " Dashboard_01292025"; " Dashboard_01232025";
   " Forecast Analysis_01022025"].

(** The [for suffix in suffixes] loop: the first suffix the name ends
    with is cut off, and the loop stops. *)
Fixpoint strip_first_suffix (sufs : list string) (name : string) : string :=
  match sufs with
  | [] => name
  | suffix :: r =>
      if endswith name suffix then drop_last (String.length suffix) name
      else strip_first_suffix r name
  end.

(** [extract_client_name] *)
Definition extract_client_name (filename : string) : string :=
  let name :=
    if endswith filename ".xlsx" then drop_last 5 filename
    else if endswith filename ".xls" then drop_last 4 filename
    else filename in
  strip (strip_first_suffix suffixes name).

(** What [find_raw_data_sheet] returns: a sheet name, or the index [0]. *)
Inductive sheet_ref : Set :=
| SheetName (s : string)
| SheetIndex (n : nat).

Definition raw_data_variants : list string :=
  ["raw data"; "Raw data"; "RAW DATA"; "rawdata"; "RawData"].

(** [find_raw_data_sheet], from the sheet names of the workbook; [Raise]
    stands for a workbook that cannot be opened. *)
Definition find_raw_data_sheet (sheet_names : result (list string)) : sheet_ref :=
  match sheet_names with
  | Raise _ => SheetIndex 0                       (* except: return 0 *)
  | Ok sheet_names =>
      if mem "Raw Data" sheet_names then SheetName "Raw Data"
      else
        match find (fun variant => mem variant sheet_names) raw_data_variants with
        | Some variant => SheetName variant
        | None =>
            match sheet_names with
            | first :: _ => SheetName first      (* sheet_names[0] *)
            | [] => SheetIndex 0                  (* IndexError, caught *)
            end
        end
  end.

(** The two metadata columns [load_excel_file] sets on every row of a
    sheet. *)
Definition add_metadata (df : Frame) (file_name : string) : Frame :=
  let client_name := extract_client_name file_name in
  let df := Dict.set df "Client Name" (repeat (CStr client_name) (len df)) in
  Dict.set df "File Name" (repeat (CStr file_name) (len df)).

(** Every column of the frame has [len df] values. *)
Definition rectangular (df : Frame) : bool :=
  forallb (fun kv => Nat.eqb (List.length (snd kv)) (len df)) df.

Section Loader.

(** The evaluation of [f"{series.sum():,.2f}"], whose text is only
    printed: it returns, or raises what the sum of the column or the
    formatting of the total raises. *)
Variable format_total : list cell -> result unit.

(** The "verify key totals" step of [load_excel_file], inside its
    [try]. *)
Definition verify_key_totals (df : Frame) (client_name : string) : result unit :=
  if String.eqb client_name "Mint Med Hat Car Wash"
     && Dict.has df "Total - Revenue"
  then
    match Dict.get df "Total - Revenue" with
    | Some series => format_total series
    | None => Raise KeyError
    end
  else Ok tt.

(** [load_excel_file], from the sheet [pd.read_excel] returns ([Raise]
    when reading fails) and the name of the file. *)
Definition load_excel_file (sheet : result Frame) (file_name : string)
  : option Frame :=
  let body : result Frame :=
    df <- sheet ;;
    let client_name := extract_client_name file_name in
    checked <- verify_key_totals df client_name ;;
    Ok (add_metadata df file_name) in
  match body with
  | Ok df => Some df
  | Raise _ => None                                (* except: return None *)
  end.

End Loader.

(** [pd.concat(frames, ignore_index=True, sort=False)]: the columns of
    the frames in order of first appearance, the rows of the frames one
    after the other, a frame without a column contributing missing
    values. *)
Definition concat_columns (frames : list Frame) : list string :=
  fold_left (fun cols df => Etl.add_new cols (Dict.keys df)) frames [].

Definition concat (frames : list Frame) : Frame :=
  map (fun col =>
         (col,
          flat_map (fun df =>
                      match Dict.get df col with
                      | Some c => c
                      | None => repeat CNaN (len df)
                      end) frames))
      (concat_columns frames).

Section Resolver.

(** The search predicate of the regular expression [pat] compiled
    ignoring case, as [Series.str.contains(pat, case=False)] applies it to
    each text value; [Raise ReError] when [pat] is not a valid
    expression. *)
Variable re_search_nocase : string -> result (string -> bool).

(** The mapping built from the client's own rows: the last row of an
    original name wins. *)
Definition client_specific (client_mappings : list MasterRow) : Dict.t string :=
  fold_left
    (fun mapping row =>
       match Original_Column_Names row, Normalized_Column_Name row with
       | Some original_col, Some normalized_col =>
           Dict.set mapping original_col normalized_col
       | _, _ => mapping
       end)
    client_mappings Dict.empty.

(** The inner loop of the generic fallback, for one [norm_name]. *)
Definition generic_step (master_df : list MasterRow) (mapping : Dict.t string)
  (norm_name : string) : Dict.t string :=
  let matching_rows :=
    filter (fun row => option_eqb (Normalized_Column_Name row) norm_name)
           master_df in
  fold_left
    (fun mapping row =>
       match Original_Column_Names row with
       | Some original_col =>
           if negb (Dict.has mapping original_col)
           then Dict.set mapping original_col norm_name
           else mapping
       | None => mapping
       end)
    matching_rows mapping.

(** The generic fallback: canonical names in declaration order. *)
Definition generic_mapping (master_df : list MasterRow) : Dict.t string :=
  fold_left (generic_step master_df) normalized_columns Dict.empty.

(** The master dataframe has a row that maps [original_col] to
    [norm_name]. *)
Definition has_rule (master_df : list MasterRow) (original_col norm_name : string)
  : bool :=
  existsb (fun row => option_eqb (Original_Column_Names row) original_col
                      && option_eqb (Normalized_Column_Name row) norm_name)
          master_df.

(** The manual fixes of [client_name], written over [mapping]. *)
Definition apply_client_fixes (client_name : string) (mapping : Dict.t string)
  : Dict.t string :=
  match Dict.get client_fixes client_name with
  | Some fixes =>
      fold_left (fun mapping fx => Dict.set mapping (fst fx) (snd fx))
                fixes mapping
  | None => mapping
  end.

(** The mapping the master dataframe gives before the manual fixes: the
    client's own rows when the filter selects any, otherwise the generic
    fallback. [search] is the compiled filter of the client. *)
Definition reference_mapping (master_df : list MasterRow)
  (search : string -> bool) : Dict.t string :=
  let client_mappings :=
    filter (fun row =>
              match Client_Name row with
              | Some c => search c
              | None => false                  (* na=False *)
              end)
           master_df in
  if (0 <? List.length client_mappings)%nat
  then client_specific client_mappings
  else generic_mapping master_df.

(** [create_client_specific_mapping]; [master_df = None] is a master
    dataframe that was not loaded. *)
Definition create_client_specific_mapping (master_df : option (list MasterRow))
  (client_name : string) : result (Dict.t string) :=
  match master_df with
  | None => Ok Dict.empty
  | Some master_df =>
      token <- match split client_name with
               | [] => Raise IndexError        (* client_name.split()[0] *)
               | t :: _ => Ok t
               end ;;
      search <- re_search_nocase token ;;
      let mapping := reference_mapping master_df search in
      Ok (apply_client_fixes client_name mapping)
  end.

(** A client value whose name has a first token that compiles. *)
Definition resolvable (client : cell) : Prop :=
  exists client_name token rest search,
    client = CStr client_name /\
    split client_name = token :: rest /\
    re_search_nocase token = Ok search.

(** ** Record normaliser *)

(** [pd.to_numeric(series, errors='coerce')]: the converted series, or
    the exception the conversion raises. *)
Variable pd_to_numeric : list cell -> result (list cell).

Definition is_numeric_cell (v : cell) : bool :=
  match v with
  | CNaN | CInt _ | CFloat _ | CBool _ => true
  | _ => false
  end.

(** [pd.api.types.is_numeric_dtype(series)]: a column that holds numbers
    and missing values only. *)
Definition is_numeric_dtype (series : list cell) : bool :=
  forallb is_numeric_cell series.

Definition timestamp_eqb (a b : Timestamp) : bool :=
  (Pandas.year a =? Pandas.year b)%Z && (Pandas.month a =? Pandas.month b)%Z
  && (Pandas.day a =? Pandas.day b)%Z && (Pandas.time_ns a =? Pandas.time_ns b)%Z.

(** [a == b] on scalars; a missing value equals nothing. *)
Definition cell_eqb (a b : cell) : bool :=
  match a, b with
  | CStr x, CStr y => String.eqb x y
  | CInt x, CInt y => (x =? y)%Z
  | CFloat x, CFloat y => Qeq_bool x y
  | CBool x, CBool y => Bool.eqb x y
  | CDatetime x, CDatetime y => timestamp_eqb x y
  | _, _ => false
  end.

(** [series.unique()]: values in order of first appearance, the missing
    value at most once. *)
Definition same_value (a b : cell) : bool :=
  cell_eqb a b || (isna a && isna b).

Fixpoint unique_from (seen : list cell) (series : list cell) : list cell :=
  match series with
  | [] => []
  | v :: r =>
      if existsb (same_value v) seen then unique_from seen r
      else v :: unique_from (v :: seen) r
  end.

Definition unique (series : list cell) : list cell := unique_from [] series.

(** Index of the rows selected by [series == client]. *)
Definition indices_where (series : list cell) (client : cell) : list nat :=
  map fst (filter (fun p => cell_eqb (snd p) client)
                  (combine (seq 0 (List.length series)) series)).

(** [series.loc[indices]] *)
Definition take (series : list cell) (indices : list nat) : list cell :=
  map (fun i => nth i series CNaN) indices.

Fixpoint update (i : nat) (v : cell) (series : list cell) : list cell :=
  match series, i with
  | [], _ => []
  | _ :: r, O => v :: r
  | x :: r, S j => x :: update j v r
  end.

(** [series.loc[indices] = vals] *)
Fixpoint assign (series : list cell) (indices : list nat) (vals : list cell)
  : list cell :=
  match indices, vals with
  | i :: indices', v :: vals' => assign (update i v series) indices' vals'
  | _, _ => series
  end.

(** [df[col]] *)
Definition column (df : Frame) (col : string) : result (list cell) :=
  match Dict.get df col with
  | Some c => Ok c
  | None => Raise KeyError
  end.

(** [df.loc[indices, col] = vals] for an existing column. *)
Definition loc_assign (df : Frame) (indices : list nat) (col : string)
  (vals : list cell) : Frame :=
  match Dict.get df col with
  | Some c => Dict.set df col (assign c indices vals)
  | None => df
  end.

(** [try: numeric_data = pd.to_numeric(source_data, errors='coerce');
    result_df.loc[client_indices, normalized_col] = numeric_data.values]
    with its [except Exception], which writes [source_data.values]. *)
Definition assign_numeric (result_df : Frame) (client_indices : list nat)
  (normalized_col : string) (source_data : list cell) : Frame :=
  match pd_to_numeric source_data with
  | Ok numeric_data =>
      loc_assign result_df client_indices normalized_col numeric_data
  | Raise _ =>
      loc_assign result_df client_indices normalized_col source_data
  end.

(** The body of the [for original_col, normalized_col in mapping.items()]
    loop. *)
Definition apply_mapping (combined_df : Frame) (client_indices : list nat)
  (sorted_normalized : list string) (result_df : Frame)
  (item : string * string) : Frame :=
  let '(original_col, normalized_col) := item in
  if Dict.has combined_df original_col && mem normalized_col sorted_normalized
  then
    let skip :=
      if Dict.has result_df normalized_col && mem normalized_col standard_columns
      then
        let existing_data :=
          match Dict.get result_df normalized_col with
          | Some c => take c client_indices
          | None => []
          end in
        existsb notna existing_data
      else false in
    if skip then result_df                                   (* continue *)
    else
      let result_df :=
        if negb (Dict.has result_df normalized_col)
        then Dict.set result_df normalized_col (repeat CNaN (len result_df))
        else result_df in
      let source_data :=
        match Dict.get combined_df original_col with
        | Some c => c
        | None => []
        end in
      if mem normalized_col financial_columns
         || contains "Revenue" normalized_col
         || contains "Expense" normalized_col
      then assign_numeric result_df client_indices normalized_col
             (take source_data client_indices)
      else if is_numeric_dtype source_data
      then loc_assign result_df client_indices normalized_col
             (take source_data client_indices)
      else assign_numeric result_df client_indices normalized_col
             (take source_data client_indices)
  else result_df.

(** The mapping of one client value of the 'Client Name' column; a value
    that is not text has no [split]. *)
Definition mapping_of_client (master_df : option (list MasterRow)) (client : cell)
  : result (Dict.t string) :=
  match client with
  | CStr client_name => create_client_specific_mapping master_df client_name
  | _ => match master_df with
         | None => Ok Dict.empty
         | Some _ => Raise AttributeError
         end
  end.

(** The body of the [for client in clients] loop. *)
Definition process_client (master_df : option (list MasterRow))
  (combined_df : Frame) (names : list cell) (sorted_normalized : list string)
  (result_df : Frame) (client : cell) : result Frame :=
  let client_indices := indices_where names client in
  mapping <- mapping_of_client master_df client ;;
  Ok (fold_left (apply_mapping combined_df client_indices sorted_normalized)
                mapping result_df).

(** [create_normalized_output_with_verification] *)
Definition create_normalized_output_with_verification
  (master_df : option (list MasterRow)) (combined_df : Frame) : result Frame :=
  let result_df : Frame :=
    fold_left
      (fun result_df col =>
         match Dict.get combined_df col with
         | Some c => Dict.set result_df col c
         | None => result_df
         end)
      standard_columns Dict.empty in
  names <- column combined_df "Client Name" ;;
  let clients := unique names in
  let sorted_normalized := sorted normalized_columns in
  let result_df :=
    fold_left
      (fun result_df norm_col =>
         if negb (Dict.has result_df norm_col)
         then Dict.set result_df norm_col (repeat CNaN (len result_df))
         else result_df)
      sorted_normalized result_df in
  for_each (process_client master_df combined_df names sorted_normalized)
           clients result_df.

(** The final loop of [run_processing]: every listed column that exists
    is converted with [pd.to_numeric]; a column on which the conversion
    raises is left as it is. *)
Definition force_numeric (result_df : Frame) : Frame :=
  fold_left
    (fun result_df col =>
       match Dict.get result_df col with
       | Some c =>
           match pd_to_numeric c with
           | Ok numeric => Dict.set result_df col numeric
           | Raise _ => result_df                  (* except: warning only *)
           end
       | None => result_df
       end)
    numeric_columns result_df.

(** What the final loop leaves in a column it visits. *)
Definition forced (series : list cell) : list cell :=
  match pd_to_numeric series with
  | Ok numeric => numeric
  | Raise _ => series
  end.

(** [run_processing] from the concatenated files to the table written
    out. *)
Definition run_processing (master_df : option (list MasterRow))
  (combined_df : Frame) : result Frame :=
  let combined_df :=
    Dict.set combined_df "Record ID"
      (map (fun i => CInt (Z.of_nat i)) (seq 1 (len combined_df))) in
  result_df <- create_normalized_output_with_verification master_df combined_df ;;
  Ok (force_numeric result_df).

(** [run_processing] from the loaded files ([None] for a file that
    failed to load): nothing is written when no file loaded. *)
Definition run_processing_files (master_df : option (list MasterRow))
  (loaded : list (option Frame)) : result (option Frame) :=
  let all_dataframes :=
    flat_map (fun df => match df with Some d => [d] | None => [] end) loaded in
  match all_dataframes with
  | [] => Ok None
  | _ =>
      out <- run_processing master_df (concat all_dataframes) ;;
      Ok (Some out)
  end.

End Resolver.

End Processor.

(* ================================================================== *)
(** * Concrete inputs used in examples *)
(* ================================================================== *)

Module Fixtures.

(** A direct parser that recognises datetime cells only and leaves every
    string to the format list. *)
Definition datetime_cells_only (c : cell) : result (option Timestamp) :=
  match c with
  | CDatetime t => Ok (Some t)
  | _ => Ok None
  end.

Definition repr_placeholder (c : cell) : string := "?".

(** The search of a pattern without metacharacters: the text contains the
    pattern, ignoring case. *)
Definition literal_search_nocase (pat : string) : result (string -> bool) :=
  Ok (fun text => contains (lower pat) (lower text)).

(** A stand-in for the numeric conversion: it fails on an integer
    outside the float range, and otherwise keeps numbers and turns every
    other value into a missing value (no text is taken for a number). *)
Definition coerce_to_numeric (series : list cell) : result (list cell) :=
  if existsb (fun v => match v with
                       | CInt z => negb (Z.abs z <? Coercion.float_overflow_bound)%Z
                       | _ => false
                       end) series
  then Raise OverflowError
  else Ok (map (fun v => match v with
                         | CInt _ | CFloat _ | CBool _ => v
                         | _ => CNaN
                         end) series).

(** A stand-in for the total check: the total of a column of numbers can
    be formatted, any other column makes it fail. *)
Definition numeric_total_only (series : list cell) : result unit :=
  if forallb Processor.is_numeric_cell series then Ok tt else Raise TypeError.

(** A small master dataframe: one client with two rules, and an original
    name claimed by two canonical names. *)
Definition sample_master : list Processor.MasterRow :=
  [Processor.mkMasterRow (Some "Great White Car Wash") (Some "Sales") (Some "Total Revenue");
   Processor.mkMasterRow (Some "Great White Car Wash") (Some "Total - Revenue") (Some "Gross Profit");
   Processor.mkMasterRow (Some "Splash") (Some "Power") (Some "Utilities");
   Processor.mkMasterRow (Some "Bubbles") (Some "Power") (Some "Utilities - Energy")].

(** The header cells of the discovery scenario. *)
Definition scenario_row : list cell :=
  [CStr "Jan-23"; CStr "Feb-23"; CStr "not a date"; CStr "Mar-23"].

Definition scenario_sheet : Sheet :=
  sheet_of_rows [CNaN :: scenario_row;
                 [CStr "Rent"; CInt 10; CInt 20; CInt 30; CInt 40]].

(** A ledger with three periods, the revenue of two locations and a
    shared total. *)
Definition ledger_sheet : Sheet :=
  sheet_of_rows
    [[CNaN; CStr "Jan-23"; CStr "Feb-23"; CStr "Mar-23"];
     [CStr "Okotoks Revenue"; CInt 100; CStr "$1,100.50"; CNaN];
     [CStr "Barlow NE Revenue"; CInt 200; CInt 210; CInt 220];
     [CStr " Total Location Revenue "; CInt 300; CInt 310; CInt 320]].

(** A ledger in which the label "Rent" appears on two rows. *)
Definition duplicate_label_sheet : Sheet :=
  sheet_of_rows
    [[CNaN; CStr "Jan-23"; CStr "Feb-23"; CStr "Mar-23"];
     [CStr "Rent"; CInt 10; CInt 20; CInt 30];
     [CStr "Rent"; CInt 1; CInt 2; CInt 3]].

(** A ledger with two date headers only. *)
Definition two_dates_sheet : Sheet :=
  sheet_of_rows [[CNaN; CStr "Jan-23"; CStr "Feb-23"];
                 [CStr "Rent"; CInt 10; CInt 20]].

(** Two files combined: client "Splash" has locations, client "Bubbles"
    has none. *)
Definition sample_combined : Processor.Frame :=
  [("Power", [CStr "12"; CStr "n/a"; CNaN]);
   ("Site", [CNaN; CNaN; CStr "North"]);
   ("Location", [CStr "Main St"; CNaN; CNaN]);
   ("Client Name", [CStr "Splash"; CStr "Splash"; CStr "Bubbles"]);
   ("File Name", [CStr "Splash Raw Data.xlsx"; CStr "Splash Raw Data.xlsx";
                  CStr "Bubbles Data.xlsx"])].

Definition sample_rules : list Processor.MasterRow :=
  [Processor.mkMasterRow (Some "Splash") (Some "Power") (Some "Utilities");
   Processor.mkMasterRow (Some "Splash") (Some "Site") (Some "Location");
   Processor.mkMasterRow (Some "Bubbles") (Some "Site") (Some "Location")].

(** A combined table without any of the date and location columns. *)
Definition bare_combined : Processor.Frame :=
  [("Sales", [CInt 5]);
   ("Client Name", [CStr "Splash"]);
   ("File Name", [CStr "Splash Raw Data.xlsx"])].

(** A combined table that has every standard column. *)
Definition full_combined : Processor.Frame :=
  [("Location", [CStr "Main St"]); ("Month", [CStr "January"]);
   ("Year", [CInt 2023]); ("Quarter", [CStr "Q1"]);
   ("Date", [CStr "2023-01-01"]); ("Forecast Type", [CStr "ACTUAL"]);
   ("Sales", [CInt 5]);
   ("Client Name", [CStr "Splash"]);
   ("File Name", [CStr "Splash Raw Data.xlsx"])].

(** One emitted record with two categories. *)
Definition sample_records : list Etl.record :=
  [[("Location", Coercion.PyStr "General"); ("Month", Coercion.PyStr "January");
    ("Year", Coercion.PyInt 2023); ("Quarter", Coercion.PyStr "Q1");
    ("Date", Coercion.PyStr "2023-01-01");
    ("Forecast Type", Coercion.PyStr "ACTUAL");
    ("Rent", Coercion.PyFloat (10 # 1));
    ("Administrative", Coercion.PyFloat (5 # 1))]].




(** Four files: one that cannot be read, and a "Mint Med Hat Car Wash"
    file whose "Total - Revenue" column holds a text. *)
Definition sample_files : list (result Processor.Frame * string) :=
  [(Ok [("Sales", [CInt 5; CInt 6])], "Splash Raw Data.xlsx");
   (Raise OSError, "Broken.xlsx");
   (Ok [("Total - Revenue", [CStr "Total"; CInt 3])],
    "Mint Med Hat Car Wash Raw Data.xlsx");
   (Ok [("Power", [CStr "12"])], "Bubbles Data.xls")].

(** A ledger whose month headers straddle the forecast cutoff. *)
Definition cutoff_sheet : Sheet :=
  sheet_of_rows [[CNaN; CStr "Jun-25"; CStr "Jul-25"; CStr "Aug-25"];
                 [CStr "Rent"; CInt 1; CInt 2; CInt 3]].

(** The dates discovered on it, with the placeholder for [repr]. *)
Definition cutoff_dates : list Etl.DateInfo :=
  [Etl.make_date_info repr_placeholder 1 (CStr "Jun-25") (mkTimestamp 2025 6 1 0);
   Etl.make_date_info repr_placeholder 2 (CStr "Jul-25") (mkTimestamp 2025 7 1 0);
   Etl.make_date_info repr_placeholder 3 (CStr "Aug-25") (mkTimestamp 2025 8 1 0)].

(** A result table with text left in a financial column. *)
Definition texty_result : Processor.Frame :=
  [("Client Name", [CStr "Splash"; CStr "Splash"]);
   ("Total Revenue", [CStr "Total"; CInt 7]);
   ("Location", [CStr "Main St"; CNaN])].

End Fixtures.

(* ================================================================== *)
(** * Facts about the prelude *)
(* ================================================================== *)

Module PyFacts.

Lemma mem_In x xs : mem x xs = true <-> In x xs.
Proof.
  unfold mem. rewrite existsb_exists. split.
  - intros [y [Hy He]]. apply String.eqb_eq in He. now subst.
  - intros H. exists x. split; [assumption | apply String.eqb_refl].
Qed.

Lemma mem_false_iff x xs : mem x xs = false <-> ~ In x xs.
Proof.
  rewrite <- mem_In. destruct (mem x xs); split; congruence.
Qed.

Lemma for_each_app {A S} (body : S -> A -> result S) xs ys st :
  for_each body (xs ++ ys) st =
  match for_each body xs st with
  | Ok st' => for_each body ys st'
  | Raise e => Raise e
  end.
Proof.
  revert st. induction xs as [|x xs IH]; intros st; simpl; [reflexivity|].
  destruct (body st x); [apply IH | reflexivity].
Qed.

(** A loop that appends one computed item per element returns the items
    in order, after the initial list. *)
Lemma for_each_collect {A B} (g : A -> result B) xs acc out :
  for_each (fun acc x => y <- g x ;; Ok (acc ++ [y])) xs acc = Ok out <->
  exists ys, Forall2 (fun x y => g x = Ok y) xs ys /\ out = acc ++ ys.
Proof.
  revert acc out. induction xs as [|x xs IH]; intros acc out; simpl.
  - split.
    + intros H. inversion H. exists []. split; [constructor | now rewrite app_nil_r].
    + intros [ys [HF ->]]. inversion HF. now rewrite app_nil_r.
  - destruct (g x) as [y|e] eqn:G; simpl.
    + rewrite IH. split.
      * intros [ys [HF ->]]. exists (y :: ys). split; [now constructor|].
        now rewrite <- app_assoc.
      * intros [ys [HF ->]]. inversion HF; subst.
        assert (y0 = y) by congruence. subst y0.
        exists l'. split; [assumption | now rewrite <- app_assoc].
    + split; [discriminate|]. intros [ys [HF _]]. inversion HF; subst. congruence.
Qed.

(** ** The order of strings *)

Lemma ascii_compare_refl c : Ascii.compare c c = Eq.
Proof. unfold Ascii.compare. apply N.compare_refl. Qed.

Lemma string_compare_refl s : String.compare s s = Eq.
Proof.
  induction s as [|c s IH]; simpl; [reflexivity|].
  now rewrite ascii_compare_refl.
Qed.

Lemma str_le_refl s : str_le s s.
Proof. unfold str_le, String.leb. now rewrite string_compare_refl. Qed.

Lemma str_le_trans a b c : str_le a b -> str_le b c -> str_le a c.
Proof.
  unfold str_le, String.leb. revert b c.
  induction a as [|x a IH]; intros [|y b] [|z c]; simpl; try congruence.
  unfold Ascii.compare.
  destruct (N.compare_spec (N_of_ascii x) (N_of_ascii y)) as [Exy|Lxy|Gxy];
    destruct (N.compare_spec (N_of_ascii y) (N_of_ascii z)) as [Eyz|Lyz|Gyz];
    try congruence.
  - rewrite Exy, Eyz, N.compare_refl. apply IH.
  - rewrite Exy. intros _ _.
    destruct (N.compare_spec (N_of_ascii y) (N_of_ascii z)); try lia; reflexivity.
  - rewrite <- Eyz. intros _ _.
    destruct (N.compare_spec (N_of_ascii x) (N_of_ascii y)); try lia; reflexivity.
  - intros _ _.
    destruct (N.compare_spec (N_of_ascii x) (N_of_ascii z)); try lia; reflexivity.
Qed.

Lemma str_le_antisym a b : str_le a b -> str_le b a -> a = b.
Proof. apply String.leb_antisym. Qed.

(** [sorted] returns the sorted rearrangement of its argument. *)
Lemma sorted_Sorted xs : Sorted str_le (sorted xs).
Proof. exact (StringSort.Sorted_sort xs). Qed.

Lemma sorted_StronglySorted xs : StronglySorted str_le (sorted xs).
Proof.
  apply Sorted_StronglySorted; [|apply sorted_Sorted].
  intros a b c. apply str_le_trans.
Qed.

Lemma sorted_Permutation xs : Permutation xs (sorted xs).
Proof. exact (StringSort.Permuted_sort xs). Qed.

Lemma sorted_In x xs : In x (sorted xs) <-> In x xs.
Proof.
  split; intros H.
  - eapply Permutation_in; [apply Permutation_sym, sorted_Permutation | exact H].
  - eapply Permutation_in; [apply sorted_Permutation | exact H].
Qed.

Lemma sorted_NoDup xs : NoDup xs -> NoDup (sorted xs).
Proof. apply Permutation_NoDup, sorted_Permutation. Qed.

Lemma StronglySorted_filter {A} (R : A -> A -> Prop) f xs :
  StronglySorted R xs -> StronglySorted R (filter f xs).
Proof.
  induction 1 as [|x xs Hs IH Hall]; simpl; [constructor|].
  destruct (f x); [|assumption].
  constructor; [assumption|].
  rewrite Forall_forall in *. intros y Hy. apply filter_In in Hy. now apply Hall.
Qed.

(** ** [strip] *)

Lemma rstrip_idem s : rstrip (rstrip s) = rstrip s.
Proof.
  induction s as [|c s IH]; simpl; [reflexivity|].
  destruct (is_space c && is_empty (rstrip s)) eqn:E; simpl; [reflexivity|].
  now rewrite IH, E.
Qed.

Lemma lstrip_head s :
  lstrip s = EmptyString \/
  exists c r, lstrip s = String c r /\ is_space c = false.
Proof.
  induction s as [|c s IH]; simpl; [now left|].
  destruct (is_space c) eqn:E; [assumption|].
  right. now exists c, s.
Qed.

Lemma strip_idem s : strip (strip s) = strip s.
Proof.
  unfold strip.
  destruct (lstrip_head s) as [-> | [c [r [-> Hc]]]]; [reflexivity|].
  simpl. rewrite Hc. simpl. rewrite Hc. simpl. rewrite Hc. simpl.
  now rewrite rstrip_idem.
Qed.

End PyFacts.

Module DictFacts.

Import PyFacts.

Section WithValue.
Context {V : Type}.
Implicit Types (d : Dict.t V) (k : string) (v : V).

Lemma get_set_same d k v : Dict.get (Dict.set d k v) k = Some v.
Proof.
  induction d as [|[k' v'] r IH]; simpl.
  - now rewrite String.eqb_refl.
  - destruct (String.eqb k k') eqn:E; simpl; rewrite E; auto.
Qed.

Lemma get_set_other d k k' v :
  k' <> k -> Dict.get (Dict.set d k v) k' = Dict.get d k'.
Proof.
  intros Hne. induction d as [|[k0 v0] r IH]; simpl.
  - destruct (String.eqb k' k) eqn:E;
      [apply String.eqb_eq in E; congruence | reflexivity].
  - destruct (String.eqb k k0) eqn:E; simpl.
    + apply String.eqb_eq in E. subst k0.
      destruct (String.eqb k' k) eqn:E';
        [apply String.eqb_eq in E'; congruence | reflexivity].
    + now rewrite IH.
Qed.

Lemma has_get d k : Dict.has d k = true <-> exists v, Dict.get d k = Some v.
Proof.
  unfold Dict.has, Dict.keys. rewrite mem_In.
  induction d as [|[k0 v0] r IH]; simpl.
  - split; [tauto | intros [v H]; discriminate].
  - destruct (String.eqb k k0) eqn:E.
    + apply String.eqb_eq in E. subst. split; eauto.
    + apply String.eqb_neq in E. rewrite <- IH.
      split; [intros [H|H]; [congruence | assumption] | auto].
Qed.

Lemma has_false_get d k : Dict.has d k = false <-> Dict.get d k = None.
Proof.
  destruct (Dict.has d k) eqn:E.
  - apply has_get in E. destruct E as [v Hv]. rewrite Hv. split; discriminate.
  - split; [intros _ | reflexivity].
    destruct (Dict.get d k) eqn:G; [|reflexivity].
    assert (Dict.has d k = true) by (apply has_get; eauto). congruence.
Qed.

Lemma keys_set d k v :
  Dict.keys (Dict.set d k v) =
  if Dict.has d k then Dict.keys d else Dict.keys d ++ [k].
Proof.
  unfold Dict.has, Dict.keys, mem.
  induction d as [|[k0 v0] r IH]; simpl; [reflexivity|].
  destruct (String.eqb k k0) eqn:E; simpl; [reflexivity|].
  rewrite IH. now destruct (existsb (String.eqb k) (map fst r)).
Qed.

Lemma keys_NoDup_set d k v :
  NoDup (Dict.keys d) -> NoDup (Dict.keys (Dict.set d k v)).
Proof.
  intros H. rewrite keys_set. destruct (Dict.has d k) eqn:E; [assumption|].
  unfold Dict.has in E. apply mem_false_iff in E.
  apply NoDup_app; [assumption | repeat constructor; simpl; tauto |].
  intros x Hx [Hk|[]]. subst. contradiction.
Qed.

End WithValue.

End DictFacts.

(* ================================================================== *)
(** * Value coercion of the transposer *)
(* ================================================================== *)

Module CoercionSpec.

Import Coercion.

Example clean_value_money :
  clean_value (CStr "$1,234.50") = Ok (PyFloat (2469 # 2)).
Proof. reflexivity. Qed.

Example clean_value_parenthesised :
  clean_value (CStr "(12.5)") = Ok (PyFloat (25 # 2)).
Proof. reflexivity. Qed.

Example clean_value_dash : clean_value (CStr " - ") = Ok (PyInt 0).
Proof. reflexivity. Qed.

Example clean_value_two_points : clean_value (CStr "1.2.3") = Ok (PyInt 0).
Proof. reflexivity. Qed.

Example clean_value_text : clean_value (CStr "n/a") = Ok (PyInt 0).
Proof. reflexivity. Qed.

Example clean_value_int : clean_value (CInt 7) = Ok (PyFloat (7 # 1)).
Proof. reflexivity. Qed.

Lemma strip_non_numeric_kept s :
  all_chars keep_char (strip_non_numeric s) = true.
Proof.
  induction s as [|c s IH]; simpl; [reflexivity|].
  destruct (keep_char c) eqn:E; simpl; [now rewrite E | assumption].
Qed.

Lemma strip_non_numeric_fixed s :
  all_chars keep_char s = true -> strip_non_numeric s = s.
Proof.
  induction s as [|c s IH]; simpl; [reflexivity|].
  intros H. apply andb_prop in H. destruct H as [Hc Hs].
  rewrite Hc. now rewrite IH.
Qed.

Lemma float_of_cleaned_empty : float_of_cleaned EmptyString = None.
Proof. reflexivity. Qed.

Lemma clean_value_returns (value : cell) :
  (forall z, value = CInt z -> (Z.abs z < float_overflow_bound)%Z) ->
  exists r, clean_value value = Ok r.
Proof.
  intros Hrange. unfold clean_value.
  destruct value as [|s|z|q|b|t|]; cbn beta iota zeta delta [isna];
    try (eexists; reflexivity).
  - destruct (is_empty (strip_non_numeric s)); [eexists; reflexivity|].
    destruct (float_of_cleaned (strip_non_numeric s)); eexists; reflexivity.
  - unfold float_of_int.
    specialize (Hrange z eq_refl). apply Z.ltb_lt in Hrange. rewrite Hrange.
    eexists. reflexivity.
Qed.

(** C10, as the code has it. The cleaning of a source value returns
    without raising for a missing value, a string, a float, a boolean,
    any other object, and an integer below the float range limit. The
    result is a float or the integer [0] (the literal [0] of the source,
    equal to [0.0] as a number): a missing value and an object of another
    type give the integer [0]; a string loses every character except
    digits, '.' and '-', and gives the float its remainder parses to, or
    the integer [0] when the remainder is empty or does not parse; an
    integer, a float and a boolean give their float. *)
Theorem clean_value_total_in_range (value : cell)
  (Hrange : forall z, value = CInt z -> (Z.abs z < float_overflow_bound)%Z) :
  exists r,
    clean_value value = Ok r /\
    ((exists q, r = PyFloat q) \/ r = PyInt 0) /\
    match value with
    | CNaN | CDatetime _ | COther => r = PyInt 0
    | CStr s =>
        let cleaned := strip_non_numeric s in
        all_chars keep_char cleaned = true /\
        (all_chars keep_char s = true -> cleaned = s) /\
        r = match float_of_cleaned cleaned with
            | Some q => PyFloat q
            | None => PyInt 0
            end
    | CInt z => r = PyFloat (inject_Z z)
    | CFloat q => r = PyFloat q
    | CBool b => r = PyFloat (inject_Z (if b then 1 else 0))
    end.
Proof.
  unfold clean_value.
  destruct value as [|s|z|q|b|t|]; cbn beta iota zeta delta [isna].
  - exists (PyInt 0). auto.
  - pose proof (strip_non_numeric_kept s) as Hk.
    pose proof (strip_non_numeric_fixed s) as Hf.
    destruct (strip_non_numeric s) as [|c r] eqn:E.
    + exists (PyInt 0). cbn [is_empty]. rewrite float_of_cleaned_empty.
      split; [reflexivity|]. split; [now right|]. split; [exact Hk|].
      split; [exact Hf | reflexivity].
    + cbn [is_empty].
      destruct (float_of_cleaned (String c r)) as [q|] eqn:F.
      * exists (PyFloat q).
        split; [reflexivity|]. split; [left; now exists q|]. split; [exact Hk|].
        split; [exact Hf | reflexivity].
      * exists (PyInt 0).
        split; [reflexivity|]. split; [now right|]. split; [exact Hk|].
        split; [exact Hf | reflexivity].
  - unfold float_of_int.
    specialize (Hrange z eq_refl). apply Z.ltb_lt in Hrange. rewrite Hrange.
    exists (PyFloat (inject_Z z)). cbn [bind]. eauto.
  - exists (PyFloat q). eauto.
  - exists (PyFloat (inject_Z (if b then 1 else 0))). eauto.
  - exists (PyInt 0). auto.
  - exists (PyInt 0). auto.
Qed.

Lemma clean_value_total_in_range_witness :
  exists r, clean_value (CStr "$1,234.50") = Ok r /\ r = PyFloat (2469 # 2).
Proof.
  destruct (clean_value_total_in_range (CStr "$1,234.50")) as [r [H1 [_ [_ [_ H2]]]]].
  - intros z Hz. discriminate Hz.
  - exists r. split; [exact H1 | exact H2].
Defined.

(** C10 as stated fails: a missing value is cleaned to the integer [0],
    not to a float, and an integer past the float range makes the
    cleaning raise [OverflowError]. *)
Lemma clean_value_not_always_float :
  clean_value CNaN = Ok (PyInt 0) /\
  clean_value (CInt (10 ^ 400)) = Raise OverflowError /\
  ~ (forall value, exists q, clean_value value = Ok (PyFloat q)).
Proof.
  split; [reflexivity|]. split; [vm_compute; reflexivity|].
  intros H. destruct (H CNaN) as [q Hq]. discriminate Hq.
Qed.

End CoercionSpec.

(* ================================================================== *)
(** * Header discovery *)
(* ================================================================== *)

Module HeaderSpec.

Import Coercion Etl Fixtures.

Section WithReader.

Variable pd_to_datetime : cell -> result (option Timestamp).
Variable repr_other : cell -> string.

Lemma ts_ltb_cutoff t : ts_ltb forecast_cutoff t = true <-> after_cutoff t.
Proof.
  unfold ts_ltb, after_cutoff, forecast_cutoff. cbn [Pandas.year Pandas.month Pandas.day Pandas.time_ns].
  rewrite !orb_true_iff, !andb_true_iff, !orb_true_iff, !andb_true_iff.
  rewrite !Z.ltb_lt, !Z.eqb_eq.
  rewrite !orb_true_iff, !andb_true_iff, !Z.ltb_lt, !Z.eqb_eq.
  intuition lia.
Qed.

Lemma scan_entries col row_data d :
  In d (scan_headers pd_to_datetime repr_other col row_data) ->
  exists c i, d = make_date_info repr_other i c (parsed_date d).
Proof.
  revert col. induction row_data as [|c r IH]; intros col; simpl; [tauto|].
  destruct (notna c); [|apply IH].
  destruct (parse_header_cell pd_to_datetime c) as [t|]; [|apply IH].
  intros [<-|H]; [now exists c, col | now apply IH in H].
Qed.

(** C4. On the header cells "Jan-23", "Feb-23", "not a date", "Mar-23"
    from column 1, which the direct parser does not recognise, header
    discovery returns exactly three dates, January, February and March
    2023 at columns 1, 2 and 4, each tagged ACTUAL; and every date that
    discovery returns carries the quarter Q((month-1)//3+1) and the flag
    FORECAST exactly when it lies strictly after 2025-06-30, else
    ACTUAL. *)
Theorem header_discovery_scenario
  (Hdirect : forall s, In (CStr s) scenario_row -> pd_to_datetime (CStr s) = Ok None) :
  (forall df,
      (0 < shape0 df)%nat ->
      map (values df 0) (seq 1 (shape1 df - 1)) = scenario_row ->
      exists d1 d2 d3,
        find_date_headers pd_to_datetime repr_other (Some df) = (Some 0, [d1; d2; d3], Some df) /\
        (col_idx d1, parsed_date d1, month d1, year d1, quarter d1, date d1) =
          (1, mkTimestamp 2023 1 1 0, "January", 2023%Z, "Q1", "2023-01-01") /\
        (col_idx d2, parsed_date d2, month d2, year d2, quarter d2, date d2) =
          (2, mkTimestamp 2023 2 1 0, "February", 2023%Z, "Q1", "2023-02-01") /\
        (col_idx d3, parsed_date d3, month d3, year d3, quarter d3, date d3) =
          (4, mkTimestamp 2023 3 1 0, "March", 2023%Z, "Q1", "2023-03-01") /\
        Forall (fun d => forecast_type d = "ACTUAL") [d1; d2; d3]) /\
  (forall col row_data d,
      In d (scan_headers pd_to_datetime repr_other col row_data) ->
      quarter d = ("Q" ++ str_of_Z ((Pandas.month (parsed_date d) - 1) / 3 + 1))%string /\
      (after_cutoff (parsed_date d) -> forecast_type d = "FORECAST") /\
      (~ after_cutoff (parsed_date d) -> forecast_type d = "ACTUAL")).
Proof.
  split.
  - intros df Hrows Hrow.
    assert (Hscan : scan_headers pd_to_datetime repr_other 1 scenario_row =
                    [make_date_info repr_other 1 (CStr "Jan-23") (mkTimestamp 2023 1 1 0);
                     make_date_info repr_other 2 (CStr "Feb-23") (mkTimestamp 2023 2 1 0);
                     make_date_info repr_other 4 (CStr "Mar-23") (mkTimestamp 2023 3 1 0)]).
    { unfold scenario_row. cbn [scan_headers notna isna negb].
      unfold parse_header_cell.
      rewrite !Hdirect by (unfold scenario_row; simpl; tauto).
      vm_compute. reflexivity. }
    unfold find_date_headers, iloc_row_from.
    apply Nat.ltb_lt in Hrows. rewrite Hrows. cbn [bind].
    rewrite Hrow, Hscan. cbn [List.length Nat.leb].
    eexists _, _, _. split; [reflexivity|].
    repeat split; try (vm_compute; reflexivity).
    repeat constructor.
  - intros col row_data d Hd.
    apply scan_entries in Hd. destruct Hd as [c [i Hd]].
    rewrite Hd. cbn [quarter forecast_type parsed_date make_date_info].
    split; [reflexivity|].
    rewrite <- ts_ltb_cutoff.
    destruct (ts_ltb forecast_cutoff (parsed_date d)); split; congruence.
Qed.

(** C5. When header discovery finds fewer than three dates, the
    transposer returns its failed result: no record is emitted and
    nothing is saved. *)
Theorem insufficient_dates_no_output (df : Sheet)
  (Hfew : forall row_data,
      iloc_row_from df 0 1 = Ok row_data ->
      (List.length (scan_headers pd_to_datetime repr_other 1 row_data) < 3)%nat) :
  find_date_headers pd_to_datetime repr_other (Some df) = (None, [], None) /\ create_dreams_raw_data pd_to_datetime repr_other (Some df) = Ok None.
Proof.
  assert (Hfind : find_date_headers pd_to_datetime repr_other (Some df) = (None, [], None)).
  { unfold find_date_headers.
    destruct (iloc_row_from df 0 1) as [row_data|e] eqn:E; cbn [bind]; [|reflexivity].
    specialize (Hfew row_data eq_refl).
    apply Nat.leb_gt in Hfew. now rewrite Hfew. }
  split; [exact Hfind|].
  unfold create_dreams_raw_data. now rewrite Hfind.
Qed.

End WithReader.

Lemma header_discovery_scenario_witness :
  exists d1 d2 d3,
    find_date_headers datetime_cells_only repr_placeholder (Some scenario_sheet)
    = (Some 0, [d1; d2; d3], Some scenario_sheet) /\
    map year [d1; d2; d3] = [2023; 2023; 2023]%Z /\
    map month [d1; d2; d3] = ["January"; "February"; "March"].
Proof.
  destruct (header_discovery_scenario datetime_cells_only repr_placeholder) as [H _].
  - intros s _. reflexivity.
  - destruct (H scenario_sheet) as [d1 [d2 [d3 [Hf [H1 [H2 [H3 _]]]]]]].
    + vm_compute. lia.
    + reflexivity.
    + exists d1, d2, d3. split; [exact Hf|].
      injection H1 as _ _ Hm1 Hy1 _ _. injection H2 as _ _ Hm2 Hy2 _ _.
      injection H3 as _ _ Hm3 Hy3 _ _. cbn [map].
      rewrite Hm1, Hm2, Hm3, Hy1, Hy2, Hy3. split; reflexivity.
Defined.

Lemma insufficient_dates_no_output_witness :
  create_dreams_raw_data datetime_cells_only repr_placeholder (Some two_dates_sheet) = Ok None.
Proof.
  apply (insufficient_dates_no_output datetime_cells_only repr_placeholder two_dates_sheet).
  intros row_data H. vm_compute in H. inversion H. vm_compute. lia.
Defined.

End HeaderSpec.

(* ================================================================== *)
(** * Mapping resolver *)
(* ================================================================== *)

Module ResolverSpec.

Import Processor Fixtures PyFacts DictFacts.

Lemma hd_error_filter_app {A} (p : A -> bool) pre x post :
  (forall y, In y pre -> p y = false) -> p x = true ->
  hd_error (filter p (pre ++ x :: post)) = Some x.
Proof.
  intros Hpre Hx. induction pre as [|y pre IH]; simpl.
  - now rewrite Hx.
  - rewrite (Hpre y (or_introl eq_refl)). apply IH.
    intros z Hz. apply Hpre. now right.
Qed.

Lemma existsb_filter {A} (p q : A -> bool) xs :
  existsb p (filter q xs) = existsb (fun x => p x && q x) xs.
Proof.
  induction xs as [|x xs IH]; simpl; [reflexivity|].
  destruct (q x); simpl; rewrite IH.
  - now rewrite andb_true_r.
  - now rewrite andb_false_r.
Qed.

(** The inner loop of the fallback claims, for [norm_name], every original
    name of the rows that is still free. *)
Lemma generic_rows_get rows norm_name (m : Dict.t string) o :
  Dict.get
    (fold_left
       (fun mapping row =>
          match Original_Column_Names row with
          | Some original_col =>
              if negb (Dict.has mapping original_col)
              then Dict.set mapping original_col norm_name
              else mapping
          | None => mapping
          end) rows m) o =
  match Dict.get m o with
  | Some c => Some c
  | None =>
      if existsb (fun row => option_eqb (Original_Column_Names row) o) rows
      then Some norm_name else None
  end.
Proof.
  revert m. induction rows as [|row rows IH]; intros m; simpl.
  - now destruct (Dict.get m o).
  - rewrite IH. destruct (Original_Column_Names row) as [oc|]; simpl.
    + destruct (Dict.has m oc) eqn:Hh; simpl.
      * destruct (Dict.get m o) eqn:G; [reflexivity|].
        destruct (String.eqb oc o) eqn:E; [|reflexivity].
        apply String.eqb_eq in E. subst oc.
        apply has_get in Hh. destruct Hh as [v Hv]. congruence.
      * destruct (String.eqb oc o) eqn:E.
        -- apply String.eqb_eq in E. subst oc. rewrite get_set_same.
           apply has_false_get in Hh. now rewrite Hh.
        -- apply String.eqb_neq in E.
           rewrite get_set_other by congruence. reflexivity.
    + reflexivity.
Qed.

Lemma generic_step_get master m norm_name o :
  Dict.get (generic_step master m norm_name) o =
  match Dict.get m o with
  | Some c => Some c
  | None => if has_rule master o norm_name then Some norm_name else None
  end.
Proof.
  unfold generic_step. rewrite generic_rows_get, existsb_filter. reflexivity.
Qed.

Lemma generic_fold_get master cols m o :
  Dict.get (fold_left (generic_step master) cols m) o =
  match Dict.get m o with
  | Some c => Some c
  | None => hd_error (filter (has_rule master o) cols)
  end.
Proof.
  revert m. induction cols as [|c cols IH]; intros m; simpl.
  - now destruct (Dict.get m o).
  - rewrite IH, generic_step_get.
    destruct (Dict.get m o); [reflexivity|].
    now destruct (has_rule master o c).
Qed.

Lemma generic_rows_NoDup rows norm_name (m : Dict.t string) :
  NoDup (Dict.keys m) ->
  NoDup (Dict.keys
    (fold_left
       (fun mapping row =>
          match Original_Column_Names row with
          | Some original_col =>
              if negb (Dict.has mapping original_col)
              then Dict.set mapping original_col norm_name
              else mapping
          | None => mapping
          end) rows m)).
Proof.
  revert m. induction rows as [|row rows IH]; intros m Hm; simpl; [assumption|].
  apply IH. destruct (Original_Column_Names row) as [oc|]; [|assumption].
  destruct (negb (Dict.has m oc)); [now apply keys_NoDup_set | assumption].
Qed.

Lemma generic_fold_NoDup master cols m :
  NoDup (Dict.keys m) -> NoDup (Dict.keys (fold_left (generic_step master) cols m)).
Proof.
  revert m. induction cols as [|c cols IH]; intros m Hm; simpl; [assumption|].
  apply IH. unfold generic_step. now apply generic_rows_NoDup.
Qed.

Lemma normalized_columns_NoDup : NoDup normalized_columns.
Proof.
  assert (H : forall l, (fix nd (l : list string) : bool :=
                match l with
                | [] => true
                | x :: r => negb (mem x r) && nd r
                end) l = true -> NoDup l).
  { induction l as [|x l IH]; intros H; [constructor|].
    apply andb_prop in H. destruct H as [H1 H2].
    constructor; [|now apply IH].
    apply mem_false_iff. now destruct (mem x l). }
  apply H. vm_compute. reflexivity.
Qed.

Lemma firstn_In_nth {A} (l : list A) n y :
  In y (firstn n l) -> exists k, (k < n)%nat /\ nth_error l k = Some y.
Proof.
  revert l. induction n as [|n IH]; intros [|x l]; simpl; try tauto.
  intros [<-|H].
  - exists 0. split; [lia | reflexivity].
  - destruct (IH l H) as [k [Hk Hn]]. exists (S k). split; [lia | exact Hn].
Qed.

Lemma nth_error_split_at {A} (l : list A) n x :
  nth_error l n = Some x -> l = firstn n l ++ x :: skipn (S n) l.
Proof.
  revert l. induction n as [|n IH]; intros [|y l]; simpl; try discriminate.
  - intros H. now inversion H.
  - intros H. f_equal. now apply IH.
Qed.

Section WithSearch.

Variable re_search_nocase : string -> result (string -> bool).

(** C7. The generic fallback maps an original name to the first canonical
    name, in the declaration order of the registry, that some row of the
    master dataframe pairs it with; an original name paired with two
    canonical names of the registry goes to the earlier one; the mapping
    has one entry per original name; and it is the mapping the resolver
    uses, before the manual fixes, when the client filter selects no
    row. *)
Theorem generic_first_claim_wins (master_df : list MasterRow) :
  (forall o,
      Dict.get (generic_mapping master_df) o =
      hd_error (filter (has_rule master_df o) normalized_columns)) /\
  (forall o c1 c2 i1 i2,
      nth_error normalized_columns i1 = Some c1 ->
      nth_error normalized_columns i2 = Some c2 ->
      (i1 < i2)%nat ->
      has_rule master_df o c1 = true ->
      has_rule master_df o c2 = true ->
      (forall c, has_rule master_df o c = true -> c = c1 \/ c = c2) ->
      Dict.get (generic_mapping master_df) o = Some c1) /\
  NoDup (Dict.keys (generic_mapping master_df)) /\
  (forall client_name token rest search,
      split client_name = token :: rest ->
      re_search_nocase token = Ok search ->
      (forall row c, In row master_df -> Client_Name row = Some c -> search c = false) ->
      create_client_specific_mapping re_search_nocase (Some master_df) client_name
      = Ok (apply_client_fixes client_name (generic_mapping master_df))).
Proof.
  assert (Hget : forall o,
             Dict.get (generic_mapping master_df) o =
             hd_error (filter (has_rule master_df o) normalized_columns)).
  { intros o. unfold generic_mapping. now rewrite generic_fold_get. }
  split; [exact Hget|]. split; [|split].
  - intros o c1 c2 i1 i2 H1 H2 Hlt Hr1 Hr2 Honly.
    rewrite Hget, (nth_error_split_at _ _ _ H1).
    apply hd_error_filter_app; [|exact Hr1].
    intros y Hy. destruct (has_rule master_df o y) eqn:Hry; [|reflexivity].
    exfalso. apply firstn_In_nth in Hy. destruct Hy as [k [Hk Hnk]].
    pose proof normalized_columns_NoDup as Hnd.
    rewrite NoDup_nth_error in Hnd.
    assert (Hklen : (k < List.length normalized_columns)%nat).
    { apply nth_error_Some. congruence. }
    destruct (Honly y Hry) as [-> | ->].
    + assert (k = i1) by (apply Hnd; [exact Hklen | congruence]). lia.
    + assert (k = i2) by (apply Hnd; [exact Hklen | congruence]). lia.
  - unfold generic_mapping. apply generic_fold_NoDup. constructor.
  - intros client_name token rest search Hsplit Hre Hnone.
    unfold create_client_specific_mapping. rewrite Hsplit. cbn [bind].
    rewrite Hre. cbn [bind]. unfold reference_mapping.
    assert (Hf : filter (fun row => match Client_Name row with
                                    | Some c => search c
                                    | None => false
                                    end) master_df = []).
    { clear - Hnone.
      induction master_df as [|row rows IH]; [reflexivity|]. simpl.
      destruct (Client_Name row) as [c|] eqn:Ec.
      - rewrite (Hnone row c (or_introl eq_refl) Ec). apply IH.
        intros row' c' Hin. apply Hnone. now right.
      - apply IH. intros row' c' Hin. apply Hnone. now right. }
    rewrite Hf. reflexivity.
Qed.

(** C3 fails on a client name without any token: [split()[0]] raises
    [IndexError] for the empty name and for a name of whitespace only,
    whatever the master dataframe holds. *)
Theorem resolve_blank_client_raises (master_df : list MasterRow) :
  create_client_specific_mapping re_search_nocase (Some master_df) "" = Raise IndexError /\
  create_client_specific_mapping re_search_nocase (Some master_df) "  " = Raise IndexError.
Proof. split; reflexivity. Qed.

(** A client name with a token whose expression compiles is resolved
    without raising, whether or not the master dataframe knows it. *)
Lemma resolve_returns_with_token (master_df : option (list MasterRow))
  (client_name token : string) (rest : list string) (search : string -> bool) :
  split client_name = token :: rest ->
  re_search_nocase token = Ok search ->
  exists mapping,
    create_client_specific_mapping re_search_nocase master_df client_name
    = Ok mapping.
Proof.
  intros Hsplit Hre. unfold create_client_specific_mapping.
  destruct master_df as [rows|]; [|eexists; reflexivity].
  rewrite Hsplit. cbn [bind]. rewrite Hre. cbn [bind]. eexists. reflexivity.
Qed.

(** C6, as the code has it. With a master dataframe loaded, the mapping
    of a client that is a key of the manual fixes carries every fix of
    that client, whatever the master dataframe maps the same original
    name to, and agrees with the reference mapping on every other
    original name; a client that is not a key gets the reference mapping
    unchanged; without a master dataframe the mapping is empty. *)
Theorem manual_fix_overrides (master_df : list MasterRow) (client_name : string)
  (fixes : Dict.t string)
  (Hfix : Dict.get client_fixes client_name = Some fixes)
  (Hre : forall token rest, split client_name = token :: rest ->
                            exists search, re_search_nocase token = Ok search) :
  (exists token rest search mapping,
      split client_name = token :: rest /\
      re_search_nocase token = Ok search /\
      create_client_specific_mapping re_search_nocase (Some master_df) client_name
      = Ok mapping /\
      (forall o n, In (o, n) fixes -> Dict.get mapping o = Some n) /\
      (forall o, ~ In o (Dict.keys fixes) ->
                 Dict.get mapping o = Dict.get (reference_mapping master_df search) o)) /\
  (forall other token rest search,
      Dict.get client_fixes other = None ->
      split other = token :: rest ->
      re_search_nocase token = Ok search ->
      create_client_specific_mapping re_search_nocase (Some master_df) other
      = Ok (reference_mapping master_df search)) /\
  (forall any, create_client_specific_mapping re_search_nocase None any = Ok Dict.empty).
Proof.
  split; [|split].
  - assert (Hcases :
      exists token rest o n,
        split client_name = token :: rest /\ fixes = [(o, n)]).
    { unfold client_fixes in Hfix. cbn [Dict.get] in Hfix.
      repeat match type of Hfix with
             | (if String.eqb client_name ?k then _ else _) = _ =>
                 let E := fresh "E" in
                 destruct (String.eqb client_name k) eqn:E;
                 [apply String.eqb_eq in E; subst client_name;
                  injection Hfix as <-; vm_compute;
                  do 4 eexists; split; reflexivity |]
             end.
      discriminate Hfix. }
    destruct Hcases as [token [rest [o [n [Hsplit ->]]]]].
    destruct (Hre token rest Hsplit) as [search Hs].
    exists token, rest, search,
      (apply_client_fixes client_name (reference_mapping master_df search)).
    split; [exact Hsplit|]. split; [exact Hs|]. split.
    + unfold create_client_specific_mapping. rewrite Hsplit. cbn [bind].
      rewrite Hs. reflexivity.
    + unfold apply_client_fixes. rewrite Hfix. cbn [fold_left fst snd]. split.
      * intros o' n' [Heq|[]]. injection Heq as <- <-. apply get_set_same.
      * intros o' Hno. apply get_set_other. intros ->. apply Hno. now left.
  - intros other token rest search Hnone Hsplit Hs.
    unfold create_client_specific_mapping. rewrite Hsplit. cbn [bind].
    rewrite Hs. cbn [bind]. unfold apply_client_fixes. now rewrite Hnone.
  - reflexivity.
Qed.

End WithSearch.

Lemma manual_fix_overrides_witness :
  exists mapping,
    create_client_specific_mapping literal_search_nocase (Some sample_master)
      "Great White Car Wash" = Ok mapping /\
    Dict.get mapping "Total - Revenue" = Some "Total Revenue".
Proof.
  destruct (manual_fix_overrides literal_search_nocase sample_master
              "Great White Car Wash" [("Total - Revenue", "Total Revenue")])
    as [[token [rest [search [mapping [_ [_ [Hm [Hfix _]]]]]]]] _].
  - reflexivity.
  - intros token rest _. eexists. reflexivity.
  - exists mapping. split; [exact Hm|]. apply Hfix. now left.
Defined.

Lemma generic_first_claim_wins_witness :
  Dict.get (generic_mapping sample_master) "Power" = Some "Utilities - Energy" /\
  create_client_specific_mapping literal_search_nocase (Some sample_master)
    "Unknown Wash"
  = Ok (apply_client_fixes "Unknown Wash" (generic_mapping sample_master)).
Proof.
  destruct (generic_first_claim_wins literal_search_nocase sample_master)
    as [_ [Hfirst [_ Huse]]].
  split.
  - apply (Hfirst "Power" "Utilities - Energy" "Utilities" 15 50);
      try reflexivity; [lia|].
    intros c Hc. unfold has_rule, sample_master in Hc.
    cbv beta iota delta [existsb option_eqb Original_Column_Names
                           Normalized_Column_Name] in Hc.
    destruct (String.eqb "Utilities" c) eqn:E1;
      [apply String.eqb_eq in E1; now right|].
    destruct (String.eqb "Utilities - Energy" c) eqn:E2;
      [apply String.eqb_eq in E2; now left|].
    destruct (String.eqb "Total Revenue" c), (String.eqb "Gross Profit" c);
      vm_compute in Hc; discriminate Hc.
  - apply (Huse "Unknown Wash" "Unknown" ["Wash"] (fun text => contains "unknown" (lower text))).
    + reflexivity.
    + reflexivity.
    + intros row c Hin Hc. unfold sample_master in Hin. simpl in Hin.
      repeat (destruct Hin as [<-|Hin]; [injection Hc as <-; reflexivity|]).
      destruct Hin.
Defined.

(** C6 as stated fails when no master dataframe was loaded: the resolver
    returns the empty mapping before the manual fixes are reached. *)
Lemma manual_fix_skipped_without_master :
  exists mapping,
    create_client_specific_mapping literal_search_nocase None "Great White Car Wash"
    = Ok mapping /\
    Dict.get client_fixes "Great White Car Wash"
    = Some [("Total - Revenue", "Total Revenue")] /\
    Dict.get mapping "Total - Revenue" = None.
Proof. exists Dict.empty. repeat split. Qed.

Example generic_sample :
  create_client_specific_mapping literal_search_nocase (Some sample_master)
    "Unknown Wash"
  = Ok [("Power", "Utilities - Energy"); ("Sales", "Total Revenue");
        ("Total - Revenue", "Gross Profit")].
Proof. vm_compute. reflexivity. Qed.

Example client_sample :
  create_client_specific_mapping literal_search_nocase (Some sample_master)
    "Great White Car Wash"
  = Ok [("Sales", "Total Revenue"); ("Total - Revenue", "Total Revenue")].
Proof. vm_compute. reflexivity. Qed.

End ResolverSpec.

(* ================================================================== *)
(** * Record normaliser *)
(* ================================================================== *)

Module NormalizerSpec.

Import Processor Fixtures PyFacts DictFacts.

Section WithPrimitives.

Variable re_search_nocase : string -> result (string -> bool).
Variable pd_to_numeric : list cell -> result (list cell).

(** ** The final numeric pass *)

Lemma numeric_columns_NoDup : NoDup numeric_columns.
Proof.
  assert (H : forall l : list string,
             (fix nodup (l : list string) : bool :=
                match l with
                | [] => true
                | x :: r => negb (mem x r) && nodup r
                end) l = true -> NoDup l).
  { induction l as [|x r IH]; intros Hl; [constructor|].
    apply andb_prop in Hl. destruct Hl as [Hx Hr].
    constructor; [|now apply IH].
    apply mem_false_iff. now destruct (mem x r). }
  apply H. vm_compute. reflexivity.
Qed.

(** The loop over the listed columns converts exactly the listed columns
    that exist, once each, and leaves the others as they are. *)
Lemma force_loop_get cols (df : Frame) col :
  NoDup cols ->
  Dict.get
    (fold_left
       (fun result_df c =>
          match Dict.get result_df c with
          | Some s =>
              match pd_to_numeric s with
              | Ok numeric => Dict.set result_df c numeric
              | Raise _ => result_df
              end
          | None => result_df
          end) cols df) col =
  if mem col cols
  then option_map (forced pd_to_numeric) (Dict.get df col)
  else Dict.get df col.
Proof.
  intros Hnd. revert df. induction Hnd as [|c cols Hc Hnd IH]; intros df;
    [reflexivity|].
  cbn [fold_left]. rewrite IH. unfold mem at 2. cbn [existsb]. fold (mem col cols).
  destruct (String.eqb col c) eqn:E.
  - apply String.eqb_eq in E. subst c. cbn [orb].
    apply mem_false_iff in Hc. rewrite Hc.
    destruct (Dict.get df col) as [s|] eqn:G.
    + cbn [option_map]. unfold forced.
      destruct (pd_to_numeric s) as [numeric|e] eqn:Hp.
      * apply get_set_same.
      * exact G.
    + exact G.
  - apply String.eqb_neq in E. cbn [orb].
    destruct (Dict.get df c) as [s|] eqn:G; [|reflexivity].
    destruct (pd_to_numeric s) as [numeric|e]; [|reflexivity].
    rewrite get_set_other by assumption. reflexivity.
Qed.

Lemma force_numeric_get (df : Frame) col :
  Dict.get (force_numeric pd_to_numeric df) col =
  if mem col numeric_columns
  then option_map (forced pd_to_numeric) (Dict.get df col)
  else Dict.get df col.
Proof. unfold force_numeric. apply force_loop_get. exact numeric_columns_NoDup. Qed.

Lemma force_numeric_keys (df : Frame) :
  Dict.keys (force_numeric pd_to_numeric df) = Dict.keys df.
Proof.
  unfold force_numeric. generalize numeric_columns as cols.
  intros cols. revert df. induction cols as [|c cols IH]; intros df; [reflexivity|].
  cbn [fold_left]. rewrite IH.
  destruct (Dict.get df c) as [s|] eqn:G; [|reflexivity].
  destruct (pd_to_numeric s) as [numeric|e]; [|reflexivity].
  rewrite keys_set.
  assert (Dict.has df c = true) as -> by (apply has_get; eauto). reflexivity.
Qed.


(** ** The standard-column guard *)

Lemma loc_assign_get_other (df : Frame) idx col vals col' :
  col' <> col ->
  Dict.get (loc_assign df idx col vals) col' = Dict.get df col'.
Proof.
  intros Hne. unfold loc_assign.
  destruct (Dict.get df col); [now apply get_set_other | reflexivity].
Qed.

Lemma loc_assign_keys (df : Frame) idx col vals :
  Dict.keys (loc_assign df idx col vals) = Dict.keys df.
Proof.
  unfold loc_assign. destruct (Dict.get df col) as [s|] eqn:G; [|reflexivity].
  rewrite keys_set.
  assert (Dict.has df col = true) as -> by (apply has_get; eauto). reflexivity.
Qed.

Lemma assign_numeric_get_other (df : Frame) idx col source col' :
  col' <> col ->
  Dict.get (assign_numeric pd_to_numeric df idx col source) col' = Dict.get df col'.
Proof.
  intros Hne. unfold assign_numeric.
  destruct (pd_to_numeric source); now apply loc_assign_get_other.
Qed.

Lemma assign_numeric_keys (df : Frame) idx col source :
  Dict.keys (assign_numeric pd_to_numeric df idx col source) = Dict.keys df.
Proof.
  unfold assign_numeric. destruct (pd_to_numeric source); apply loc_assign_keys.
Qed.

(** A mapping to another target column leaves the column untouched. *)
Lemma apply_mapping_get_other combined_df idx sn (df : Frame) orig norm col :
  col <> norm ->
  Dict.get (apply_mapping pd_to_numeric combined_df idx sn df (orig, norm)) col
  = Dict.get df col.
Proof.
  intros Hne. unfold apply_mapping.
  destruct (Dict.has combined_df orig && mem norm sn); [|reflexivity].
  match goal with |- context [if ?c then df else _] => destruct c end;
    [reflexivity|].
  assert (Hinit : Dict.get
            (if negb (Dict.has df norm)
             then Dict.set df norm (repeat CNaN (len df)) else df) col
          = Dict.get df col).
  { destruct (negb (Dict.has df norm)); [now apply get_set_other | reflexivity]. }
  repeat match goal with
         | |- context [if ?c then loc_assign _ _ _ _ else _] => destruct c
         | |- context [if ?c then assign_numeric _ _ _ _ _ else _] => destruct c
         end;
    first [ rewrite loc_assign_get_other by assumption
          | rewrite assign_numeric_get_other by assumption ];
    exact Hinit.
Qed.

(** The guard itself: a mapping onto a populated standard column is
    skipped. *)
Lemma apply_mapping_skip combined_df idx sn (df : Frame) orig norm series :
  In norm standard_columns ->
  Dict.get df norm = Some series ->
  existsb notna (take series idx) = true ->
  apply_mapping pd_to_numeric combined_df idx sn df (orig, norm) = df.
Proof.
  intros Hstd Hget Hpop. unfold apply_mapping.
  destruct (Dict.has combined_df orig && mem norm sn); [|reflexivity].
  assert (Dict.has df norm = true) as -> by (apply has_get; eauto).
  apply mem_In in Hstd. rewrite Hstd. cbn [andb].
  rewrite Hget, Hpop. reflexivity.
Qed.

(** C9. A mapping whose target is a standard column that already holds a
    value, in the output, for one of the client's rows is skipped: the
    step returns the output table as it was. Hence the column is the same
    after the client's whole mapping has been applied, and after
    [process_client]. *)
Theorem standard_column_guard (combined_df : Frame) (names : list cell)
  (client : cell) (sorted_normalized : list string) (result_df : Frame)
  (normalized_col : string) (series : list cell)
  (Hstd : In normalized_col standard_columns)
  (Hget : Dict.get result_df normalized_col = Some series)
  (Hpop : existsb notna (take series (indices_where names client)) = true) :
  (forall original_col,
      apply_mapping pd_to_numeric combined_df (indices_where names client)
        sorted_normalized result_df (original_col, normalized_col)
      = result_df) /\
  (forall mapping : Dict.t string,
      Dict.get
        (fold_left (apply_mapping pd_to_numeric combined_df
                      (indices_where names client) sorted_normalized)
                   mapping result_df) normalized_col
      = Some series) /\
  (forall master_df out,
      process_client re_search_nocase pd_to_numeric master_df combined_df names
        sorted_normalized result_df client = Ok out ->
      Dict.get out normalized_col = Some series).
Proof.
  assert (Hloop : forall (mapping : Dict.t string) df,
             Dict.get df normalized_col = Some series ->
             Dict.get
               (fold_left (apply_mapping pd_to_numeric combined_df
                             (indices_where names client) sorted_normalized)
                          mapping df) normalized_col
             = Some series).
  { induction mapping as [|[o n] mapping IH]; intros df Hdf; [exact Hdf|].
    cbn [fold_left]. apply IH.
    destruct (String.eqb n normalized_col) eqn:E.
    - apply String.eqb_eq in E. subst n.
      rewrite (apply_mapping_skip _ _ _ _ _ _ series); assumption.
    - apply String.eqb_neq in E.
      rewrite apply_mapping_get_other by congruence. exact Hdf. }
  split; [|split].
  - intros original_col. now apply (apply_mapping_skip _ _ _ _ _ _ series).
  - intros mapping. now apply Hloop.
  - intros master_df out Hrun. unfold process_client in Hrun.
    destruct (mapping_of_client _ _ _) as [mapping|e]; cbn [bind] in Hrun;
      [|discriminate Hrun].
    injection Hrun as <-. now apply Hloop.
Qed.

End WithPrimitives.




Lemma standard_column_guard_witness :
  apply_mapping coerce_to_numeric sample_combined
    (indices_where [CStr "Splash"; CStr "Splash"; CStr "Bubbles"] (CStr "Splash"))
    (sorted normalized_columns) texty_result ("Site", "Location")
  = texty_result.
Proof.
  destruct (standard_column_guard literal_search_nocase coerce_to_numeric sample_combined
              [CStr "Splash"; CStr "Splash"; CStr "Bubbles"] (CStr "Splash")
              (sorted normalized_columns) texty_result "Location"
              [CStr "Main St"; CNaN]) as [H _].
  - apply mem_In. vm_compute. reflexivity.
  - reflexivity.
  - reflexivity.
  - apply H.
Defined.

End NormalizerSpec.

(* ================================================================== *)
(** * Record emission of the transposer *)
(* ================================================================== *)

Module EmissionSpec.

Import Coercion Etl Fixtures PyFacts DictFacts.

(** ** Entity attribution *)

Lemma is_location_specific_field_entity field_name :
  is_location_specific_field field_name =
  let e := entity_of_label (strip field_name) in
  if String.eqb e "General" then (false, None) else (true, Some e).
Proof.
  unfold is_location_specific_field, entity_of_label, location_specific_fields, mem.
  cbv beta iota delta [existsb].
  generalize (strip field_name) as fc. intros fc.
  destruct (String.eqb fc "Okotoks Revenue") eqn:E1;
    [apply String.eqb_eq in E1; rewrite E1; reflexivity|].
  destruct (String.eqb fc "Barlow NE Revenue") eqn:E2;
    [apply String.eqb_eq in E2; rewrite E2; reflexivity|].
  destruct (String.eqb fc "Eastpoint SE Revenue") eqn:E3;
    [apply String.eqb_eq in E3; rewrite E3; reflexivity|].
  destruct (String.eqb fc "Corp Revenue") eqn:E4;
    [apply String.eqb_eq in E4; rewrite E4; reflexivity|].
  reflexivity.
Qed.

Lemma entity_of_label_cases label :
  let e := entity_of_label label in
  (String.eqb e "General" = true /\ e = "General") \/
  (String.eqb e "General" = false).
Proof.
  unfold entity_of_label.
  destruct (String.eqb label "Okotoks Revenue"); [right; reflexivity|].
  destruct (String.eqb label "Barlow NE Revenue"); [right; reflexivity|].
  destruct (String.eqb label "Eastpoint SE Revenue"); [right; reflexivity|].
  destruct (String.eqb label "Corp Revenue"); [right; reflexivity|].
  left. split; reflexivity.
Qed.

(** A category is included in a location's record exactly when the
    location is the entity of its label. *)
Lemma should_include_entity field_name key :
  should_include_field_for_location field_name key =
  String.eqb key (entity_of_label (strip field_name)).
Proof.
  unfold should_include_field_for_location.
  rewrite is_location_specific_field_entity. cbv zeta.
  destruct (entity_of_label_cases (strip field_name)) as [[E Eg] | E];
    cbv zeta in *; rewrite E.
  - now rewrite Eg.
  - apply String.eqb_sym.
Qed.

Section WithReader.

Variable pd_to_datetime : cell -> result (option Timestamp).
Variable repr_other : cell -> string.

(** ** What discovery returns *)

Lemma scan_col_idx start row_data d :
  In d (scan_headers pd_to_datetime repr_other start row_data) ->
  (start <= col_idx d < start + List.length row_data)%nat.
Proof.
  revert start. induction row_data as [|c r IH]; intros start; simpl; [tauto|].
  assert (Hrest : In d (scan_headers pd_to_datetime repr_other (S start) r) ->
                  (start <= col_idx d < start + S (List.length r))%nat).
  { intros H. apply IH in H. lia. }
  destruct (notna c); [|exact Hrest].
  destruct (parse_header_cell pd_to_datetime c) as [t|]; [|exact Hrest].
  intros [<-|H]; [simpl; lia | now apply Hrest].
Qed.

Lemma extract_loop df rows acc :
  (0 < shape1 df)%nat ->
  Forall (fun r => (r < shape0 df)%nat) rows ->
  exists cats,
    for_each
      (fun categories_with_rows row_idx =>
         cell_value <- iloc df row_idx 0 ;;
         if notna cell_value then
           let category := strip (str_of_cell repr_other cell_value) in
           if negb (is_empty category)
           then Ok (categories_with_rows ++ [mkCategoryInfo category row_idx])
           else Ok categories_with_rows
         else Ok categories_with_rows)
      rows acc = Ok (acc ++ cats) /\
    Forall (discovered repr_other df) cats.
Proof.
  intros Hcols. revert acc. induction rows as [|r rows IH]; intros acc Hrows.
  - exists []. split; [simpl; now rewrite app_nil_r | constructor].
  - inversion Hrows as [|? ? Hr Hrest]; subst.
    cbn [for_each]. unfold iloc at 1.
    apply Nat.ltb_lt in Hr. apply Nat.ltb_lt in Hcols.
    rewrite Hr, Hcols. cbn [andb bind].
    destruct (notna (values df r 0)).
    + destruct (is_empty (strip (str_of_cell repr_other (values df r 0)))) eqn:E;
        cbn [negb].
      * apply IH. exact Hrest.
      * destruct (IH (acc ++ [mkCategoryInfo (strip (str_of_cell repr_other (values df r 0))) r]) Hrest)
          as [cats [Hc Hd]].
        exists (mkCategoryInfo (strip (str_of_cell repr_other (values df r 0))) r :: cats).
        split.
        -- etransitivity; [exact Hc|]. rewrite <- app_assoc. reflexivity.
        -- constructor; [|exact Hd].
           unfold discovered. cbn [actual_row category].
           apply Nat.ltb_lt in Hr. repeat split; assumption.
    + apply IH. exact Hrest.
Qed.

Lemma extract_categories_ok df :
  (0 < shape1 df)%nat ->
  exists cats,
    extract_categories_from_column_a repr_other df = Ok cats /\
    Forall (discovered repr_other df) cats.
Proof.
  intros Hcols. unfold extract_categories_from_column_a.
  destruct (extract_loop df (seq 0 (shape0 df)) [] Hcols) as [cats [H1 H2]].
  - apply Forall_forall. intros r Hr. apply in_seq in Hr. lia.
  - exists cats. split; assumption.
Qed.

(** ** One record *)

(** The step of a category with another label leaves the label alone. *)
Lemma add_category_other df col key (rec rec' : record) c label :
  add_category df col key rec c = Ok rec' ->
  category c <> label ->
  Dict.get rec' label = Dict.get rec label.
Proof.
  unfold add_category. intros H Hne.
  destruct (negb (is_empty (category c)) && negb (String.eqb (category c) "nan")).
  - destruct (if (col <? shape1 df)%nat then iloc df (actual_row c) col else Ok (CInt 0))
      as [v|e]; cbn [bind] in H; [|discriminate H].
    destruct (clean_value v) as [v'|e]; cbn [bind] in H; [|discriminate H].
    destruct (should_include_field_for_location (category c) key);
      injection H as <-; apply get_set_other; congruence.
  - injection H as <-. reflexivity.
Qed.

Lemma add_categories_other df col key post (rec rec' : record) label :
  for_each (add_category df col key) post rec = Ok rec' ->
  Forall (fun c => category c <> label) post ->
  Dict.get rec' label = Dict.get rec label.
Proof.
  revert rec. induction post as [|c post IH]; intros rec H Hall.
  - cbn [for_each] in H. injection H as <-. reflexivity.
  - cbn [for_each] in H. inversion Hall as [|? ? Hc Hpost]; subst.
    destruct (add_category df col key rec c) as [rec1|e] eqn:E; [|discriminate H].
    rewrite (IH rec1 H Hpost). exact (add_category_other _ _ _ _ _ _ _ E Hc).
Qed.

(** The step of a discovered category, other than "nan", writes the
    cleaned cell for the category's entity and the integer 0 for every
    other entity. *)
Lemma add_category_same df col key (rec rec' : record) c :
  add_category df col key rec c = Ok rec' ->
  discovered repr_other df c ->
  category c <> "nan" ->
  (col < shape1 df)%nat ->
  exists v,
    clean_value (values df (actual_row c) col) = Ok v /\
    Dict.get rec' (category c) =
      Some (if String.eqb key (entity_of_label (category c)) then v else PyInt 0).
Proof.
  unfold add_category. intros H [Hrow [Hlabel Hne]] Hnan Hcol.
  rewrite Hne in H. apply String.eqb_neq in Hnan. rewrite Hnan in H.
  cbn [negb andb] in H.
  unfold iloc in H. apply Nat.ltb_lt in Hcol. apply Nat.ltb_lt in Hrow.
  rewrite Hcol, Hrow in H. cbn [andb bind] in H.
  destruct (clean_value (values df (actual_row c) col)) as [v|e];
    cbn [bind] in H; [|discriminate H].
  exists v. split; [reflexivity|].
  rewrite should_include_entity in H.
  assert (Hs : strip (category c) = category c).
  { rewrite Hlabel. apply strip_idem. }
  rewrite Hs in H.
  destruct (String.eqb key (entity_of_label (category c)));
    injection H as <-; apply get_set_same.
Qed.

Lemma add_category_keys df col key (rec rec' : record) c :
  add_category df col key rec c = Ok rec' ->
  incl (Dict.keys rec) (Dict.keys rec').
Proof.
  unfold add_category. intros H.
  assert (Hset : forall v, incl (Dict.keys rec) (Dict.keys (Dict.set rec (category c) v))).
  { intros v. rewrite keys_set. destruct (Dict.has rec (category c));
      [apply incl_refl | apply incl_appl, incl_refl]. }
  destruct (negb (is_empty (category c)) && negb (String.eqb (category c) "nan")).
  - destruct (if (col <? shape1 df)%nat then iloc df (actual_row c) col else Ok (CInt 0))
      as [v|e]; cbn [bind] in H; [|discriminate H].
    destruct (clean_value v) as [v'|e]; cbn [bind] in H; [|discriminate H].
    destruct (should_include_field_for_location (category c) key);
      injection H as <-; apply Hset.
  - injection H as <-. apply incl_refl.
Qed.

Lemma add_categories_keys df col key cats (rec rec' : record) :
  for_each (add_category df col key) cats rec = Ok rec' ->
  incl (Dict.keys rec) (Dict.keys rec').
Proof.
  revert rec. induction cats as [|c cats IH]; intros rec H.
  - cbn [for_each] in H. injection H as <-. apply incl_refl.
  - cbn [for_each] in H.
    destruct (add_category df col key rec c) as [rec1|e] eqn:E; [|discriminate H].
    eapply incl_tran; [exact (add_category_keys _ _ _ _ _ _ E) | exact (IH _ H)].
Qed.

Lemma clean_value_ok df r c :
  cleanable df -> exists v, clean_value (values df r c) = Ok v.
Proof.
  intros Hc.
  destruct (CoercionSpec.clean_value_returns (values df r c)) as [v Hv].
  - intros z Hz. exact (Hc r c z Hz).
  - exists v. exact Hv.
Qed.

Lemma add_category_ok df col key (rec : record) c :
  cleanable df ->
  (actual_row c < shape0 df)%nat ->
  exists rec', add_category df col key rec c = Ok rec'.
Proof.
  intros Hclean Hrow. unfold add_category.
  destruct (negb (is_empty (category c)) && negb (String.eqb (category c) "nan"));
    [|eexists; reflexivity].
  assert (Hv : exists v,
             (if (col <? shape1 df)%nat then iloc df (actual_row c) col
              else Ok (CInt 0)) = Ok v /\
             exists v', clean_value v = Ok v').
  { destruct (col <? shape1 df)%nat eqn:Hcol.
    - unfold iloc. apply Nat.ltb_lt in Hrow. rewrite Hrow, Hcol. cbn [andb].
      exists (values df (actual_row c) col). split; [reflexivity|].
      apply clean_value_ok. exact Hclean.
    - exists (CInt 0). split; [reflexivity|]. eexists. reflexivity. }
  destruct Hv as [v [-> [v' Hv']]]. cbn [bind]. rewrite Hv'. cbn [bind].
  destruct (should_include_field_for_location (category c) key);
    eexists; reflexivity.
Qed.

Lemma add_categories_ok df col key cats (rec : record) :
  cleanable df ->
  Forall (discovered repr_other df) cats ->
  exists rec', for_each (add_category df col key) cats rec = Ok rec'.
Proof.
  intros Hclean. revert rec. induction cats as [|c cats IH]; intros rec Hall.
  - eexists. reflexivity.
  - inversion Hall as [|? ? [Hrow _] Hrest]; subst. cbn [for_each].
    destruct (add_category_ok df col key rec c Hclean Hrow) as [rec1 ->].
    apply IH. exact Hrest.
Qed.

Lemma make_record_ok df cats d loc :
  cleanable df ->
  Forall (discovered repr_other df) cats ->
  exists rec, make_record df cats d loc = Ok rec.
Proof.
  intros Hclean Hall. destruct loc as [key name]. unfold make_record.
  apply add_categories_ok; assumption.
Qed.

Lemma make_record_keys df cats d loc rec :
  make_record df cats d loc = Ok rec ->
  incl standard_cols (Dict.keys rec).
Proof.
  destruct loc as [key name]. unfold make_record. intros H.
  apply add_categories_keys in H. exact H.
Qed.

(** In the record of a date and a location, a label other than "nan"
    holds the cleaned cell of the last category that carries the label,
    in the row of the label's entity, and the integer 0 elsewhere. *)
Lemma make_record_label df cats d key name pre c post rec :
  make_record df cats d (key, name) = Ok rec ->
  cats = pre ++ c :: post ->
  discovered repr_other df c ->
  category c <> "nan" ->
  (col_idx d < shape1 df)%nat ->
  Forall (fun c' => category c' <> category c) post ->
  exists v,
    clean_value (values df (actual_row c) (col_idx d)) = Ok v /\
    Dict.get rec (category c) =
      Some (if String.eqb key (entity_of_label (category c)) then v else PyInt 0).
Proof.
  unfold make_record. intros H -> Hdisc Hnan Hcol Hpost.
  rewrite for_each_app in H.
  match type of H with
  | match ?x with _ => _ end = _ => destruct x as [r1|e]; [|discriminate H]
  end.
  cbn [for_each] in H.
  destruct (add_category df (col_idx d) key r1 c) as [r2|e] eqn:E; [|discriminate H].
  destruct (add_category_same _ _ _ _ _ _ E Hdisc Hnan Hcol) as [v [Hv Hget]].
  exists v. split; [exact Hv|].
  rewrite (add_categories_other _ _ _ _ _ _ _ H Hpost). exact Hget.
Qed.

(** ** All records *)

Lemma records_collect df cats date_info acc out :
  for_each
    (fun raw_data_records date_item =>
       for_each
         (fun raw_data_records location =>
            rec <- make_record df cats date_item location ;;
            Ok (raw_data_records ++ [rec]))
         dreams_locations raw_data_records)
    date_info acc = Ok out <->
  exists yss,
    Forall2 (fun d ys =>
               Forall2 (fun loc rec => make_record df cats d loc = Ok rec)
                       dreams_locations ys)
            date_info yss /\
    out = acc ++ List.concat yss.
Proof.
  revert acc out. induction date_info as [|d ds IH]; intros acc out; cbn [for_each].
  - split.
    + intros H. injection H as <-. exists []. split; [constructor|].
      cbn [List.concat]. now rewrite app_nil_r.
    + intros [yss [HF ->]]. inversion HF; subst. cbn [List.concat].
      now rewrite app_nil_r.
  - match goal with
    | |- match ?x with _ => _ end = _ <-> _ => destruct x as [acc1|e] eqn:E
    end.
    + apply for_each_collect in E. destruct E as [ys [Hys ->]].
      rewrite IH. split.
      * intros [yss [HF ->]]. exists (ys :: yss). split; [now constructor|].
        cbn [List.concat]. now rewrite app_assoc.
      * intros [yss [HF ->]]. inversion HF as [|? ys' ? yss' Hys' HF']; subst.
        exists yss'. split; [exact HF'|].
        assert (ys' = ys) as ->.
        { clear - Hys Hys'. revert ys' Hys'.
          induction Hys as [|loc rec locs ys Hr Hrest IH]; intros ys' H';
            inversion H'; subst; [reflexivity|].
          f_equal; [congruence | now apply IH]. }
        cbn [List.concat]. now rewrite app_assoc.
    + split; [intros H; discriminate H|].
      intros [yss [HF ->]]. inversion HF as [|? ys' ? yss' Hys' HF']; subst.
      assert (Hok : for_each
                (fun raw_data_records location =>
                   rec <- make_record df cats d location ;;
                   Ok (raw_data_records ++ [rec]))
                dreams_locations acc = Ok (acc ++ ys')).
      { apply for_each_collect. exists ys'. split; [exact Hys' | reflexivity]. }
      rewrite Hok in E. discriminate E.
Qed.

Lemma Forall2_nth_error_l {A B} (R : A -> B -> Prop) xs ys i x :
  Forall2 R xs ys -> nth_error xs i = Some x ->
  exists y, nth_error ys i = Some y /\ R x y.
Proof.
  intros HF. revert i. induction HF as [|a b xs ys Hab HF IH]; intros [|i] H;
    cbn [nth_error] in *; try discriminate H.
  - injection H as <-. exists b. split; [reflexivity | exact Hab].
  - apply IH. exact H.
Qed.

Lemma nth_error_concat_fixed {A} (yss : list (list A)) n i j ys :
  Forall (fun ys => List.length ys = n) yss ->
  nth_error yss i = Some ys -> (j < n)%nat ->
  nth_error (List.concat yss) (n * i + j) = nth_error ys j.
Proof.
  intros Hall. revert i. induction Hall as [|y yss Hy Hall IH]; intros [|i] H Hj;
    cbn [nth_error List.concat] in *; try discriminate H.
  - injection H as <-. rewrite Nat.mul_0_r. cbn [Nat.add].
    apply nth_error_app1. lia.
  - rewrite nth_error_app2 by lia.
    replace (n * S i + j - List.length y)%nat with (n * i + j)%nat by lia.
    apply IH; assumption.
Qed.

Lemma concat_length_fixed {A} (yss : list (list A)) n :
  Forall (fun ys => List.length ys = n) yss ->
  List.length (List.concat yss) = (n * List.length yss)%nat.
Proof.
  induction 1 as [|y yss Hy Hall IH]; cbn [List.concat List.length]; [lia|].
  rewrite length_app, IH. lia.
Qed.

(** ** The saved table *)

Lemma add_new_In cols ks c : In c (add_new cols ks) <-> In c cols \/ In c ks.
Proof.
  revert cols. induction ks as [|k ks IH]; intros cols; cbn [add_new].
  - simpl. tauto.
  - rewrite IH. destruct (mem k cols) eqn:E.
    + apply mem_In in E. simpl. split; [tauto|].
      intros [H|[H|H]]; [tauto | subst; tauto | tauto].
    + rewrite in_app_iff. simpl. tauto.
Qed.

Lemma add_new_NoDup cols ks : NoDup cols -> NoDup (add_new cols ks).
Proof.
  revert cols. induction ks as [|k ks IH]; intros cols H; cbn [add_new];
    [exact H|].
  apply IH. destruct (mem k cols) eqn:E; [exact H|].
  apply mem_false_iff in E.
  apply NoDup_app; [exact H | repeat constructor; simpl; tauto |].
  intros x Hx [Hk|[]]. subst. contradiction.
Qed.

Lemma frame_columns_from_In (records : list record) cols c :
  In c (fold_left (fun cols r => add_new cols (Dict.keys r)) records cols) <->
  In c cols \/ exists r, In r records /\ In c (Dict.keys r).
Proof.
  revert cols. induction records as [|r rs IH]; intros cols; cbn [fold_left].
  - split; [tauto | intros [H|[r [[] _]]]; exact H].
  - rewrite IH, add_new_In. split.
    + intros [[H|H]|[r' [H1 H2]]]; [tauto | right; exists r; simpl; tauto |
                                     right; exists r'; simpl; tauto].
    + intros [H|[r' [[<-|H1] H2]]]; [tauto | tauto | right; eauto].
Qed.

Lemma frame_columns_In records c :
  In c (frame_columns records) <-> exists r, In r records /\ In c (Dict.keys r).
Proof.
  unfold frame_columns. rewrite frame_columns_from_In. simpl. tauto.
Qed.

Lemma frame_columns_NoDup records : NoDup (frame_columns records).
Proof.
  unfold frame_columns. generalize (@nil string) (NoDup_nil string).
  induction records as [|r rs IH]; intros cols H; cbn [fold_left]; [exact H|].
  apply IH, add_new_NoDup, H.
Qed.

Lemma save_raw_data_inv records out :
  save_raw_data records = Ok (Some out) ->
  out = mkRawData
          (standard_cols ++
           sorted (filter (fun col => negb (mem col standard_cols))
                          (frame_columns records)))
          records.
Proof.
  unfold save_raw_data. destruct records as [|r rs]; [intros H; discriminate H|].
  match goal with |- (if ?c then _ else _) = _ -> _ => destruct c end;
    intros H; [|discriminate H].
  injection H as <-. reflexivity.
Qed.

Lemma save_raw_data_ok records :
  records <> [] ->
  Forall (fun r => incl standard_cols (Dict.keys r)) records ->
  exists out, save_raw_data records = Ok (Some out) /\ rows out = records.
Proof.
  intros Hne Hall. unfold save_raw_data.
  destruct records as [|r rs]; [congruence|].
  match goal with
  | |- exists out, (if ?c then _ else _) = _ /\ _ =>
      assert (Hc : c = true); [|rewrite Hc; eexists; split; reflexivity]
  end.
  apply forallb_forall. intros c Hc. apply mem_In.
  apply in_app_or in Hc. destruct Hc as [Hc|Hc].
  - apply frame_columns_In. exists r. split; [now left|].
    inversion Hall as [|? ? Hr _]; subst. apply Hr. exact Hc.
  - apply (proj1 (sorted_In _ _)) in Hc. apply filter_In in Hc. apply Hc.
Qed.

(** ** The pipeline *)

Lemma scan_length start row_data :
  (List.length (scan_headers pd_to_datetime repr_other start row_data)
   <= List.length row_data)%nat.
Proof.
  revert start. induction row_data as [|c r IH]; intros start; simpl; [lia|].
  specialize (IH (S start)).
  destruct (notna c); [|lia].
  destruct (parse_header_cell pd_to_datetime c); simpl; lia.
Qed.

Lemma find_date_headers_inv df :
  let dates := scan_headers pd_to_datetime repr_other 1
                 (map (values df 0) (seq 1 (shape1 df - 1))) in
  find_date_headers pd_to_datetime repr_other (Some df) = (None, [], None) \/
  ((0 < shape0 df)%nat /\ (3 <= List.length dates)%nat /\
   find_date_headers pd_to_datetime repr_other (Some df) = (Some 0, dates, Some df)).
Proof.
  cbv zeta. unfold find_date_headers, iloc_row_from.
  destruct (0 <? shape0 df)%nat eqn:E0; cbn [bind]; [|left; reflexivity].
  destruct (3 <=? List.length
                   (scan_headers pd_to_datetime repr_other 1
                      (map (values df 0) (seq 1 (shape1 df - 1)))))%nat eqn:E3;
    [|left; reflexivity].
  right. apply Nat.ltb_lt in E0. apply Nat.leb_le in E3. repeat split; assumption.
Qed.

Lemma nth_error_Some_lt {A} (l : list A) n x :
  nth_error l n = Some x -> (n < List.length l)%nat.
Proof. intros H. apply nth_error_Some. congruence. Qed.

Lemma Forall2_total {A B} (R : A -> B -> Prop) xs :
  (forall x, exists y, R x y) -> exists ys, Forall2 R xs ys.
Proof.
  intros H. induction xs as [|x xs [ys IH]].
  - exists []. constructor.
  - destruct (H x) as [y Hy]. exists (y :: ys). now constructor.
Qed.

Lemma records_shape df cats date_info yss :
  Forall2 (fun d ys =>
             Forall2 (fun loc rec => make_record df cats d loc = Ok rec)
                     dreams_locations ys)
          date_info yss ->
  Forall (fun ys : list record => List.length ys = 5) yss /\
  List.length yss = List.length date_info.
Proof.
  intros HF. split.
  - induction HF as [|d ys ds yss Hys HF IH]; constructor; [|exact IH].
    apply Forall2_length in Hys. rewrite <- Hys. reflexivity.
  - symmetry. exact (Forall2_length HF).
Qed.

Lemma pipeline_inv df out :
  create_dreams_raw_data pd_to_datetime repr_other (Some df) = Ok (Some out) ->
  exists date_info cats recs,
    find_date_headers pd_to_datetime repr_other (Some df)
      = (Some 0, date_info, Some df) /\
    date_info = scan_headers pd_to_datetime repr_other 1
                  (map (values df 0) (seq 1 (shape1 df - 1))) /\
    (0 < shape1 df)%nat /\
    extract_categories_from_column_a repr_other df = Ok cats /\
    Forall (discovered repr_other df) cats /\
    create_raw_data_records df date_info cats = Ok recs /\
    save_raw_data recs = Ok (Some out).
Proof.
  unfold create_dreams_raw_data. intros H.
  destruct (find_date_headers_inv df) as [Hf | [Hrows [Hlen Hf]]]; cbv zeta in *;
    rewrite Hf in H.
  - cbv beta iota zeta in H. discriminate H.
  - pose proof (scan_length 1 (map (values df 0) (seq 1 (shape1 df - 1)))) as Hsl.
    rewrite length_map, length_seq in Hsl.
    assert (Hcols : (0 < shape1 df)%nat) by lia.
    destruct (scan_headers pd_to_datetime repr_other 1
                (map (values df 0) (seq 1 (shape1 df - 1)))) as [|d ds] eqn:Ed;
      [cbn [List.length] in Hlen; lia|].
    cbv beta iota zeta in H.
    destruct (extract_categories_ok df Hcols) as [cats [Hc Hd]].
    rewrite Hc in H. cbn [bind] in H.
    destruct cats as [|c cats]; [discriminate H|].
    destruct (create_raw_data_records df (d :: ds) (c :: cats)) as [recs|e] eqn:Er;
      cbn [bind] in H; [|discriminate H].
    destruct recs as [|r recs]; [discriminate H|].
    exists (d :: ds), (c :: cats), (r :: recs).
    repeat split; assumption.
Qed.

(** C1, as the code has it. In the table the transposer emits, row
    [5*i + j] is the row of the i-th discovered date and the j-th entity.
    For every discovered date, every entity and every discovered category
    whose label is not "nan" and is not carried by a later row of the
    sheet, that row holds under the label the cleaned value of the source
    cell at (category row, date column) when the entity is the one of the
    label (the location of one of the four per-location revenue labels,
    otherwise "General"), and the integer 0 for every other entity. The
    table is produced whenever three dates and one category are
    discovered and no cell is an integer past the float range. *)
Theorem category_value_attribution (df : Sheet) :
  (forall out,
      create_dreams_raw_data pd_to_datetime repr_other (Some df) = Ok (Some out) ->
      exists date_info cats,
        find_date_headers pd_to_datetime repr_other (Some df)
          = (Some 0, date_info, Some df) /\
        extract_categories_from_column_a repr_other df = Ok cats /\
        List.length (rows out) = (5 * List.length date_info)%nat /\
        forall i d j key name pre c post,
          nth_error date_info i = Some d ->
          nth_error dreams_locations j = Some (key, name) ->
          cats = pre ++ c :: post ->
          category c <> "nan" ->
          Forall (fun c' => category c' <> category c) post ->
          exists rec v,
            nth_error (rows out) (5 * i + j) = Some rec /\
            clean_value (values df (actual_row c) (col_idx d)) = Ok v /\
            Dict.get rec (category c) =
              Some (if String.eqb key (entity_of_label (category c))
                    then v else PyInt 0)) /\
  (forall date_info cats,
      find_date_headers pd_to_datetime repr_other (Some df)
        = (Some 0, date_info, Some df) ->
      extract_categories_from_column_a repr_other df = Ok cats ->
      cats <> [] ->
      cleanable df ->
      exists out,
        create_dreams_raw_data pd_to_datetime repr_other (Some df) = Ok (Some out)).
Proof.
  split.
  - intros out Hrun.
    destruct (pipeline_inv df out Hrun)
      as [date_info [cats [recs [Hf [Hdates [Hcols [Hc [Hdisc [Hr Hs]]]]]]]]].
    exists date_info, cats. split; [exact Hf|]. split; [exact Hc|].
    apply save_raw_data_inv in Hs. rewrite Hs. cbn [rows].
    unfold create_raw_data_records in Hr. apply records_collect in Hr.
    destruct Hr as [yss [Hgrid ->]]. cbn [app].
    destruct (records_shape _ _ _ _ Hgrid) as [Hfive Hlen].
    split; [rewrite (concat_length_fixed yss 5 Hfive), Hlen; reflexivity|].
    intros i d j key name pre c post Hd Hloc Hcats Hnan Hpost.
    destruct (Forall2_nth_error_l _ _ _ _ _ Hgrid Hd) as [ys [Hys Hrow]].
    destruct (Forall2_nth_error_l _ _ _ _ _ Hrow Hloc) as [rec [Hrec Hmake]].
    assert (Hj : (j < 5)%nat).
    { apply nth_error_Some_lt in Hloc. exact Hloc. }
    assert (Hcol : (col_idx d < shape1 df)%nat).
    { apply nth_error_In in Hd. rewrite Hdates in Hd.
      apply scan_col_idx in Hd. rewrite length_map, length_seq in Hd. lia. }
    assert (Hdc : discovered repr_other df c).
    { rewrite Forall_forall in Hdisc. apply Hdisc. rewrite Hcats.
      apply in_or_app. right. now left. }
    destruct (make_record_label _ _ _ _ _ _ _ _ _ Hmake Hcats Hdc Hnan Hcol Hpost)
      as [v [Hv Hget]].
    exists rec, v. split; [|split; assumption].
    rewrite (nth_error_concat_fixed yss 5 i j ys Hfive Hys Hj). exact Hrec.
  - intros date_info cats Hf Hc Hne Hclean.
    destruct (find_date_headers_inv df) as [Hf' | [Hrows [Hlen Hf']]];
      cbv zeta in *; rewrite Hf' in Hf; [discriminate Hf|].
    injection Hf as Hdates.
    assert (Hcols : (0 < shape1 df)%nat).
    { pose proof (scan_length 1 (map (values df 0) (seq 1 (shape1 df - 1)))) as Hsl.
      rewrite length_map, length_seq in Hsl. lia. }
    destruct (extract_categories_ok df Hcols) as [cats' [Hc' Hdisc]].
    rewrite Hc in Hc'. injection Hc' as <-.
    destruct (Forall2_total
                (fun d ys =>
                   Forall2 (fun loc rec => make_record df cats d loc = Ok rec)
                           dreams_locations ys) date_info) as [yss Hgrid].
    { intros d. apply Forall2_total. intros loc.
      apply make_record_ok; assumption. }
    assert (Hr : create_raw_data_records df date_info cats = Ok (List.concat yss)).
    { unfold create_raw_data_records. apply records_collect.
      exists yss. split; [exact Hgrid | reflexivity]. }
    destruct (records_shape _ _ _ _ Hgrid) as [Hfive Hleny].
    assert (Hnonempty : List.concat yss <> []).
    { intros Hnil. apply (f_equal (@List.length record)) in Hnil.
      rewrite (concat_length_fixed yss 5 Hfive), Hleny, <- Hdates in Hnil.
      cbn [List.length] in Hnil. lia. }
    destruct (save_raw_data_ok (List.concat yss) Hnonempty) as [out [Hout _]].
    { apply Forall_forall. intros rec Hin. apply in_concat in Hin.
      destruct Hin as [ys [Hys Hin]].
      apply In_nth_error in Hys. destruct Hys as [i Hi].
      assert (Hd : exists d, nth_error date_info i = Some d).
      { destruct (nth_error date_info i) as [d|] eqn:E; [eauto|].
        apply nth_error_None in E. apply nth_error_Some_lt in Hi. lia. }
      destruct Hd as [d Hd].
      destruct (Forall2_nth_error_l _ _ _ _ _ Hgrid Hd) as [ys' [Hys' Hrow]].
      assert (ys' = ys) as -> by congruence.
      apply In_nth_error in Hin. destruct Hin as [j Hj].
      assert (Hl : exists loc, nth_error dreams_locations j = Some loc).
      { destruct (nth_error dreams_locations j) as [loc|] eqn:E; [eauto|].
        apply nth_error_None in E. apply nth_error_Some_lt in Hj.
        apply Forall2_length in Hrow. lia. }
      destruct Hl as [loc Hl].
      destruct (Forall2_nth_error_l _ _ _ _ _ Hrow Hl) as [rec' [Hrec' Hmake]].
      assert (rec' = rec) as -> by congruence.
      exact (make_record_keys _ _ _ _ _ Hmake). }
    exists out. unfold create_dreams_raw_data. rewrite Hf'.
    destruct (scan_headers pd_to_datetime repr_other 1
                (map (values df 0) (seq 1 (shape1 df - 1)))) as [|d ds] eqn:Ed;
      [cbn [List.length] in Hlen; lia|].
    cbv beta iota zeta. rewrite Hc. cbn [bind].
    destruct cats as [|c cats]; [congruence|].
    rewrite <- Hdates in Hr. rewrite Hr. cbn [bind].
    destruct (List.concat yss) as [|r rs]; [congruence|]. exact Hout.
Qed.

End WithReader.

Lemma ledger_sheet_cleanable : cleanable ledger_sheet.
Proof.
  intros r c z H.
  assert (Hsmall : (Z.abs z < 1000)%Z).
  { unfold ledger_sheet, sheet_of_rows in H. cbn [values] in H.
    do 5 (destruct r as [|r]; [do 5 (destruct c as [|c]; [cbn in H; try discriminate H; try (injection H as <-; lia)|]); destruct c; discriminate H|]);
      destruct r, c; discriminate H. }
  unfold float_overflow_bound.
  assert ((1000 < 2 ^ 1024 - 2 ^ 970)%Z) by (vm_compute; reflexivity). lia.
Qed.

Lemma category_value_attribution_witness :
  exists out rec,
    create_dreams_raw_data datetime_cells_only repr_placeholder (Some ledger_sheet)
      = Ok (Some out) /\
    nth_error (rows out) 9 = Some rec /\
    Dict.get rec "Total Location Revenue" = Some (PyFloat (310 # 1)).
Proof.
  destruct (category_value_attribution datetime_cells_only repr_placeholder ledger_sheet)
    as [Hchar Hprod].
  edestruct Hprod as [out Hout].
  - vm_compute. reflexivity.
  - vm_compute. reflexivity.
  - intros H. discriminate H.
  - exact ledger_sheet_cleanable.
  - destruct (Hchar out Hout) as [date_info [cats [Hf [Hc [_ Hattr]]]]].
    vm_compute in Hf. injection Hf as <-.
    vm_compute in Hc. injection Hc as <-.
    edestruct Hattr
      with (i := 1) (j := 4) (key := "General") (name := "General")
           (pre := [mkCategoryInfo "Okotoks Revenue" 1;
                    mkCategoryInfo "Barlow NE Revenue" 2])
           (c := mkCategoryInfo "Total Location Revenue" 3)
           (post := @nil CategoryInfo)
      as [rec [v [Hrow [Hv Hget]]]].
    + reflexivity.
    + reflexivity.
    + reflexivity.
    + cbn [category]. intros H. discriminate H.
    + constructor.
    + exists out, rec. split; [exact Hout|]. split; [exact Hrow|].
      vm_compute in Hv. injection Hv as <-. exact Hget.
Defined.

(** C1 as stated fails when two rows of the sheet carry the same label:
    the row labelled "Rent" at index 1 is a discovered category, its cell
    for the first date cleans to 10.0, and the "General" row of that date
    holds 1.0 under "Rent", the value of the later row; no emitted row
    holds the earlier value. *)
Lemma duplicate_label_keeps_last :
  exists out rec cats,
    create_dreams_raw_data datetime_cells_only repr_placeholder
      (Some duplicate_label_sheet) = Ok (Some out) /\
    extract_categories_from_column_a repr_placeholder duplicate_label_sheet = Ok cats /\
    In (mkCategoryInfo "Rent" 1) cats /\
    clean_value (values duplicate_label_sheet 1 1) = Ok (PyFloat (10 # 1)) /\
    nth_error (rows out) 4 = Some rec /\
    Dict.get rec "Location" = Some (PyStr "General") /\
    Dict.get rec "Rent" = Some (PyFloat (1 # 1)) /\
    Forall (fun r => Dict.get r "Rent" <> Some (PyFloat (10 # 1))) (rows out).
Proof.
  eexists _, _, _.
  split; [vm_compute; reflexivity|].
  split; [vm_compute; reflexivity|].
  split; [left; reflexivity|].
  split; [vm_compute; reflexivity|].
  split; [vm_compute; reflexivity|].
  split; [vm_compute; reflexivity|].
  split; [vm_compute; reflexivity|].
  cbn [rows]. repeat constructor; vm_compute; intros H; discriminate H.
Qed.

End EmissionSpec.

(* ================================================================== *)
(** * Column order of the output tables *)
(* ================================================================== *)

Module ColumnOrderSpec.

Import Processor Etl Fixtures PyFacts DictFacts EmissionSpec.

Lemma has_as_get {V} (d : Dict.t V) k :
  Dict.has d k = match Dict.get d k with Some _ => true | None => false end.
Proof.
  destruct (Dict.get d k) eqn:G.
  - apply has_get. eauto.
  - apply has_false_get. exact G.
Qed.

Lemma has_set {V} (d : Dict.t V) k v c :
  Dict.has (Dict.set d k v) c = Dict.has d c || String.eqb c k.
Proof.
  rewrite !has_as_get. destruct (String.eqb c k) eqn:E.
  - apply String.eqb_eq in E. subst c. rewrite get_set_same.
    now rewrite orb_true_r.
  - apply String.eqb_neq in E. rewrite get_set_other by exact E.
    now rewrite orb_false_r.
Qed.

Lemma filter_all {A} (p : A -> bool) xs : forallb p xs = true -> filter p xs = xs.
Proof.
  induction xs as [|x xs IH]; cbn [forallb filter]; [reflexivity|].
  intros H. apply andb_prop in H. destruct H as [Hx Hxs].
  rewrite Hx. f_equal. exact (IH Hxs).
Qed.

Lemma standard_columns_NoDup : NoDup standard_columns.
Proof.
  unfold standard_columns.
  repeat (constructor; [intros H; apply mem_In in H; vm_compute in H; discriminate H|]).
  constructor.
Qed.

Lemma standard_cols_NoDup : NoDup standard_cols.
Proof.
  unfold standard_cols.
  repeat (constructor; [intros H; apply mem_In in H; vm_compute in H; discriminate H|]).
  constructor.
Qed.

(** The standard columns the combined table has are copied first, in
    their declared order. *)
Lemma seed_keys (combined_df : Frame) cols (r0 : Frame) :
  NoDup cols ->
  (forall c, In c cols -> ~ In c (Dict.keys r0)) ->
  Dict.keys
    (fold_left
       (fun result_df col =>
          match Dict.get combined_df col with
          | Some c => Dict.set result_df col c
          | None => result_df
          end) cols r0)
  = Dict.keys r0 ++ filter (Dict.has combined_df) cols.
Proof.
  intros Hnd. revert r0. induction Hnd as [|col cols Hnotin Hnd IH]; intros r0 Hfresh.
  - cbn [fold_left filter]. now rewrite app_nil_r.
  - cbn [fold_left filter]. rewrite (has_as_get combined_df col).
    destruct (Dict.get combined_df col) as [c|].
    + rewrite IH.
      * rewrite keys_set.
        assert (Dict.has r0 col = false) as ->.
        { apply mem_false_iff. apply Hfresh. now left. }
        now rewrite <- app_assoc.
      * intros c' Hc'. rewrite keys_set.
        assert (Dict.has r0 col = false) as ->.
        { apply mem_false_iff. apply Hfresh. now left. }
        rewrite in_app_iff. intros [H|[H|[]]].
        -- apply (Hfresh c'); [now right | exact H].
        -- subst c'. contradiction.
    + apply IH. intros c' Hc'. apply Hfresh. now right.
Qed.

(** Every canonical column that is not there yet is appended, in the
    order of the list. *)
Lemma init_keys cols (r0 : Frame) :
  NoDup cols ->
  Dict.keys
    (fold_left
       (fun result_df norm_col =>
          if negb (Dict.has result_df norm_col)
          then Dict.set result_df norm_col (repeat CNaN (len result_df))
          else result_df) cols r0)
  = Dict.keys r0 ++ filter (fun c => negb (mem c (Dict.keys r0))) cols.
Proof.
  intros Hnd. revert r0. induction Hnd as [|col cols Hnotin Hnd IH]; intros r0.
  - cbn [fold_left filter]. now rewrite app_nil_r.
  - cbn [fold_left filter]. rewrite IH.
    change (Dict.has r0 col) with (mem col (Dict.keys r0)).
    destruct (mem col (Dict.keys r0)) eqn:E; cbn [negb].
    + reflexivity.
    + rewrite keys_set. unfold Dict.has. rewrite E. rewrite <- app_assoc.
      cbn [app]. f_equal. f_equal. apply filter_ext_in.
      intros c Hc. f_equal. unfold mem. rewrite existsb_app. cbn [existsb].
      assert (String.eqb c col = false) as ->.
      { apply String.eqb_neq. intros ->. contradiction. }
      now rewrite !orb_false_r.
Qed.

Section WithPrimitives.

Variable re_search_nocase : string -> result (string -> bool).
Variable pd_to_numeric : list cell -> result (list cell).

Lemma apply_mapping_keys combined_df idx sn (df : Frame) item :
  incl sn (Dict.keys df) ->
  Dict.keys (apply_mapping pd_to_numeric combined_df idx sn df item) = Dict.keys df.
Proof.
  intros Hincl. destruct item as [orig norm]. unfold apply_mapping.
  destruct (Dict.has combined_df orig) ; cbn [andb]; [|reflexivity].
  destruct (mem norm sn) eqn:Hm; [|reflexivity].
  assert (Hhas : Dict.has df norm = true).
  { apply mem_In. apply Hincl. apply mem_In. exact Hm. }
  rewrite Hhas. cbn [negb andb].
  match goal with |- context [if ?c then df else _] => destruct c end;
    [reflexivity|].
  repeat match goal with
         | |- context [if ?c then loc_assign _ _ _ _ else _] => destruct c
         | |- context [if ?c then assign_numeric _ _ _ _ _ else _] => destruct c
         end;
    first [ apply NormalizerSpec.loc_assign_keys
          | apply NormalizerSpec.assign_numeric_keys ].
Qed.

Lemma mapping_loop_keys combined_df idx sn (mapping : Dict.t string) (df : Frame) :
  incl sn (Dict.keys df) ->
  Dict.keys (fold_left (apply_mapping pd_to_numeric combined_df idx sn) mapping df)
  = Dict.keys df.
Proof.
  revert df. induction mapping as [|item mapping IH]; intros df Hincl;
    cbn [fold_left]; [reflexivity|].
  rewrite IH; [apply apply_mapping_keys; exact Hincl|].
  rewrite apply_mapping_keys by exact Hincl. exact Hincl.
Qed.

Lemma clients_loop_keys master_df combined_df names sn clients (df out : Frame) :
  incl sn (Dict.keys df) ->
  for_each (process_client re_search_nocase pd_to_numeric master_df combined_df
              names sn) clients df = Ok out ->
  Dict.keys out = Dict.keys df.
Proof.
  revert df. induction clients as [|client clients IH]; intros df Hincl H;
    cbn [for_each] in H.
  - injection H as <-. reflexivity.
  - unfold process_client at 1 in H.
    destruct (mapping_of_client re_search_nocase master_df client) as [mapping|e];
      cbn [bind] in H; [|discriminate H].
    apply IH in H.
    + rewrite H. apply mapping_loop_keys. exact Hincl.
    + rewrite mapping_loop_keys by exact Hincl. exact Hincl.
Qed.

Lemma create_normalized_keys master_df (combined_df out : Frame) :
  create_normalized_output_with_verification re_search_nocase pd_to_numeric
    master_df combined_df = Ok out ->
  let prefix := filter (Dict.has combined_df) standard_columns in
  Dict.keys out =
  prefix ++ filter (fun c => negb (mem c prefix)) (sorted normalized_columns).
Proof.
  unfold create_normalized_output_with_verification. intros H.
  destruct (column combined_df "Client Name") as [names|e]; cbn [bind] in H;
    [|discriminate H].
  cbv zeta.
  pose proof (seed_keys combined_df standard_columns Dict.empty
                standard_columns_NoDup (fun c _ (F : In c []) => F)) as Hseed.
  cbn [Dict.keys Dict.empty map app] in Hseed.
  match type of H with
  | for_each _ _ ?r2 = _ =>
      assert (Hinit : Dict.keys r2 =
                filter (Dict.has combined_df) standard_columns ++
                filter (fun c => negb (mem c (filter (Dict.has combined_df)
                                                     standard_columns)))
                       (sorted normalized_columns))
  end.
  { rewrite init_keys.
    - rewrite Hseed. reflexivity.
    - apply sorted_NoDup. exact ResolverSpec.normalized_columns_NoDup. }
  apply clients_loop_keys in H.
  - rewrite H. exact Hinit.
  - rewrite Hinit. intros c Hc. apply in_or_app.
    destruct (mem c (filter (Dict.has combined_df) standard_columns)) eqn:E.
    + left. apply mem_In. exact E.
    + right. apply filter_In. split; [exact Hc | now rewrite E].
Qed.

(** C8, as the code has it. The table [run_processing] writes starts with
    the standard columns that the combined input has (with "Record ID",
    which is always added), in their declared order, followed by every
    canonical column that is not in that prefix, in lexicographic order,
    with no column twice; when the input has all standard columns this is
    the nine-column prefix followed by the other canonical columns. The
    table the transposer saves starts with its six standard columns,
    followed by every other key of the records in lexicographic order,
    with no column twice. *)
Theorem output_column_order :
  (forall master_df combined_df out,
      run_processing re_search_nocase pd_to_numeric master_df combined_df = Ok out ->
      let present := fun c => Dict.has combined_df c || String.eqb c "Record ID" in
      let prefix := filter present standard_columns in
      let rest := filter (fun c => negb (mem c prefix)) (sorted normalized_columns) in
      Dict.keys out = prefix ++ rest /\
      NoDup (Dict.keys out) /\
      StronglySorted str_le rest /\
      (forall c, In c rest <-> In c normalized_columns /\ ~ In c prefix) /\
      (forallb present standard_columns = true ->
       Dict.keys out =
       standard_columns ++
       filter (fun c => negb (mem c standard_columns)) (sorted normalized_columns))) /\
  (forall records out,
      save_raw_data records = Ok (Some out) ->
      let rest := sorted (filter (fun col => negb (mem col standard_cols))
                                 (frame_columns records)) in
      column_order out = standard_cols ++ rest /\
      NoDup (column_order out) /\
      StronglySorted str_le rest /\
      (forall c, In c rest <->
                 (exists r, In r records /\ In c (Dict.keys r)) /\
                 ~ In c standard_cols)).
Proof.
  split.
  - intros master_df combined_df out Hrun. cbv zeta.
    unfold run_processing in Hrun.
    match type of Hrun with
    | bind (create_normalized_output_with_verification _ _ _ ?cdf) _ = _ =>
        destruct (create_normalized_output_with_verification
                    re_search_nocase pd_to_numeric master_df cdf) as [r|e] eqn:Hc;
        cbn [bind] in Hrun; [|discriminate Hrun]
    end.
    injection Hrun as <-.
    apply create_normalized_keys in Hc. cbv zeta in Hc.
    rewrite NormalizerSpec.force_numeric_keys, Hc.
    assert (Hprefix :
              filter (Dict.has
                        (Dict.set combined_df "Record ID"
                           (map (fun i => CInt (Z.of_nat i))
                                (seq 1 (len combined_df))))) standard_columns
              = filter (fun c => Dict.has combined_df c || String.eqb c "Record ID")
                       standard_columns).
    { apply filter_ext. intros c. apply has_set. }
    rewrite Hprefix.
    set (prefix := filter (fun c => Dict.has combined_df c || String.eqb c "Record ID")
                          standard_columns).
    set (rest := filter (fun c => negb (mem c prefix)) (sorted normalized_columns)).
    assert (Hrest : forall c, In c rest <-> In c normalized_columns /\ ~ In c prefix).
    { intros c. unfold rest. rewrite filter_In, sorted_In, negb_true_iff, mem_false_iff.
      reflexivity. }
    split; [reflexivity|]. split; [|split; [|split]].
    + apply NoDup_app.
      * apply NoDup_filter. exact standard_columns_NoDup.
      * apply NoDup_filter, sorted_NoDup. exact ResolverSpec.normalized_columns_NoDup.
      * intros c Hp Hr. apply Hrest in Hr. destruct Hr as [_ Hr]. exact (Hr Hp).
    + apply StronglySorted_filter. apply sorted_StronglySorted.
    + exact Hrest.
    + intros Hall. unfold rest, prefix. rewrite (filter_all _ _ Hall). reflexivity.
  - intros records out Hsave. cbv zeta.
    apply save_raw_data_inv in Hsave. rewrite Hsave. cbn [column_order].
    assert (Hrest : forall c,
               In c (sorted (filter (fun col => negb (mem col standard_cols))
                                    (frame_columns records))) <->
               (exists r, In r records /\ In c (Dict.keys r)) /\ ~ In c standard_cols).
    { intros c. rewrite sorted_In, filter_In, negb_true_iff, mem_false_iff.
      rewrite frame_columns_In. reflexivity. }
    split; [reflexivity|]. split; [|split].
    + apply NoDup_app.
      * exact standard_cols_NoDup.
      * apply sorted_NoDup, NoDup_filter, frame_columns_NoDup.
      * intros c Hs Hr. apply Hrest in Hr. destruct Hr as [_ Hr]. exact (Hr Hs).
    + apply sorted_StronglySorted.
    + exact Hrest.
Qed.

End WithPrimitives.

Lemma output_column_order_witness :
  (exists out,
      run_processing literal_search_nocase coerce_to_numeric None full_combined = Ok out /\
      Dict.keys out =
      standard_columns ++
      filter (fun c => negb (mem c standard_columns)) (sorted normalized_columns)) /\
  (exists out,
      save_raw_data sample_records = Ok (Some out) /\
      column_order out = standard_cols ++ ["Administrative"; "Rent"]).
Proof.
  destruct (output_column_order literal_search_nocase coerce_to_numeric) as [HN HT].
  split.
  - destruct (run_processing literal_search_nocase coerce_to_numeric None full_combined)
      as [out|e] eqn:E; [|vm_compute in E; discriminate E].
    exists out. split; [reflexivity|].
    destruct (HN None full_combined out E) as [_ [_ [_ [_ Hall]]]].
    apply Hall. vm_compute. reflexivity.
  - destruct (save_raw_data sample_records) as [[out|]|e] eqn:E;
      [|vm_compute in E; discriminate E|vm_compute in E; discriminate E].
    exists out. split; [reflexivity|].
    destruct (HT sample_records out E) as [Hcols _].
    rewrite Hcols. vm_compute. reflexivity.
Defined.

(** C8 as stated fails for the normaliser when the combined input lacks a
    standard column: the prefix then has only the standard columns that
    are present, and "Location", "Month", "Year", "Quarter", "Date" and
    "Forecast Type", being canonical names, appear among the sorted
    columns. *)
Lemma missing_standard_columns_sorted_in :
  exists out,
    run_processing literal_search_nocase coerce_to_numeric None bare_combined = Ok out /\
    firstn 4 (Dict.keys out)
      = ["Record ID"; "File Name"; "Client Name"; "% of Revenue"] /\
    In "Location" (skipn 4 (Dict.keys out)) /\
    Dict.keys out <>
      standard_columns ++
      filter (fun c => negb (mem c standard_columns)) (sorted normalized_columns).
Proof.
  eexists. split; [vm_compute; reflexivity|].
  split; [vm_compute; reflexivity|].
  split; [apply mem_In; vm_compute; reflexivity|].
  intros H. apply (f_equal (fun l => nth_error l 3)) in H.
  vm_compute in H. discriminate H.
Qed.

End ColumnOrderSpec.

(* ================================================================== *)
(** * Client names and sheet selection *)
(* ================================================================== *)

Module ClientNameSpec.

Import Processor Fixtures PyFacts DictFacts.

Lemma endswith_app a b : endswith (a ++ b) b = true.
Proof.
  induction a as [|c a IH]; cbn [append].
  - destruct b; cbn [endswith]; rewrite String.eqb_refl; reflexivity.
  - cbn [endswith]. rewrite IH. apply orb_true_r.
Qed.

Lemma endswith_inv s t : endswith s t = true -> exists p, s = (p ++ t)%string.
Proof.
  induction s as [|c s IH]; cbn [endswith]; intros H.
  - rewrite orb_false_r in H. apply String.eqb_eq in H. exists EmptyString. now subst.
  - apply orb_prop in H. destruct H as [H|H].
    + apply String.eqb_eq in H. exists EmptyString. now subst.
    + destruct (IH H) as [p ->]. now exists (String c p).
Qed.

Lemma length_append a b :
  String.length (a ++ b) = (String.length a + String.length b)%nat.
Proof. induction a as [|c a IH]; cbn [append String.length]; [reflexivity | now rewrite IH]. Qed.

Lemma substring_prefix a b : substring 0 (String.length a) (a ++ b) = a.
Proof.
  induction a as [|c a IH]; cbn [append String.length].
  - destruct b; reflexivity.
  - cbn [substring]. now rewrite IH.
Qed.

Lemma drop_last_app a b : drop_last (String.length b) (a ++ b) = a.
Proof.
  unfold drop_last. rewrite length_append.
  replace (String.length a + String.length b - String.length b)%nat
    with (String.length a) by lia.
  apply substring_prefix.
Qed.

Lemma append_assoc a b c : ((a ++ b) ++ c)%string = (a ++ (b ++ c))%string.
Proof. induction a as [|x a IH]; cbn [append]; [reflexivity | now rewrite IH]. Qed.

(** The last character decides whether a name ends with an extension. *)
Lemma last_get a b c :
  String.get (String.length (a ++ String c b) - 1 - String.length b) (a ++ String c b)
  = Some c.
Proof.
  rewrite length_append. cbn [String.length].
  replace (String.length a + S (String.length b) - 1 - String.length b)%nat
    with (String.length a) by lia.
  induction a as [|x a IH]; cbn [append String.length String.get]; [reflexivity | exact IH].
Qed.

Lemma not_xlsx a : endswith (a ++ ".xls") ".xlsx" = false.
Proof.
  destruct (endswith (a ++ ".xls") ".xlsx") eqn:E; [|reflexivity].
  apply endswith_inv in E. destruct E as [p Hp].
  pose proof (last_get (a ++ ".xl") EmptyString "s") as H1.
  pose proof (last_get (p ++ ".xls") EmptyString "x") as H2.
  rewrite !append_assoc in H1, H2. cbn [append] in H1, H2.
  rewrite Hp in H1. rewrite H1 in H2. discriminate H2.
Qed.

Lemma strip_first_suffix_at pre suffix post base :
  (forall e, In e pre -> endswith (base ++ suffix) e = false) ->
  strip_first_suffix (pre ++ suffix :: post) (base ++ suffix) = base.
Proof.
  intros Hpre. induction pre as [|e pre IH]; cbn [app strip_first_suffix].
  - rewrite endswith_app. apply drop_last_app.
  - rewrite (Hpre e (or_introl eq_refl)). apply IH.
    intros e' He'. apply Hpre. now right.
Qed.

(** A file named after a client, a known suffix and an Excel extension
    yields the client: the extension is cut, then the first suffix of the
    list that the name ends with, then surrounding whitespace. *)
Theorem extract_client_name_of_file (base suffix : string)
  (pre post : list string)
  (Hsuffix : suffixes = pre ++ suffix :: post)
  (Hfirst : forall e, In e pre -> endswith (base ++ suffix) e = false) :
  extract_client_name (base ++ suffix ++ ".xlsx") = strip base /\
  extract_client_name (base ++ suffix ++ ".xls") = strip base.
Proof.
  pose proof (drop_last_app (base ++ suffix) ".xlsx") as Hx.
  pose proof (drop_last_app (base ++ suffix) ".xls") as Hs.
  cbn [String.length] in Hx, Hs.
  unfold extract_client_name. rewrite Hsuffix. split.
  - rewrite <- !append_assoc. rewrite endswith_app, Hx.
    now rewrite strip_first_suffix_at.
  - rewrite <- !append_assoc. rewrite not_xlsx, endswith_app, Hs.
    now rewrite strip_first_suffix_at.
Qed.

Lemma extract_client_name_of_file_witness :
  extract_client_name "Nolan Hill Car Wash Data.xlsx" = "Nolan Hill Car Wash".
Proof.
  destruct (extract_client_name_of_file "Nolan Hill Car Wash" " Data"
              [" Raw Data"] [" Dashboard_01292025"; " Dashboard_01232025";
                             " Forecast Analysis_01022025"]) as [H _].
  - reflexivity.
  - intros e [<-|[]]. reflexivity.
  - exact H.
Defined.

Example extract_client_name_first_suffix_only :
  extract_client_name "Splash Data Raw Data.xlsx" = "Splash Data".
Proof. reflexivity. Qed.

Example extract_client_name_blank : extract_client_name " Raw Data.xlsx" = "".
Proof. reflexivity. Qed.

(** ** Blank names and the resolver *)

Lemma split_from_nonempty s cur :
  is_empty cur = false -> split_from s cur <> [].
Proof.
  revert cur. induction s as [|c s IH]; intros cur Hcur; cbn [split_from].
  - rewrite Hcur. discriminate.
  - destruct (is_space c).
    + rewrite Hcur. discriminate.
    + apply IH. destruct cur; reflexivity.
Qed.

Lemma split_nil_lstrip s : split s = [] <-> lstrip s = EmptyString.
Proof.
  unfold split. induction s as [|c s IH]; cbn [split_from lstrip is_empty].
  - tauto.
  - destruct (is_space c); [exact IH|].
    split; [|discriminate].
    intros H. exfalso. revert H. apply split_from_nonempty. reflexivity.
Qed.

Lemma strip_nil_lstrip s : strip s = EmptyString <-> lstrip s = EmptyString.
Proof.
  unfold strip. destruct (lstrip_head s) as [-> | [c [r [-> Hc]]]]; [tauto|].
  cbn [rstrip]. rewrite Hc. cbn [andb]. split; discriminate.
Qed.

Lemma lstrip_strip s : lstrip (strip s) = strip s.
Proof.
  unfold strip. destruct (lstrip_head s) as [-> | [c [r [-> Hc]]]]; [reflexivity|].
  cbn [rstrip]. rewrite Hc. cbn [andb lstrip]. now rewrite Hc.
Qed.

Section WithSearch.

Variable re_search_nocase : string -> result (string -> bool).

(** The resolver's [IndexError] is reached exactly by the files whose
    extracted client name is empty: for them, with a master dataframe
    loaded, the resolver raises; every other extracted name has a first
    token, and the resolver returns once that token compiles. *)
Theorem extracted_name_resolves (filename : string) (master_df : list MasterRow) :
  (extract_client_name filename = EmptyString ->
   create_client_specific_mapping re_search_nocase (Some master_df)
     (extract_client_name filename) = Raise IndexError) /\
  (extract_client_name filename <> EmptyString ->
   exists token rest,
     split (extract_client_name filename) = token :: rest /\
     forall search,
       re_search_nocase token = Ok search ->
       exists mapping,
         create_client_specific_mapping re_search_nocase (Some master_df)
           (extract_client_name filename) = Ok mapping).
Proof.
  split.
  - intros ->. reflexivity.
  - intros Hne.
    destruct (split (extract_client_name filename)) as [|token rest] eqn:E.
    + exfalso. apply Hne. apply split_nil_lstrip in E.
      unfold extract_client_name in *. rewrite lstrip_strip in E. exact E.
    + exists token, rest. split; [reflexivity|].
      intros search Hs.
      exact (ResolverSpec.resolve_returns_with_token re_search_nocase
               (Some master_df) _ token rest search E Hs).
Qed.

End WithSearch.

Lemma extracted_name_resolves_witness :
  create_client_specific_mapping literal_search_nocase (Some sample_master)
    (extract_client_name " Raw Data.xlsx") = Raise IndexError /\
  exists mapping,
    create_client_specific_mapping literal_search_nocase (Some sample_master)
      (extract_client_name "Splash Raw Data.xlsx") = Ok mapping.
Proof.
  split.
  - apply (extracted_name_resolves literal_search_nocase " Raw Data.xlsx" sample_master).
    reflexivity.
  - destruct (extracted_name_resolves literal_search_nocase "Splash Raw Data.xlsx"
                sample_master) as [_ H].
    destruct H as [token [rest [Hsplit Hres]]].
    + intros H. vm_compute in H. discriminate H.
    + apply (Hres (fun text => contains (lower token) (lower text))). reflexivity.
Defined.

(** ** Sheet selection *)

(** [find_raw_data_sheet] names a sheet of the workbook whenever the
    workbook has one, "Raw Data" when that sheet exists whatever its
    position, and answers with the index 0 only for a workbook without
    sheets or one that cannot be opened. *)
Theorem find_raw_data_sheet_exists (sheet_names : list string) :
  match find_raw_data_sheet (Ok sheet_names) with
  | SheetName s => In s sheet_names
  | SheetIndex n => n = 0 /\ sheet_names = []
  end /\
  (In "Raw Data" sheet_names ->
   find_raw_data_sheet (Ok sheet_names) = SheetName "Raw Data") /\
  (forall e, find_raw_data_sheet (Raise e) = SheetIndex 0).
Proof.
  split; [|split].
  - unfold find_raw_data_sheet.
    destruct (mem "Raw Data" sheet_names) eqn:E; [apply mem_In; exact E|].
    destruct (find (fun variant => mem variant sheet_names) raw_data_variants)
      as [v|] eqn:F.
    + apply find_some in F. apply mem_In. apply F.
    + destruct sheet_names as [|first rest]; [split; reflexivity | now left].
  - intros H. unfold find_raw_data_sheet. apply mem_In in H. now rewrite H.
  - reflexivity.
Qed.

Lemma find_raw_data_sheet_exists_witness :
  find_raw_data_sheet (Ok ["Summary"; "Raw Data"]) = SheetName "Raw Data".
Proof.
  destruct (find_raw_data_sheet_exists ["Summary"; "Raw Data"]) as [_ [H _]].
  apply H. right. left. reflexivity.
Defined.

End ClientNameSpec.

(* ================================================================== *)
(** * Client-specific mappings *)
(* ================================================================== *)

Module ClientMappingSpec.

Import Processor Fixtures PyFacts DictFacts.

Lemma client_specific_fold_get rows (m : Dict.t string) o :
  (forall r, In r rows -> Original_Column_Names r = Some o ->
             Normalized_Column_Name r = None) ->
  Dict.get
    (fold_left
       (fun mapping row =>
          match Original_Column_Names row, Normalized_Column_Name row with
          | Some original_col, Some normalized_col =>
              Dict.set mapping original_col normalized_col
          | _, _ => mapping
          end) rows m) o
  = Dict.get m o.
Proof.
  revert m. induction rows as [|row rows IH]; intros m Hnone; cbn [fold_left];
    [reflexivity|].
  rewrite IH by (intros r Hr; apply Hnone; now right).
  destruct (Original_Column_Names row) as [oc|] eqn:Eo; [|reflexivity].
  destruct (Normalized_Column_Name row) as [nc|] eqn:En; [|reflexivity].
  apply get_set_other. intros ->.
  specialize (Hnone row (or_introl eq_refl) Eo). congruence.
Qed.

Lemma client_specific_fold_source rows (m : Dict.t string) o n :
  Dict.get
    (fold_left
       (fun mapping row =>
          match Original_Column_Names row, Normalized_Column_Name row with
          | Some original_col, Some normalized_col =>
              Dict.set mapping original_col normalized_col
          | _, _ => mapping
          end) rows m) o = Some n ->
  Dict.get m o = Some n \/
  exists row, In row rows /\ Original_Column_Names row = Some o /\
              Normalized_Column_Name row = Some n.
Proof.
  revert m. induction rows as [|row rows IH]; intros m H; cbn [fold_left] in H;
    [now left|].
  apply IH in H. destruct H as [H | [r [Hr Hrow]]].
  - destruct (Original_Column_Names row) as [oc|] eqn:Eo; [|now left].
    destruct (Normalized_Column_Name row) as [nc|] eqn:En; [|now left].
    destruct (String.eqb o oc) eqn:E.
    + apply String.eqb_eq in E. subst oc. rewrite get_set_same in H.
      injection H as <-. right. exists row. split; [now left | split; assumption].
    + apply String.eqb_neq in E. rewrite get_set_other in H by exact E. now left.
  - right. exists r. split; [now right | exact Hrow].
Qed.

Section WithSearch.

Variable re_search_nocase : string -> result (string -> bool).

(** When the client filter selects rows of the master dataframe, the
    mapping is built from these rows alone and the last row of an
    original name wins: an original name maps to the canonical name of
    the last selected row that gives it one; rows with a missing original
    or canonical name add nothing; the manual fixes are written last. *)
Theorem client_rows_last_wins (master_df : list MasterRow)
  (client_name token : string) (rest : list string) (search : string -> bool)
  (Hsplit : split client_name = token :: rest)
  (Hre : re_search_nocase token = Ok search)
  (Hsome : filter (fun row => match Client_Name row with
                              | Some c => search c
                              | None => false
                              end) master_df <> []) :
  let selected := filter (fun row => match Client_Name row with
                                     | Some c => search c
                                     | None => false
                                     end) master_df in
  create_client_specific_mapping re_search_nocase (Some master_df) client_name
  = Ok (apply_client_fixes client_name (client_specific selected)) /\
  (forall pre row post o n,
      selected = pre ++ row :: post ->
      Original_Column_Names row = Some o ->
      Normalized_Column_Name row = Some n ->
      (forall r, In r post -> Original_Column_Names r = Some o ->
                 Normalized_Column_Name r = None) ->
      Dict.get (client_specific selected) o = Some n) /\
  (forall o n,
      Dict.get (client_specific selected) o = Some n ->
      exists row, In row selected /\ Original_Column_Names row = Some o /\
                  Normalized_Column_Name row = Some n).
Proof.
  cbv zeta. split; [|split].
  - unfold create_client_specific_mapping. rewrite Hsplit. cbn [bind].
    rewrite Hre. cbn [bind]. unfold reference_mapping.
    destruct (filter _ master_df) as [|r rs]; [congruence|]. reflexivity.
  - intros pre row post o n -> Ho Hn Hpost. unfold client_specific.
    rewrite fold_left_app. cbn [fold_left]. rewrite Ho, Hn.
    rewrite client_specific_fold_get by exact Hpost. apply get_set_same.
  - intros o n H. unfold client_specific in H.
    apply client_specific_fold_source in H.
    destruct H as [H|H]; [discriminate H | exact H].
Qed.

End WithSearch.

Lemma client_rows_last_wins_witness :
  create_client_specific_mapping literal_search_nocase (Some sample_master)
    "Great White Car Wash"
  = Ok [("Sales", "Total Revenue"); ("Total - Revenue", "Total Revenue")].
Proof.
  destruct (client_rows_last_wins literal_search_nocase sample_master
              "Great White Car Wash" "Great" ["White"; "Car"; "Wash"]
              (fun text => contains "great" (lower text))) as [H _].
  - reflexivity.
  - reflexivity.
  - intros H. vm_compute in H. discriminate H.
  - rewrite H. vm_compute. reflexivity.
Defined.

End ClientMappingSpec.

(* ================================================================== *)
(** * Rows and cells written by the normaliser *)
(* ================================================================== *)

Module NormalizerRowsSpec.

Import Processor Fixtures PyFacts DictFacts.

Lemma update_length i v series : List.length (update i v series) = List.length series.
Proof.
  revert i. induction series as [|x r IH]; intros [|i]; cbn [update List.length];
    try reflexivity.
  now rewrite IH.
Qed.

Lemma update_nth_other i j v series d :
  i <> j -> nth j (update i v series) d = nth j series d.
Proof.
  revert i j. induction series as [|x r IH]; intros [|i] [|j] Hne; cbn [update nth];
    try reflexivity; try congruence.
  apply IH. congruence.
Qed.

Lemma update_nth_same i v series d :
  (i < List.length series)%nat -> nth i (update i v series) d = v.
Proof.
  revert i. induction series as [|x r IH]; intros [|i] Hlt; cbn [update nth List.length] in *;
    try lia; try reflexivity.
  apply IH. lia.
Qed.

Lemma assign_length series indices vals :
  List.length (assign series indices vals) = List.length series.
Proof.
  revert series vals. induction indices as [|i idx IH]; intros series [|v vals];
    cbn [assign]; try reflexivity.
  rewrite IH. apply update_length.
Qed.

Lemma assign_nth_other series indices vals j d :
  ~ In j indices -> nth j (assign series indices vals) d = nth j series d.
Proof.
  revert series vals. induction indices as [|i idx IH]; intros series [|v vals] Hj;
    cbn [assign]; try reflexivity.
  rewrite IH by (intros H; apply Hj; now right).
  apply update_nth_other. intros ->. apply Hj. now left.
Qed.

Lemma assign_nth_written series indices (g : nat -> cell) j d :
  NoDup indices ->
  (forall i, In i indices -> (i < List.length series)%nat) ->
  In j indices ->
  nth j (assign series indices (map g indices)) d = g j.
Proof.
  revert series. induction indices as [|i idx IH]; intros series Hnd Hlt Hj;
    [destruct Hj|].
  cbn [map assign]. inversion Hnd as [|? ? Hnotin Hnd']; subst.
  destruct Hj as [->|Hj].
  - rewrite assign_nth_other by exact Hnotin.
    apply update_nth_same. apply Hlt. now left.
  - apply IH; [exact Hnd' | | exact Hj].
    intros k Hk. rewrite update_length. apply Hlt. now right.
Qed.

Lemma assign_nth_pos series indices vals k i d :
  NoDup indices ->
  (forall j, In j indices -> (j < List.length series)%nat) ->
  nth_error indices k = Some i ->
  (k < List.length vals)%nat ->
  nth i (assign series indices vals) d = nth k vals d.
Proof.
  revert series vals k. induction indices as [|i0 idx IH];
    intros series vals k Hnd Hlt Hk Hkv.
  - destruct k; discriminate Hk.
  - destruct vals as [|v vals]; [cbn [List.length] in Hkv; lia|].
    cbn [assign]. inversion Hnd as [|? ? Hnotin Hnd']; subst.
    destruct k as [|k]; cbn [nth_error] in Hk.
    + injection Hk as ->. rewrite assign_nth_other by exact Hnotin.
      cbn [nth]. apply update_nth_same. apply Hlt. now left.
    + cbn [nth]. apply IH; [exact Hnd' | | exact Hk |].
      * intros j Hj. rewrite update_length. apply Hlt. now right.
      * cbn [List.length] in Hkv. lia.
Qed.

Lemma indices_where_from_In series client start i :
  In i (map fst (filter (fun p => cell_eqb (snd p) client)
                        (combine (seq start (List.length series)) series))) <->
  (start <= i < start + List.length series)%nat /\
  cell_eqb (nth (i - start) series CNaN) client = true.
Proof.
  revert start. induction series as [|x r IH]; intros start;
    cbn [List.length seq combine filter map].
  - split; [intros [] | lia].
  - cbn [snd]. destruct (cell_eqb x client) eqn:E; cbn [map fst In].
    + rewrite IH. split.
      * intros [<-|[Hr Hc]].
        -- rewrite Nat.sub_diag. cbn [nth]. split; [lia | exact E].
        -- split; [lia|].
           replace (i - start)%nat with (S (i - S start)) by lia. exact Hc.
      * intros [Hr Hc]. destruct (Nat.eq_dec start i) as [->|Hne]; [now left|].
        right. split; [lia|].
        replace (i - start)%nat with (S (i - S start)) in Hc by lia. exact Hc.
    + rewrite IH. split.
      * intros [Hr Hc]. split; [lia|].
        replace (i - start)%nat with (S (i - S start)) by lia. exact Hc.
      * intros [Hr Hc]. destruct (Nat.eq_dec start i) as [->|Hne].
        -- rewrite Nat.sub_diag in Hc. cbn [nth] in Hc. congruence.
        -- split; [lia|].
           replace (i - start)%nat with (S (i - S start)) in Hc by lia. exact Hc.
Qed.

(** The rows selected for a client are the rows that carry its name. *)
Lemma indices_where_In series client i :
  In i (indices_where series client) <->
  (i < List.length series)%nat /\ cell_eqb (nth i series CNaN) client = true.
Proof.
  unfold indices_where. rewrite indices_where_from_In.
  rewrite Nat.sub_0_r. split; intros [H1 H2]; (split; [lia | exact H2]).
Qed.

Lemma indices_where_from_NoDup series client start :
  NoDup (map fst (filter (fun p => cell_eqb (snd p) client)
                         (combine (seq start (List.length series)) series))).
Proof.
  revert start. induction series as [|x r IH]; intros start;
    cbn [List.length seq combine filter map]; [constructor|].
  cbn [snd]. destruct (cell_eqb x client); [|apply IH].
  cbn [map fst]. constructor; [|apply IH].
  intros H. apply indices_where_from_In in H. lia.
Qed.

Lemma indices_where_NoDup series client : NoDup (indices_where series client).
Proof. apply indices_where_from_NoDup. Qed.

Section WithPrimitives.

Variable re_search_nocase : string -> result (string -> bool).
Variable pd_to_numeric : list cell -> result (list cell).

Lemma loc_assign_frame (df : Frame) idx col (vals : list cell) col0 c :
  Dict.get df col0 = Some c ->
  exists c',
    Dict.get (loc_assign df idx col vals) col0 = Some c' /\
    List.length c' = List.length c /\
    forall i, ~ In i idx -> nth i c' CNaN = nth i c CNaN.
Proof.
  intros Hget. unfold loc_assign.
  destruct (Dict.get df col) as [s|] eqn:G; [|exists c; auto].
  destruct (String.eqb col0 col) eqn:E.
  - apply String.eqb_eq in E. subst col0.
    assert (s = c) as -> by congruence.
    exists (assign c idx vals). rewrite get_set_same.
    split; [reflexivity|]. split; [apply assign_length|].
    intros i Hi. now apply assign_nth_other.
  - apply String.eqb_neq in E. exists c.
    rewrite get_set_other by exact E. auto.
Qed.

(** One mapping step keeps every column of the output, with its length,
    and changes cells of the client's rows only. *)
Lemma apply_mapping_frame combined_df idx sn (df : Frame) item col0 c :
  Dict.get df col0 = Some c ->
  exists c',
    Dict.get (apply_mapping pd_to_numeric combined_df idx sn df item) col0 = Some c' /\
    List.length c' = List.length c /\
    forall i, ~ In i idx -> nth i c' CNaN = nth i c CNaN.
Proof.
  intros Hget. destruct item as [orig norm]. unfold apply_mapping.
  destruct (Dict.has combined_df orig && mem norm sn); [|exists c; auto].
  match goal with |- context [if ?b then df else _] => destruct b end;
    [exists c; auto|].
  assert (Hinit : Dict.get
            (if negb (Dict.has df norm)
             then Dict.set df norm (repeat CNaN (len df)) else df) col0 = Some c).
  { destruct (Dict.has df norm) eqn:Hh; cbn [negb]; [exact Hget|].
    rewrite get_set_other; [exact Hget|].
    intros ->. apply has_false_get in Hh. congruence. }
  repeat match goal with
         | |- context [if ?b then loc_assign _ _ _ _ else _] => destruct b
         | |- context [if ?b then assign_numeric _ _ _ _ _ else _] => destruct b
         end;
    unfold assign_numeric;
    try match goal with |- context [pd_to_numeric ?s] => destruct (pd_to_numeric s) end;
    apply loc_assign_frame; exact Hinit.
Qed.

Lemma mapping_loop_frame combined_df idx sn (mapping : Dict.t string) (df : Frame)
  col0 c :
  Dict.get df col0 = Some c ->
  exists c',
    Dict.get (fold_left (apply_mapping pd_to_numeric combined_df idx sn) mapping df)
             col0 = Some c' /\
    List.length c' = List.length c /\
    forall i, ~ In i idx -> nth i c' CNaN = nth i c CNaN.
Proof.
  revert df c. induction mapping as [|item mapping IH]; intros df c Hget;
    cbn [fold_left]; [exists c; auto|].
  destruct (apply_mapping_frame combined_df idx sn df item col0 c Hget)
    as [c1 [H1 [L1 N1]]].
  destruct (IH _ c1 H1) as [c2 [H2 [L2 N2]]].
  exists c2. split; [exact H2|]. split; [congruence|].
  intros i Hi. rewrite N2 by exact Hi. now apply N1.
Qed.

(** Processing one client keeps every column of the output table and its
    number of rows, and leaves untouched every row that does not carry
    the client's name. *)
Theorem process_client_other_rows (master_df : option (list MasterRow))
  (combined_df : Frame) (names : list cell) (sorted_normalized : list string)
  (result_df out : Frame) (client : cell)
  (Hrun : process_client re_search_nocase pd_to_numeric master_df combined_df
            names sorted_normalized result_df client = Ok out) :
  forall col c,
    Dict.get result_df col = Some c ->
    exists c',
      Dict.get out col = Some c' /\
      List.length c' = List.length c /\
      forall i, cell_eqb (nth i names CNaN) client = false ->
                nth i c' CNaN = nth i c CNaN.
Proof.
  intros col c Hget. unfold process_client in Hrun.
  destruct (mapping_of_client re_search_nocase master_df client) as [mapping|e];
    cbn [bind] in Hrun; [|discriminate Hrun].
  injection Hrun as <-.
  destruct (mapping_loop_frame combined_df (indices_where names client)
              sorted_normalized mapping result_df col c Hget) as [c' [H1 [L1 N1]]].
  exists c'. split; [exact H1|]. split; [exact L1|].
  intros i Hi. apply N1. intros Hin. apply indices_where_In in Hin.
  destruct Hin as [_ Hin]. congruence.
Qed.

Lemma take_as_map series indices :
  take series indices = map (fun i => nth i series CNaN) indices.
Proof. reflexivity. Qed.

(** A mapping that is applied writes the client's rows of the target
    column and no other row. When the target is a financial column, its
    name holds "Revenue" or "Expense", or the source column is not
    numeric, the conversion is attempted: the k-th row of the client
    receives the k-th value of the conversion of the client's source
    cells when the conversion returns, and its own source cell, text
    included, when the conversion raises. A numeric source column mapped
    to any other target is copied as it is. *)
Theorem apply_mapping_writes_numeric (combined_df : Frame) (names : list cell)
  (client : cell) (sorted_normalized : list string) (result_df : Frame)
  (original_col normalized_col : string) (source target : list cell)
  (Hsrc : Dict.get combined_df original_col = Some source)
  (Hcanon : In normalized_col sorted_normalized)
  (Htgt : Dict.get result_df normalized_col = Some target)
  (Hrows : (List.length names <= List.length target)%nat)
  (Hfree : In normalized_col standard_columns ->
           existsb notna (take target (indices_where names client)) = false) :
  let client_indices := indices_where names client in
  let source_data := take source client_indices in
  let converts :=
    mem normalized_col financial_columns || contains "Revenue" normalized_col
    || contains "Expense" normalized_col || negb (is_numeric_dtype source) in
  exists written,
    Dict.get (apply_mapping pd_to_numeric combined_df client_indices
                sorted_normalized result_df (original_col, normalized_col))
             normalized_col = Some written /\
    List.length written = List.length target /\
    (forall i, ~ In i client_indices -> nth i written CNaN = nth i target CNaN) /\
    (forall numeric_data k i,
        converts = true ->
        pd_to_numeric source_data = Ok numeric_data ->
        nth_error client_indices k = Some i ->
        (k < List.length numeric_data)%nat ->
        nth i written CNaN = nth k numeric_data CNaN) /\
    (forall i,
        In i client_indices ->
        converts = false \/ (exists e, pd_to_numeric source_data = Raise e) ->
        nth i written CNaN = nth i source CNaN).
Proof.
  cbv zeta. unfold apply_mapping.
  assert (Dict.has combined_df original_col = true) as ->
      by (apply has_get; eauto).
  apply mem_In in Hcanon. rewrite Hcanon. cbn [andb].
  assert (Hhas : Dict.has result_df normalized_col = true) by (apply has_get; eauto).
  rewrite Hhas, Htgt. cbn [negb andb].
  assert (Hskip : (if mem normalized_col standard_columns
                   then existsb notna (take target (indices_where names client))
                   else false) = false).
  { destruct (mem normalized_col standard_columns) eqn:E; [|reflexivity].
    apply Hfree. apply mem_In. exact E. }
  rewrite Hskip. rewrite Hsrc.
  remember (indices_where names client) as idx eqn:Hidx.
  assert (Hnd : NoDup idx) by (subst idx; apply indices_where_NoDup).
  assert (Hlt : forall j, In j idx -> (j < List.length target)%nat).
  { intros j Hj. subst idx. apply indices_where_In in Hj. lia. }
  assert (Hloc : forall vals,
             Dict.get (loc_assign result_df idx normalized_col vals) normalized_col
             = Some (assign target idx vals)).
  { intros vals. unfold loc_assign. rewrite Htgt. apply get_set_same. }
  assert (Hraw : forall i, In i idx ->
             nth i (assign target idx (take source idx)) CNaN = nth i source CNaN).
  { intros i Hi. rewrite take_as_map.
    apply (assign_nth_written target idx (fun i => nth i source CNaN));
      assumption. }
  remember (mem normalized_col financial_columns || contains "Revenue" normalized_col
            || contains "Expense" normalized_col) as fin eqn:Hfin.
  assert (Hconv : forall converts,
             converts = true ->
             exists written,
               Dict.get (assign_numeric pd_to_numeric result_df idx normalized_col
                           (take source idx)) normalized_col = Some written /\
               List.length written = List.length target /\
               (forall i, ~ In i idx -> nth i written CNaN = nth i target CNaN) /\
               (forall numeric_data k i,
                   converts = true ->
                   pd_to_numeric (take source idx) = Ok numeric_data ->
                   nth_error idx k = Some i ->
                   (k < List.length numeric_data)%nat ->
                   nth i written CNaN = nth k numeric_data CNaN) /\
               (forall i,
                   In i idx ->
                   converts = false \/
                   (exists e, pd_to_numeric (take source idx) = Raise e) ->
                   nth i written CNaN = nth i source CNaN)).
  { intros converts Hc. unfold assign_numeric.
    destruct (pd_to_numeric (take source idx)) as [numeric|e] eqn:Hp.
    - exists (assign target idx numeric). split; [apply Hloc|].
      split; [apply assign_length|].
      split; [intros i Hi; now apply assign_nth_other|].
      split.
      + intros numeric_data k i _ Heq Hk Hkl. injection Heq as <-.
        now apply assign_nth_pos.
      + intros i _ [Hf|[e He]]; [congruence | discriminate He].
    - exists (assign target idx (take source idx)). split; [apply Hloc|].
      split; [apply assign_length|].
      split; [intros i Hi; now apply assign_nth_other|].
      split.
      + intros numeric_data k i _ Heq. discriminate Heq.
      + intros i Hi _. now apply Hraw. }
  destruct fin; cbn [orb].
  - apply Hconv. reflexivity.
  - destruct (is_numeric_dtype source); cbn [negb].
    + exists (assign target idx (take source idx)). split; [apply Hloc|].
      split; [apply assign_length|].
      split; [intros i Hi; now apply assign_nth_other|].
      split.
      * intros numeric_data k i Hc. discriminate Hc.
      * intros i Hi _. now apply Hraw.
    + apply Hconv. reflexivity.
Qed.

End WithPrimitives.

Lemma process_client_other_rows_witness :
  exists out c',
    process_client literal_search_nocase coerce_to_numeric (Some sample_rules)
      sample_combined [CStr "Splash"; CStr "Splash"; CStr "Bubbles"]
      (sorted normalized_columns)
      [("Location", [CStr "Main St"; CNaN; CNaN])] (CStr "Bubbles") = Ok out /\
    Dict.get out "Location" = Some c' /\
    nth 0 c' CNaN = CStr "Main St".
Proof.
  destruct (process_client literal_search_nocase coerce_to_numeric (Some sample_rules)
              sample_combined [CStr "Splash"; CStr "Splash"; CStr "Bubbles"]
              (sorted normalized_columns)
              [("Location", [CStr "Main St"; CNaN; CNaN])] (CStr "Bubbles"))
    as [out|e] eqn:E; [|vm_compute in E; discriminate E].
  destruct (process_client_other_rows _ _ _ _ _ _ _ _ _ E "Location"
              [CStr "Main St"; CNaN; CNaN]) as [c' [H1 [_ H2]]].
  - reflexivity.
  - exists out, c'. split; [reflexivity|]. split; [exact H1|].
    apply (H2 0%nat). reflexivity.
Defined.

Lemma apply_mapping_writes_numeric_witness :
  exists written,
    Dict.get (apply_mapping coerce_to_numeric sample_combined
                (indices_where [CStr "Splash"; CStr "Splash"; CStr "Bubbles"]
                               (CStr "Bubbles"))
                (sorted normalized_columns)
                [("Location", [CStr "Main St"; CNaN; CNaN])]
                ("Site", "Location")) "Location" = Some written /\
    nth 0 written CNaN = CStr "Main St" /\
    nth 2 written CNaN = CNaN.
Proof.
  destruct (apply_mapping_writes_numeric coerce_to_numeric sample_combined
              [CStr "Splash"; CStr "Splash"; CStr "Bubbles"] (CStr "Bubbles")
              (sorted normalized_columns)
              [("Location", [CStr "Main St"; CNaN; CNaN])]
              "Site" "Location" [CNaN; CNaN; CStr "North"]
              [CStr "Main St"; CNaN; CNaN]) as [written [H1 [_ [H2 [H3 _]]]]].
  - reflexivity.
  - apply sorted_In. apply mem_In. vm_compute. reflexivity.
  - reflexivity.
  - cbn [List.length]. lia.
  - intros _. reflexivity.
  - exists written. split; [exact H1|]. split.
    + rewrite (H2 0%nat); [reflexivity|].
      intros [H|[]]. discriminate H.
    + rewrite (H3 [CNaN] 0%nat 2%nat); [reflexivity | reflexivity | reflexivity
                                        | reflexivity | cbn [List.length]; lia].
Defined.

End NormalizerRowsSpec.

(* ================================================================== *)
(** * Metadata columns from the files to the output *)
(* ================================================================== *)

Module MetadataSpec.

Import Processor Fixtures PyFacts DictFacts.

Lemma numeric_columns_canonical c : In c numeric_columns -> In c normalized_columns.
Proof.
  assert (H : forallb (fun c => mem c normalized_columns) numeric_columns = true)
    by (vm_compute; reflexivity).
  rewrite forallb_forall in H. intros Hc. apply mem_In. exact (H c Hc).
Qed.

Lemma seed_get (combined_df : Frame) cols (r0 : Frame) col :
  Dict.get
    (fold_left
       (fun result_df c =>
          match Dict.get combined_df c with
          | Some s => Dict.set result_df c s
          | None => result_df
          end) cols r0) col =
  if mem col cols
  then match Dict.get combined_df col with
       | Some s => Some s
       | None => Dict.get r0 col
       end
  else Dict.get r0 col.
Proof.
  revert r0. induction cols as [|k cols IH]; intros r0; [reflexivity|].
  cbn [fold_left]. rewrite IH. unfold mem at 2. cbn [existsb]. fold (mem col cols).
  destruct (String.eqb col k) eqn:E.
  - apply String.eqb_eq in E. subst k. cbn [orb].
    destruct (Dict.get combined_df col) as [s|] eqn:G.
    + rewrite get_set_same. now destruct (mem col cols).
    + now destruct (mem col cols).
  - apply String.eqb_neq in E. cbn [orb].
    destruct (Dict.get combined_df k) as [s|]; [|reflexivity].
    rewrite get_set_other by exact E. reflexivity.
Qed.

Lemma init_get cols (r0 : Frame) col :
  ~ In col cols ->
  Dict.get
    (fold_left
       (fun result_df norm_col =>
          if negb (Dict.has result_df norm_col)
          then Dict.set result_df norm_col (repeat CNaN (len result_df))
          else result_df) cols r0) col
  = Dict.get r0 col.
Proof.
  revert r0. induction cols as [|k cols IH]; intros r0 Hnot; [reflexivity|].
  cbn [fold_left]. rewrite IH by (intros H; apply Hnot; now right).
  destruct (negb (Dict.has r0 k)); [|reflexivity].
  apply get_set_other. intros ->. apply Hnot. now left.
Qed.

Section WithPrimitives.

Variable re_search_nocase : string -> result (string -> bool).
Variable pd_to_numeric : list cell -> result (list cell).

Lemma apply_mapping_noncanonical combined_df idx sn (df : Frame) item col :
  ~ In col sn ->
  Dict.get (apply_mapping pd_to_numeric combined_df idx sn df item) col
  = Dict.get df col.
Proof.
  intros Hnot. destruct item as [orig norm].
  destruct (String.eqb col norm) eqn:E.
  - apply String.eqb_eq in E. subst norm. unfold apply_mapping.
    apply mem_false_iff in Hnot. rewrite Hnot.
    now rewrite andb_false_r.
  - apply String.eqb_neq in E.
    apply NormalizerSpec.apply_mapping_get_other. exact E.
Qed.

Lemma clients_loop_noncanonical master_df combined_df names sn clients
  (df out : Frame) col :
  ~ In col sn ->
  for_each (process_client re_search_nocase pd_to_numeric master_df combined_df
              names sn) clients df = Ok out ->
  Dict.get out col = Dict.get df col.
Proof.
  intros Hnot. revert df. induction clients as [|client clients IH]; intros df H;
    cbn [for_each] in H.
  - injection H as <-. reflexivity.
  - unfold process_client at 1 in H.
    destruct (mapping_of_client re_search_nocase master_df client) as [mapping|e];
      cbn [bind] in H; [|discriminate H].
    apply IH in H. rewrite H. clear H IH.
    revert df. induction mapping as [|item mapping IHm]; intros df;
      cbn [fold_left]; [reflexivity|].
    rewrite IHm. apply apply_mapping_noncanonical. exact Hnot.
Qed.

Lemma create_normalized_noncanonical master_df (combined_df out : Frame) col :
  ~ In col normalized_columns ->
  create_normalized_output_with_verification re_search_nocase pd_to_numeric
    master_df combined_df = Ok out ->
  Dict.get out col =
  if mem col standard_columns then Dict.get combined_df col else None.
Proof.
  intros Hnot H. unfold create_normalized_output_with_verification in H.
  destruct (column combined_df "Client Name") as [names|e]; cbn [bind] in H;
    [|discriminate H].
  assert (Hsn : ~ In col (sorted normalized_columns)).
  { intros Hin. apply Hnot. apply (proj1 (sorted_In _ _)). exact Hin. }
  apply (clients_loop_noncanonical _ _ _ _ _ _ _ col Hsn) in H.
  rewrite H, (init_get _ _ col Hsn), seed_get.
  destruct (mem col standard_columns); [|reflexivity].
  now destruct (Dict.get combined_df col).
Qed.

Lemma run_processing_noncanonical (master_df : option (list MasterRow))
  (combined_df out : Frame) col :
  run_processing re_search_nocase pd_to_numeric master_df combined_df = Ok out ->
  ~ In col normalized_columns ->
  Dict.get out col =
  if mem col standard_columns
  then Dict.get (Dict.set combined_df "Record ID"
                   (map (fun i => CInt (Z.of_nat i)) (seq 1 (len combined_df)))) col
  else None.
Proof.
  intros Hrun Hnot. unfold run_processing in Hrun.
  match type of Hrun with
  | bind (create_normalized_output_with_verification _ _ _ ?cdf) _ = _ =>
      destruct (create_normalized_output_with_verification
                  re_search_nocase pd_to_numeric master_df cdf) as [r|e] eqn:Hc;
      cbn [bind] in Hrun; [|discriminate Hrun]
  end.
  injection Hrun as <-.
  rewrite NormalizerSpec.force_numeric_get.
  assert (mem col numeric_columns = false) as ->.
  { apply mem_false_iff. intros Hin. apply Hnot.
    apply numeric_columns_canonical. exact Hin. }
  apply (create_normalized_noncanonical _ _ _ col Hnot Hc).
Qed.

Lemma metadata_not_canonical :
  ~ In "Record ID" normalized_columns /\ ~ In "Client Name" normalized_columns /\
  ~ In "File Name" normalized_columns.
Proof. repeat split; apply mem_false_iff; vm_compute; reflexivity. Qed.

(** The columns that are not canonical names go through the normaliser
    as follows: "Record ID" numbers the rows of the combined table from 1
    in their order, "Client Name" and "File Name" reach the output as the
    combined table has them, and no other column of the input that is not
    a canonical name appears in the output. *)
Theorem metadata_columns_preserved (master_df : option (list MasterRow))
  (combined_df out : Frame)
  (Hrun : run_processing re_search_nocase pd_to_numeric master_df combined_df
          = Ok out) :
  Dict.get out "Record ID"
    = Some (map (fun i => CInt (Z.of_nat i)) (seq 1 (len combined_df))) /\
  Dict.get out "Client Name" = Dict.get combined_df "Client Name" /\
  Dict.get out "File Name" = Dict.get combined_df "File Name" /\
  (forall col, ~ In col normalized_columns -> ~ In col standard_columns ->
               Dict.get out col = None).
Proof.
  destruct metadata_not_canonical as [Hid [Hcn Hfn]].
  split; [|split; [|split]].
  - rewrite (run_processing_noncanonical _ _ _ _ Hrun Hid).
    change (mem "Record ID" standard_columns) with true. cbv iota.
    apply get_set_same.
  - rewrite (run_processing_noncanonical _ _ _ _ Hrun Hcn).
    change (mem "Client Name" standard_columns) with true. cbv iota.
    apply get_set_other. intros H. discriminate H.
  - rewrite (run_processing_noncanonical _ _ _ _ Hrun Hfn).
    change (mem "File Name" standard_columns) with true. cbv iota.
    apply get_set_other. intros H. discriminate H.
  - intros col Hnot Hstd.
    rewrite (run_processing_noncanonical _ _ _ _ Hrun Hnot).
    apply mem_false_iff in Hstd. now rewrite Hstd.
Qed.

End WithPrimitives.

Lemma metadata_columns_preserved_witness :
  exists out,
    run_processing literal_search_nocase coerce_to_numeric (Some sample_rules)
      sample_combined = Ok out /\
    Dict.get out "Record ID" = Some [CInt 1; CInt 2; CInt 3] /\
    Dict.get out "Power" = None.
Proof.
  destruct (run_processing literal_search_nocase coerce_to_numeric (Some sample_rules)
              sample_combined) as [out|e] eqn:E; [|vm_compute in E; discriminate E].
  destruct (metadata_columns_preserved _ _ _ _ _ E) as [H1 [_ [_ H4]]].
  exists out. split; [reflexivity|]. split; [exact H1|].
  apply H4; apply mem_false_iff; vm_compute; reflexivity.
Defined.

(** ** Loading and combining files *)

Lemma len_set (df : Frame) k v :
  List.length v = len df -> len (Dict.set df k v) = len df.
Proof.
  destruct df as [|[k0 v0] r]; cbn [Dict.set len]; [intros H; exact H|].
  destruct (String.eqb k k0); cbn [len]; [intros H; exact H | reflexivity].
Qed.

Lemma get_of_columns (f : string -> list cell) cols k :
  Dict.get (map (fun col => (col, f col)) cols) k =
  if mem k cols then Some (f k) else None.
Proof.
  induction cols as [|c cols IH]; [reflexivity|].
  cbn [map Dict.get]. unfold mem. cbn [existsb]. fold (mem k cols).
  destruct (String.eqb k c) eqn:E; cbn [orb].
  - apply String.eqb_eq in E. now subst c.
  - exact IH.
Qed.

Lemma concat_columns_from_In (frames : list Frame) cols c :
  In c (fold_left (fun cols df => Etl.add_new cols (Dict.keys df)) frames cols) <->
  In c cols \/ exists df, In df frames /\ In c (Dict.keys df).
Proof.
  revert cols. induction frames as [|df frames IH]; intros cols; cbn [fold_left].
  - split; [tauto | intros [H|[df [[] _]]]; exact H].
  - rewrite IH, EmissionSpec.add_new_In. split.
    + intros [[H|H]|[df' [H1 H2]]]; [tauto | right; exists df; simpl; tauto |
                                      right; exists df'; simpl; tauto].
    + intros [H|[df' [[<-|H1] H2]]]; [tauto | tauto | right; eauto].
Qed.

Lemma add_metadata_columns (df : Frame) file_name :
  len (add_metadata df file_name) = len df /\
  Dict.get (add_metadata df file_name) "Client Name"
    = Some (repeat (CStr (extract_client_name file_name)) (len df)) /\
  Dict.get (add_metadata df file_name) "File Name"
    = Some (repeat (CStr file_name) (len df)).
Proof.
  unfold add_metadata. cbv zeta.
  assert (Hl : len (Dict.set df "Client Name"
                      (repeat (CStr (extract_client_name file_name)) (len df)))
               = len df).
  { apply len_set. apply repeat_length. }
  rewrite Hl. split; [|split].
  - rewrite len_set; [exact Hl|]. rewrite repeat_length. symmetry. exact Hl.
  - rewrite get_set_other by (intros H; discriminate H). apply get_set_same.
  - apply get_set_same.
Qed.

Lemma concat_tagged (inputs : list (Frame * string)) :
  inputs <> [] ->
  let frames := map (fun input => add_metadata (fst input) (snd input)) inputs in
  Dict.get (concat frames) "Client Name"
    = Some (flat_map (fun input =>
                        repeat (CStr (extract_client_name (snd input)))
                               (len (fst input))) inputs) /\
  Dict.get (concat frames) "File Name"
    = Some (flat_map (fun input => repeat (CStr (snd input)) (len (fst input)))
                     inputs).
Proof.
  intros Hfiles. cbv zeta.
  assert (Hcol : forall col,
             (col = "Client Name" \/ col = "File Name") ->
             mem col (concat_columns
                        (map (fun input => add_metadata (fst input) (snd input))
                             inputs)) = true).
  { intros col Hc. apply mem_In. unfold concat_columns.
    apply concat_columns_from_In. right.
    destruct inputs as [|[df fname] inputs]; [congruence|].
    exists (add_metadata df fname). split; [now left|].
    destruct (add_metadata_columns df fname) as [_ [Hcn Hfn]].
    assert (Hh : Dict.has (add_metadata df fname) col = true).
    { apply has_get. destruct Hc as [-> | ->]; eauto. }
    apply mem_In. exact Hh. }
  unfold concat. rewrite !get_of_columns.
  rewrite (Hcol "Client Name") by now left.
  rewrite (Hcol "File Name") by now right.
  clear Hcol Hfiles.
  induction inputs as [|[df fname] inputs [IH1 IH2]].
  - split; reflexivity.
  - destruct (add_metadata_columns df fname) as [_ [Hcn Hfn]].
    cbn [map flat_map fst snd]. rewrite Hcn, Hfn.
    injection IH1 as ->. injection IH2 as ->. split; reflexivity.
Qed.

Lemma rectangular_get (df : Frame) col c :
  rectangular df = true -> Dict.get df col = Some c -> List.length c = len df.
Proof.
  unfold rectangular. generalize (len df) as n. intros n.
  induction df as [|[k v] r IH]; cbn [forallb Dict.get snd]; intros H G;
    [discriminate G|].
  apply andb_prop in H. destruct H as [Hv Hr].
  destruct (String.eqb col k).
  - injection G as <-. apply Nat.eqb_eq. exact Hv.
  - now apply IH.
Qed.

Lemma add_metadata_rectangular (df : Frame) file_name col c :
  rectangular df = true ->
  Dict.get (add_metadata df file_name) col = Some c ->
  List.length c = len df.
Proof.
  intros Hrect. unfold add_metadata. cbv zeta.
  assert (Hl : len (Dict.set df "Client Name"
                      (repeat (CStr (extract_client_name file_name)) (len df)))
               = len df).
  { apply len_set. apply repeat_length. }
  rewrite Hl.
  destruct (String.eqb col "File Name") eqn:E1.
  - apply String.eqb_eq in E1. subst col. rewrite get_set_same.
    intros H. injection H as <-. apply repeat_length.
  - apply String.eqb_neq in E1. rewrite get_set_other by exact E1.
    destruct (String.eqb col "Client Name") eqn:E2.
    + apply String.eqb_eq in E2. subst col. rewrite get_set_same.
      intros H. injection H as <-. apply repeat_length.
    + apply String.eqb_neq in E2. rewrite get_set_other by exact E2.
      now apply rectangular_get.
Qed.

Lemma concat_column_length (frames : list Frame) col :
  (forall df c, In df frames -> Dict.get df col = Some c ->
                List.length c = len df) ->
  List.length (flat_map (fun df => match Dict.get df col with
                                   | Some c => c
                                   | None => repeat CNaN (len df)
                                   end) frames)
  = list_sum (map len frames).
Proof.
  induction frames as [|df frames IH]; intros H; [reflexivity|].
  cbn [flat_map map]. change (list_sum (len df :: map len frames))
    with (len df + list_sum (map len frames))%nat.
  rewrite length_app, IH.
  - f_equal. destruct (Dict.get df col) as [c|] eqn:G.
    + apply (H df c); [now left | exact G].
    + apply repeat_length.
  - intros df' c Hin. apply H. now right.
Qed.

(** The combined table has as many rows as its frames together. *)
Lemma len_concat (frames : list Frame) k v :
  Dict.get (concat frames) k = Some v ->
  (forall df col c, In df frames -> Dict.get df col = Some c ->
                    List.length c = len df) ->
  len (concat frames) = list_sum (map len frames).
Proof.
  unfold concat. destruct (concat_columns frames) as [|c0 cols];
    [intros H; discriminate H|].
  intros _ H. cbn [map len]. apply concat_column_length.
  intros df c Hin. now apply H.
Qed.

Section WithPrimitives2.

Variable re_search_nocase : string -> result (string -> bool).
Variable pd_to_numeric : list cell -> result (list cell).
Variable format_total : list cell -> result unit.

(** The sheets that were loaded, with their file names. *)
Lemma loaded_frames (files : list (result Frame * string)) :
  flat_map (fun df => match df with Some d => [d] | None => [] end)
           (map (fun file => load_excel_file format_total (fst file) (snd file))
                files)
  = map (fun input => add_metadata (fst input) (snd input))
        (flat_map (fun file =>
                     match fst file with
                     | Ok df =>
                         match verify_key_totals format_total df
                                 (extract_client_name (snd file)) with
                         | Ok _ => [(df, snd file)]
                         | Raise _ => []
                         end
                     | Raise _ => []
                     end) files).
Proof.
  induction files as [|[[df|e] fname] files IH]; cbn [map flat_map fst snd app];
    [reflexivity | | exact IH].
  unfold load_excel_file at 1. cbn [bind].
  destruct (verify_key_totals format_total df (extract_client_name fname));
    cbn [bind app map fst snd]; [now rewrite IH | exact IH].
Qed.

(** From the files to the output table. A file is skipped when reading
    it fails and, for a "Mint Med Hat Car Wash" file with a
    "Total - Revenue" column, when the total of that column cannot be
    computed and formatted; when no file is left nothing is written.
    Otherwise every row of the output carries the client name extracted
    from the name of its own file and that file name (for each loaded
    file, in order, as many rows as the file has), and "Record ID"
    numbers all these rows from 1. *)
Theorem files_rows_tagged (master_df : option (list MasterRow))
  (files : list (result Frame * string))
  (Hrect : forall file df, In file files -> fst file = Ok df ->
                           rectangular df = true) :
  let read := flat_map (fun file =>
                          match fst file with
                          | Ok df =>
                              match verify_key_totals format_total df
                                      (extract_client_name (snd file)) with
                              | Ok _ => [(df, snd file)]
                              | Raise _ => []
                              end
                          | Raise _ => []
                          end) files in
  let loaded := map (fun file => load_excel_file format_total (fst file) (snd file))
                    files in
  (read = [] ->
   run_processing_files re_search_nocase pd_to_numeric master_df loaded = Ok None) /\
  (forall out,
      run_processing_files re_search_nocase pd_to_numeric master_df loaded
      = Ok (Some out) ->
      Dict.get out "Client Name"
        = Some (flat_map (fun input =>
                            repeat (CStr (extract_client_name (snd input)))
                                   (len (fst input))) read) /\
      Dict.get out "File Name"
        = Some (flat_map (fun input => repeat (CStr (snd input)) (len (fst input)))
                         read) /\
      Dict.get out "Record ID"
        = Some (map (fun i => CInt (Z.of_nat i))
                    (seq 1 (list_sum (map (fun input => len (fst input)) read))))).
Proof.
  cbv zeta. unfold run_processing_files. rewrite loaded_frames.
  set (read := flat_map (fun file =>
                           match fst file with
                           | Ok df =>
                               match verify_key_totals format_total df
                                       (extract_client_name (snd file)) with
                               | Ok _ => [(df, snd file)]
                               | Raise _ => []
                               end
                           | Raise _ => []
                           end) files).
  assert (Hread : forall input, In input read -> rectangular (fst input) = true).
  { intros input Hin. unfold read in Hin. apply in_flat_map in Hin.
    destruct Hin as [file [Hfile Hin]].
    destruct (fst file) as [df|e] eqn:Hdf; [|destruct Hin].
    destruct (verify_key_totals format_total df (extract_client_name (snd file)));
      [|destruct Hin].
    destruct Hin as [<-|[]]. cbn [fst]. now apply (Hrect file). }
  split.
  - intros ->. reflexivity.
  - intros out Hrun.
    destruct read as [|input read'] eqn:Er; [discriminate Hrun|].
    rewrite <- Er in *.
    assert (Hne : read <> []) by (rewrite Er; discriminate).
    destruct (map (fun input => add_metadata (fst input) (snd input)) read)
      as [|f fs] eqn:Ef; [rewrite Er in Ef; discriminate Ef|].
    rewrite <- Ef in Hrun.
    destruct (run_processing re_search_nocase pd_to_numeric master_df
                (concat (map (fun input => add_metadata (fst input) (snd input))
                             read))) as [r|e] eqn:Hr;
      cbn [bind] in Hrun; [|discriminate Hrun].
    injection Hrun as <-.
    destruct metadata_not_canonical as [Hid [Hcn Hfn]].
    destruct (concat_tagged read Hne) as [Hc Hf]. cbv zeta in Hc, Hf.
    rewrite (run_processing_noncanonical _ _ _ _ _ _ Hr Hid).
    rewrite (run_processing_noncanonical _ _ _ _ _ _ Hr Hcn).
    rewrite (run_processing_noncanonical _ _ _ _ _ _ Hr Hfn).
    change (mem "Record ID" standard_columns) with true.
    change (mem "Client Name" standard_columns) with true.
    change (mem "File Name" standard_columns) with true. cbv iota.
    rewrite get_set_same.
    rewrite !get_set_other by (intros H; discriminate H).
    rewrite Hc, Hf. split; [reflexivity|]. split; [reflexivity|].
    rewrite (len_concat _ _ _ Hc).
    + rewrite map_map. do 3 f_equal. apply (f_equal list_sum). apply map_ext_in.
      intros x Hin. apply add_metadata_columns.
    + intros df col c Hin Hget. apply in_map_iff in Hin.
      destruct Hin as [x [<- Hin]].
      rewrite (add_metadata_rectangular _ _ _ _ (Hread x Hin) Hget).
      symmetry. apply add_metadata_columns.
Qed.

End WithPrimitives2.

Lemma files_rows_tagged_witness :
  exists out,
    run_processing_files literal_search_nocase coerce_to_numeric None
      (map (fun file => load_excel_file numeric_total_only (fst file) (snd file))
           sample_files)
    = Ok (Some out) /\
    Dict.get out "Client Name"
      = Some [CStr "Splash"; CStr "Splash"; CStr "Bubbles"] /\
    Dict.get out "Record ID" = Some [CInt 1; CInt 2; CInt 3].
Proof.
  assert (Hrect : forall file df, In file sample_files -> fst file = Ok df ->
                                  rectangular df = true).
  { intros file df Hin Hdf. unfold sample_files in Hin. cbn [In] in Hin.
    destruct Hin as [<-|[<-|[<-|[<-|[]]]]]; cbn [fst] in Hdf;
      try discriminate Hdf; injection Hdf as <-; reflexivity. }
  destruct (files_rows_tagged literal_search_nocase coerce_to_numeric
              numeric_total_only None sample_files Hrect) as [_ H].
  cbv zeta in H.
  destruct (run_processing_files literal_search_nocase coerce_to_numeric None
              (map (fun file => load_excel_file numeric_total_only (fst file)
                                  (snd file)) sample_files))
    as [[out|]|e] eqn:E;
    [|vm_compute in E; discriminate E|vm_compute in E; discriminate E].
  exists out. split; [reflexivity|].
  destruct (H out eq_refl) as [Hc [_ Hid]]. split; [exact Hc | exact Hid].
Defined.

End MetadataSpec.

(* ================================================================== *)
(** * Discovery of categories and date headers *)
(* ================================================================== *)

Module DiscoverySpec.

Import Coercion Etl Fixtures PyFacts DictFacts.

Lemma seq_StronglySorted start n : StronglySorted lt (seq start n).
Proof.
  revert start. induction n as [|n IH]; intros start; cbn [seq]; constructor.
  - apply IH.
  - apply Forall_forall. intros x Hx. apply in_seq in Hx. lia.
Qed.

Lemma nth_map_seq {A} (f : nat -> A) start n i d :
  (i < n)%nat -> nth i (map f (seq start n)) d = f (start + i)%nat.
Proof.
  intros Hi. rewrite (nth_indep _ d (f 0%nat)) by (rewrite length_map, length_seq; exact Hi).
  rewrite (map_nth f (seq start n) 0%nat i). now rewrite seq_nth.
Qed.

Section WithReader.

Variable pd_to_datetime : cell -> result (option Timestamp).
Variable repr_other : cell -> string.

Lemma extract_loop_closed df rows acc :
  (0 < shape1 df)%nat ->
  Forall (fun r => (r < shape0 df)%nat) rows ->
  for_each
    (fun categories_with_rows row_idx =>
       cell_value <- iloc df row_idx 0 ;;
       if notna cell_value then
         let category := strip (str_of_cell repr_other cell_value) in
         if negb (is_empty category)
         then Ok (categories_with_rows ++ [mkCategoryInfo category row_idx])
         else Ok categories_with_rows
       else Ok categories_with_rows)
    rows acc
  = Ok (acc ++ map (fun r => mkCategoryInfo
                               (strip (str_of_cell repr_other (values df r 0))) r)
                   (filter (labelled repr_other df) rows)).
Proof.
  intros Hcols. revert acc. induction rows as [|r rows IH]; intros acc Hrows.
  - cbn [for_each filter map]. now rewrite app_nil_r.
  - inversion Hrows as [|? ? Hr Hrest]; subst.
    cbn [for_each filter]. unfold iloc at 1.
    apply Nat.ltb_lt in Hr. apply Nat.ltb_lt in Hcols.
    rewrite Hr, Hcols. cbn [andb bind]. unfold labelled at 1.
    destruct (notna (values df r 0)); cbn [andb]; [|apply IH; exact Hrest].
    destruct (is_empty (strip (str_of_cell repr_other (values df r 0))));
      cbn [negb]; [apply IH; exact Hrest|].
    etransitivity; [apply IH; exact Hrest|].
    cbn [map]. now rewrite <- app_assoc.
Qed.

(** Category discovery keeps every label with the index of its own row:
    on a sheet with at least one column it returns, in row order and
    without renumbering, one category for each row whose cell in column A
    is present and not blank, labelled with the stripped text of that
    cell; a sheet with rows and no column makes it raise. *)
Theorem extract_categories_rows (df : Sheet) :
  ((0 < shape1 df)%nat ->
   exists cats,
     extract_categories_from_column_a repr_other df = Ok cats /\
     map actual_row cats = filter (labelled repr_other df) (seq 0 (shape0 df)) /\
     Forall (fun c => category c
                      = strip (str_of_cell repr_other (values df (actual_row c) 0)))
            cats /\
     StronglySorted lt (map actual_row cats)) /\
  (shape1 df = 0%nat -> (0 < shape0 df)%nat ->
   extract_categories_from_column_a repr_other df = Raise IndexError).
Proof.
  split.
  - intros Hcols.
    exists (map (fun r => mkCategoryInfo
                            (strip (str_of_cell repr_other (values df r 0))) r)
                (filter (labelled repr_other df) (seq 0 (shape0 df)))).
    split.
    { unfold extract_categories_from_column_a.
      apply (extract_loop_closed df (seq 0 (shape0 df)) [] Hcols).
      apply Forall_forall. intros r Hr. apply in_seq in Hr. lia. }
    assert (Hrows : map actual_row
                      (map (fun r => mkCategoryInfo
                                       (strip (str_of_cell repr_other (values df r 0))) r)
                           (filter (labelled repr_other df) (seq 0 (shape0 df))))
                    = filter (labelled repr_other df) (seq 0 (shape0 df))).
    { rewrite map_map. cbn [actual_row]. apply map_id. }
    split; [exact Hrows|]. split.
    + apply Forall_forall. intros c Hc. apply in_map_iff in Hc.
      destruct Hc as [r [<- _]]. reflexivity.
    + rewrite Hrows. apply StronglySorted_filter. apply seq_StronglySorted.
  - intros Hcols Hrows. unfold extract_categories_from_column_a.
    destruct (shape0 df) as [|n] eqn:E; [lia|].
    cbn [seq for_each]. unfold iloc. rewrite Hcols.
    rewrite andb_false_r. reflexivity.
Qed.

(** What the scan of the header row returns. *)
Lemma scan_closed start row_data :
  let dates := scan_headers pd_to_datetime repr_other start row_data in
  StronglySorted lt (map col_idx dates) /\
  Forall (fun d =>
            (start <= col_idx d < start + List.length row_data)%nat /\
            let c := nth (col_idx d - start) row_data CNaN in
            notna c = true /\
            parse_header_cell pd_to_datetime c = Some (parsed_date d) /\
            d = make_date_info repr_other (col_idx d) c (parsed_date d))
         dates /\
  (forall i t,
      (i < List.length row_data)%nat ->
      notna (nth i row_data CNaN) = true ->
      parse_header_cell pd_to_datetime (nth i row_data CNaN) = Some t ->
      exists d, In d dates /\ col_idx d = (start + i)%nat /\ parsed_date d = t).
Proof.
  cbv zeta. revert start. induction row_data as [|c r IH]; intros start.
  - cbn [scan_headers map]. split; [constructor|]. split; [constructor|].
    intros i t Hi. cbn [List.length] in Hi. lia.
  - destruct (IH (S start)) as [Hs [Hall Hcomp]].
    assert (Hall' :
              Forall (fun d =>
                        (start <= col_idx d < start + List.length (c :: r))%nat /\
                        notna (nth (col_idx d - start) (c :: r) CNaN) = true /\
                        parse_header_cell pd_to_datetime
                          (nth (col_idx d - start) (c :: r) CNaN)
                        = Some (parsed_date d) /\
                        d = make_date_info repr_other (col_idx d)
                              (nth (col_idx d - start) (c :: r) CNaN) (parsed_date d))
                     (scan_headers pd_to_datetime repr_other (S start) r)).
    { rewrite Forall_forall in *. intros d Hd.
      destruct (Hall d Hd) as [Hr H]. cbn [List.length]. split; [lia|].
      replace (col_idx d - start)%nat with (S (col_idx d - S start)) by lia.
      exact H. }
    assert (Hrest : forall i t,
               (i < List.length (c :: r))%nat -> i <> 0%nat ->
               notna (nth i (c :: r) CNaN) = true ->
               parse_header_cell pd_to_datetime (nth i (c :: r) CNaN) = Some t ->
               exists d, In d (scan_headers pd_to_datetime repr_other (S start) r) /\
                         col_idx d = (start + i)%nat /\ parsed_date d = t).
    { intros [|i] t Hi Hne Hn Hp; [congruence|]. cbn [List.length nth] in *.
      destruct (Hcomp i t) as [d [Hd [Hc Ht]]]; [lia | exact Hn | exact Hp |].
      exists d. split; [exact Hd|]. split; [lia | exact Ht]. }
    cbn [scan_headers].
    destruct (notna c) eqn:En.
    + destruct (parse_header_cell pd_to_datetime c) as [t0|] eqn:Ep.
      * split; [|split].
        -- cbn [map]. constructor; [exact Hs|].
           apply Forall_forall. intros x Hx. apply in_map_iff in Hx.
           destruct Hx as [d [<- Hd]]. rewrite Forall_forall in Hall.
           destruct (Hall d Hd) as [Hr _]. cbn [col_idx make_date_info]. lia.
        -- constructor; [|exact Hall'].
           cbn [col_idx make_date_info parsed_date List.length].
           rewrite Nat.sub_diag. cbn [nth].
           split; [lia|]. split; [exact En|]. split; [exact Ep | reflexivity].
        -- intros i t Hi Hn Hp. destruct (Nat.eq_dec i 0) as [->|Hne].
           ++ cbn [nth] in Hn, Hp. exists (make_date_info repr_other start c t0).
              split; [now left|]. cbn [col_idx make_date_info parsed_date].
              split; [lia | congruence].
           ++ destruct (Hrest i t Hi Hne Hn Hp) as [d [Hd Hc]].
              exists d. split; [now right | exact Hc].
      * split; [exact Hs|]. split; [exact Hall'|].
        intros i t Hi Hn Hp. destruct (Nat.eq_dec i 0) as [->|Hne].
        -- cbn [nth] in Hp. congruence.
        -- exact (Hrest i t Hi Hne Hn Hp).
    + split; [exact Hs|]. split; [exact Hall'|].
      intros i t Hi Hn Hp. destruct (Nat.eq_dec i 0) as [->|Hne].
      * cbn [nth] in Hn. congruence.
      * exact (Hrest i t Hi Hne Hn Hp).
Qed.

(** Header discovery answers all or nothing. Either it fails, with no
    row, no date and no sheet, or it returns row 0, the sheet it read and
    at least three dates; the dates then stand at increasing columns from
    column 1 on, each at the column of a header cell that is present and
    parses to the date, with the fields derived from it; and every header
    cell from column 1 on that is present and parses has its date. *)
Theorem find_date_headers_all_or_nothing (file : option Sheet) :
  find_date_headers pd_to_datetime repr_other file = (None, [], None) \/
  exists df dates,
    file = Some df /\
    find_date_headers pd_to_datetime repr_other file = (Some 0%nat, dates, Some df) /\
    (3 <= List.length dates)%nat /\
    StronglySorted lt (map col_idx dates) /\
    Forall (fun d =>
              (1 <= col_idx d < shape1 df)%nat /\
              notna (values df 0 (col_idx d)) = true /\
              parse_header_cell pd_to_datetime (values df 0 (col_idx d))
              = Some (parsed_date d) /\
              d = make_date_info repr_other (col_idx d)
                    (values df 0 (col_idx d)) (parsed_date d))
           dates /\
    (forall col t,
        (1 <= col < shape1 df)%nat ->
        notna (values df 0 col) = true ->
        parse_header_cell pd_to_datetime (values df 0 col) = Some t ->
        exists d, In d dates /\ col_idx d = col /\ parsed_date d = t).
Proof.
  destruct file as [df|]; [|left; reflexivity].
  destruct (EmissionSpec.find_date_headers_inv pd_to_datetime repr_other df)
    as [Hf | [Hrows [Hlen Hf]]]; cbv zeta in *; [left; exact Hf|].
  right. exists df. eexists. split; [reflexivity|]. split; [exact Hf|].
  split; [exact Hlen|].
  destruct (scan_closed 1 (map (values df 0) (seq 1 (shape1 df - 1))))
    as [Hs [Hall Hcomp]]. cbv zeta in Hall.
  rewrite length_map, length_seq in Hall, Hcomp.
  split; [exact Hs|]. split.
  - rewrite Forall_forall in *. intros d Hd.
    destruct (Hall d Hd) as [Hr H].
    rewrite nth_map_seq in H by lia.
    replace (1 + (col_idx d - 1))%nat with (col_idx d) in H by lia.
    split; [lia | exact H].
  - intros col t Hcol Hn Hp.
    destruct (Hcomp (col - 1)%nat t) as [d [Hd [Hc Ht]]].
    + lia.
    + rewrite nth_map_seq by lia.
      replace (1 + (col - 1))%nat with col by lia. exact Hn.
    + rewrite nth_map_seq by lia.
      replace (1 + (col - 1))%nat with col by lia. exact Hp.
    + exists d. split; [exact Hd|]. split; [lia | exact Ht].
Qed.

End WithReader.

Lemma extract_categories_rows_witness :
  exists cats,
    extract_categories_from_column_a repr_placeholder ledger_sheet = Ok cats /\
    map actual_row cats = [1; 2; 3]%nat.
Proof.
  destruct (extract_categories_rows repr_placeholder ledger_sheet) as [H _].
  destruct H as [cats [H1 [H2 _]]].
  - vm_compute. lia.
  - exists cats. split; [exact H1|]. rewrite H2. vm_compute. reflexivity.
Defined.

End DiscoverySpec.

(* ================================================================== *)
(** * Shape of the emitted records *)
(* ================================================================== *)

Module RecordShapeSpec.

Import Coercion Etl Fixtures PyFacts DictFacts EmissionSpec.

(** Every field belongs to exactly one of the five entities: it is
    included for one location key of [dreams_locations] and for no
    other. *)
Theorem field_included_for_one_entity (field_name : string) :
  exists key name,
    In (key, name) dreams_locations /\
    key = entity_of_label (strip field_name) /\
    forall k, should_include_field_for_location field_name k = true <-> k = key.
Proof.
  assert (Hin : exists name,
             In (entity_of_label (strip field_name), name) dreams_locations).
  { unfold entity_of_label, dreams_locations.
    destruct (String.eqb (strip field_name) "Okotoks Revenue");
      [exists "Okotoks"; simpl; tauto|].
    destruct (String.eqb (strip field_name) "Barlow NE Revenue");
      [exists "Barlow NE"; simpl; tauto|].
    destruct (String.eqb (strip field_name) "Eastpoint SE Revenue");
      [exists "Eastpoint SE"; simpl; tauto|].
    destruct (String.eqb (strip field_name) "Corp Revenue");
      [exists "Corporate"; simpl; tauto|].
    exists "General". simpl. tauto. }
  destruct Hin as [name Hin].
  exists (entity_of_label (strip field_name)), name.
  split; [exact Hin|]. split; [reflexivity|].
  intros k. rewrite should_include_entity. apply String.eqb_eq.
Qed.

Lemma keys_set_add_new {V} (d : Dict.t V) k v :
  Dict.keys (Dict.set d k v) = add_new (Dict.keys d) [k].
Proof. rewrite keys_set. reflexivity. Qed.

Lemma add_new_app cols a b : add_new cols (a ++ b) = add_new (add_new cols a) b.
Proof.
  revert cols. induction a as [|k a IH]; intros cols; cbn [app add_new];
    [reflexivity | apply IH].
Qed.

Lemma add_new_absorb cols ks :
  (forall k, In k ks -> In k cols) -> add_new cols ks = cols.
Proof.
  induction ks as [|k ks IH]; intros H; cbn [add_new]; [reflexivity|].
  assert (mem k cols = true) as -> by (apply mem_In; apply H; now left).
  apply IH. intros k' Hk'. apply H. now right.
Qed.

Lemma add_new_fresh cols ks :
  NoDup ks -> (forall k, In k ks -> ~ In k cols) -> add_new cols ks = cols ++ ks.
Proof.
  intros Hnd. revert cols. induction Hnd as [|k ks Hnotin Hnd IH]; intros cols H;
    cbn [add_new]; [now rewrite app_nil_r|].
  assert (mem k cols = false) as -> by (apply mem_false_iff; apply H; now left).
  rewrite IH.
  - now rewrite <- app_assoc.
  - intros k' Hk' Hin. apply in_app_or in Hin. destruct Hin as [Hin|[->|[]]].
    + apply (H k'); [now right | exact Hin].
    + contradiction.
Qed.

(** The step of a category writes its label, if it writes at all. *)
Lemma add_category_keys_closed df col key (rec rec' : record) c :
  add_category df col key rec c = Ok rec' ->
  Dict.keys rec' = add_new (Dict.keys rec) (written_labels [c]).
Proof.
  unfold add_category, written_labels. cbn [filter].
  destruct (negb (is_empty (category c)) && negb (String.eqb (category c) "nan"));
    cbn [map]; intros H.
  - destruct (if (col <? shape1 df)%nat then iloc df (actual_row c) col else Ok (CInt 0))
      as [v|e]; cbn [bind] in H; [|discriminate H].
    destruct (clean_value v) as [v'|e]; cbn [bind] in H; [|discriminate H].
    destruct (should_include_field_for_location (category c) key);
      injection H as <-; apply keys_set_add_new.
  - injection H as <-. reflexivity.
Qed.

Lemma written_labels_cons c cats :
  written_labels (c :: cats) = written_labels [c] ++ written_labels cats.
Proof.
  unfold written_labels. cbn [filter].
  destruct (negb (is_empty (category c)) && negb (String.eqb (category c) "nan"));
    reflexivity.
Qed.

Lemma add_categories_keys_closed df col key cats (rec rec' : record) :
  for_each (add_category df col key) cats rec = Ok rec' ->
  Dict.keys rec' = add_new (Dict.keys rec) (written_labels cats).
Proof.
  revert rec. induction cats as [|c cats IH]; intros rec H; cbn [for_each] in H.
  - injection H as <-. reflexivity.
  - destruct (add_category df col key rec c) as [rec1|e] eqn:E; [|discriminate H].
    rewrite written_labels_cons, add_new_app.
    rewrite <- (add_category_keys_closed _ _ _ _ _ _ E). exact (IH _ H).
Qed.

Lemma make_record_keys_closed df cats d loc rec :
  make_record df cats d loc = Ok rec ->
  Dict.keys rec = add_new standard_cols (written_labels cats).
Proof.
  destruct loc as [key name]. unfold make_record. intros H.
  apply add_categories_keys_closed in H. exact H.
Qed.

(** A field that no category writes keeps the value the record started
    with. *)
Lemma add_categories_unwritten df col key cats (rec rec' : record) field :
  for_each (add_category df col key) cats rec = Ok rec' ->
  ~ In field (written_labels cats) ->
  Dict.get rec' field = Dict.get rec field.
Proof.
  revert rec. induction cats as [|c cats IH]; intros rec H Hnot;
    cbn [for_each] in H.
  - injection H as <-. reflexivity.
  - destruct (add_category df col key rec c) as [rec1|e] eqn:E; [|discriminate H].
    rewrite written_labels_cons in Hnot.
    rewrite (IH rec1 H) by (intros Hin; apply Hnot; apply in_or_app; now right).
    clear H IH. unfold add_category in E.
    assert (Hc : negb (is_empty (category c)) && negb (String.eqb (category c) "nan")
                 = true -> category c <> field).
    { intros Hg Heq. apply Hnot. apply in_or_app. left.
      unfold written_labels. cbn [filter]. rewrite Hg. cbn [map]. now left. }
    destruct (negb (is_empty (category c)) && negb (String.eqb (category c) "nan")).
    + specialize (Hc eq_refl).
      destruct (if (col <? shape1 df)%nat then iloc df (actual_row c) col else Ok (CInt 0))
        as [v|e]; cbn [bind] in E; [|discriminate E].
      destruct (clean_value v) as [v'|e]; cbn [bind] in E; [|discriminate E].
      destruct (should_include_field_for_location (category c) key);
        injection E as <-; apply get_set_other; congruence.
    + injection E as <-. reflexivity.
Qed.

Lemma Forall2_In_r {A B} (R : A -> B -> Prop) xs ys y :
  Forall2 R xs ys -> In y ys -> exists x, In x xs /\ R x y.
Proof.
  induction 1 as [|a b xs ys Hab HF IH]; intros Hin; [destruct Hin|].
  destruct Hin as [->|Hin].
  - exists a. split; [now left | exact Hab].
  - destruct (IH Hin) as [x [Hx Hr]]. exists x. split; [now right | exact Hr].
Qed.

Section WithReader.

Variable pd_to_datetime : cell -> result (option Timestamp).
Variable repr_other : cell -> string.

(** The rows of the saved table, by date and entity. *)
Lemma pipeline_rows df out :
  create_dreams_raw_data pd_to_datetime repr_other (Some df) = Ok (Some out) ->
  exists date_info cats,
    find_date_headers pd_to_datetime repr_other (Some df)
      = (Some 0, date_info, Some df) /\
    extract_categories_from_column_a repr_other df = Ok cats /\
    save_raw_data (rows out) = Ok (Some out) /\
    rows out <> [] /\
    (forall i d j loc,
        nth_error date_info i = Some d ->
        nth_error dreams_locations j = Some loc ->
        exists rec,
          nth_error (rows out) (5 * i + j) = Some rec /\
          make_record df cats d loc = Ok rec) /\
    (forall rec, In rec (rows out) ->
                 exists d loc, In d date_info /\ In loc dreams_locations /\
                               make_record df cats d loc = Ok rec).
Proof.
  intros Hrun.
  destruct (pipeline_inv pd_to_datetime repr_other df out Hrun)
    as [date_info [cats [recs [Hf [Hdates [Hcols [Hc [Hdisc [Hr Hs]]]]]]]]].
  exists date_info, cats. split; [exact Hf|]. split; [exact Hc|].
  pose proof (save_raw_data_inv _ _ Hs) as Hout.
  assert (Hrows : rows out = recs) by (rewrite Hout; reflexivity).
  rewrite Hrows. split; [exact Hs|].
  split.
  { intros ->. cbn [save_raw_data] in Hs. discriminate Hs. }
  unfold create_raw_data_records in Hr. apply records_collect in Hr.
  destruct Hr as [yss [Hgrid ->]]. cbn [app].
  destruct (records_shape _ _ _ _ Hgrid) as [Hfive Hlen].
  split.
  - intros i d j loc Hd Hloc.
    destruct (Forall2_nth_error_l _ _ _ _ _ Hgrid Hd) as [ys [Hys Hrow]].
    destruct (Forall2_nth_error_l _ _ _ _ _ Hrow Hloc) as [rec [Hrec Hmake]].
    exists rec. split; [|exact Hmake].
    rewrite (nth_error_concat_fixed yss 5 i j ys Hfive Hys); [exact Hrec|].
    apply nth_error_Some_lt in Hloc. exact Hloc.
  - intros rec Hin. apply in_concat in Hin. destruct Hin as [ys [Hys Hin]].
    destruct (Forall2_In_r _ _ _ _ Hgrid Hys) as [d [Hd Hrow]].
    destruct (Forall2_In_r _ _ _ _ Hrow Hin) as [loc [Hl Hm]].
    exists d, loc. split; [exact Hd|]. split; [exact Hl | exact Hm].
Qed.

(** Every row of the saved table has the same columns, in the same
    order: the six standard fields, then the labels that are written
    (every discovered label but "nan"), a repeated label once. Hence the
    table has no hole, and its columns are the standard fields followed
    by the sorted written labels that are not standard field names. *)
Theorem saved_rows_share_columns (df : Sheet) (out : RawData)
  (Hrun : create_dreams_raw_data pd_to_datetime repr_other (Some df)
          = Ok (Some out)) :
  exists cats,
    extract_categories_from_column_a repr_other df = Ok cats /\
    Forall (fun rec => Dict.keys rec = add_new standard_cols (written_labels cats))
           (rows out) /\
    column_order out
      = standard_cols ++
        sorted (filter (fun col => negb (mem col standard_cols))
                       (add_new standard_cols (written_labels cats))) /\
    (forall col, In col (column_order out) <->
                 In col standard_cols \/ In col (written_labels cats)) /\
    forall rec col, In rec (rows out) -> In col (column_order out) ->
                    exists v, Dict.get rec col = Some v.
Proof.
  destruct (pipeline_rows df out Hrun)
    as [date_info [cats [_ [Hc [Hs [Hne [_ Hall]]]]]]].
  exists cats. split; [exact Hc|].
  assert (Hkeys : Forall (fun rec => Dict.keys rec
                                     = add_new standard_cols (written_labels cats))
                         (rows out)).
  { apply Forall_forall. intros rec Hin.
    destruct (Hall rec Hin) as [d [loc [_ [_ Hm]]]].
    exact (make_record_keys_closed _ _ _ _ _ Hm). }
  assert (Hframe : frame_columns (rows out)
                   = add_new standard_cols (written_labels cats)).
  { unfold frame_columns.
    destruct (rows out) as [|r rs]; [congruence|].
    inversion Hkeys as [|? ? Hr Hrs]; subst. cbn [fold_left].
    rewrite Hr.
    rewrite (add_new_fresh [] (add_new standard_cols (written_labels cats)))
      by (try (apply add_new_NoDup, ColumnOrderSpec.standard_cols_NoDup);
          intros k _ []).
    cbn [app]. clear Hr Hkeys Hs Hne Hall.
    induction Hrs as [|r' rs' Hr' Hrs' IH]; [reflexivity|].
    cbn [fold_left]. rewrite Hr'.
    rewrite add_new_absorb by (intros k Hk; exact Hk). exact IH. }
  pose proof (save_raw_data_inv _ _ Hs) as Hout.
  assert (Hcols : column_order out
                  = standard_cols ++
                    sorted (filter (fun col => negb (mem col standard_cols))
                                   (add_new standard_cols (written_labels cats)))).
  { rewrite Hout. cbn [column_order]. now rewrite Hframe. }
  assert (Hin : forall col, In col (column_order out) <->
                            In col standard_cols \/ In col (written_labels cats)).
  { intros col. rewrite Hcols, in_app_iff, sorted_In, filter_In, add_new_In.
    rewrite negb_true_iff, mem_false_iff.
    destruct (in_dec string_dec col standard_cols) as [Hi|Hn]; tauto. }
  split; [exact Hkeys|]. split; [exact Hcols|]. split; [exact Hin|].
  intros rec col Hrec Hcol. apply has_get. apply mem_In.
  rewrite Forall_forall in Hkeys. rewrite (Hkeys rec Hrec).
  apply add_new_In. apply Hin. exact Hcol.
Qed.

(** Row [5*i + j] of the saved table is the row of the i-th date and the
    j-th entity: each of its six standard fields that no category label
    overwrites holds the entity's location name and the date's month,
    year, quarter, date string and forecast type. *)
Theorem saved_row_standard_fields (df : Sheet) (out : RawData)
  (Hrun : create_dreams_raw_data pd_to_datetime repr_other (Some df)
          = Ok (Some out)) :
  exists date_info cats,
    find_date_headers pd_to_datetime repr_other (Some df)
      = (Some 0, date_info, Some df) /\
    extract_categories_from_column_a repr_other df = Ok cats /\
    forall i d j key name,
      nth_error date_info i = Some d ->
      nth_error dreams_locations j = Some (key, name) ->
      exists rec,
        nth_error (rows out) (5 * i + j) = Some rec /\
        (~ In "Location" (written_labels cats) ->
         Dict.get rec "Location" = Some (PyStr name)) /\
        (~ In "Month" (written_labels cats) ->
         Dict.get rec "Month" = Some (PyStr (month d))) /\
        (~ In "Year" (written_labels cats) ->
         Dict.get rec "Year" = Some (PyInt (year d))) /\
        (~ In "Quarter" (written_labels cats) ->
         Dict.get rec "Quarter" = Some (PyStr (quarter d))) /\
        (~ In "Date" (written_labels cats) ->
         Dict.get rec "Date" = Some (PyStr (date d))) /\
        (~ In "Forecast Type" (written_labels cats) ->
         Dict.get rec "Forecast Type" = Some (PyStr (forecast_type d))).
Proof.
  destruct (pipeline_rows df out Hrun)
    as [date_info [cats [Hf [Hc [_ [_ [Hrow _]]]]]]].
  exists date_info, cats. split; [exact Hf|]. split; [exact Hc|].
  intros i d j key name Hd Hloc.
  destruct (Hrow i d j (key, name) Hd Hloc) as [rec [Hnth Hmake]].
  exists rec. split; [exact Hnth|].
  unfold make_record in Hmake.
  repeat split; intros Hnot;
    rewrite (add_categories_unwritten _ _ _ _ _ _ _ Hmake Hnot); reflexivity.
Qed.

End WithReader.

Lemma field_included_for_one_entity_witness :
  should_include_field_for_location " Corp Revenue " "Corp" = true.
Proof.
  destruct (field_included_for_one_entity " Corp Revenue ") as [key [name [_ [Hk H]]]].
  apply H. rewrite Hk. reflexivity.
Defined.

Lemma saved_rows_share_columns_witness :
  exists out,
    create_dreams_raw_data datetime_cells_only repr_placeholder
      (Some duplicate_label_sheet) = Ok (Some out) /\
    column_order out = standard_cols ++ ["Rent"] /\
    Forall (fun rec => Dict.keys rec = standard_cols ++ ["Rent"]) (rows out).
Proof.
  destruct (create_dreams_raw_data datetime_cells_only repr_placeholder
              (Some duplicate_label_sheet)) as [[out|]|e] eqn:E;
    [|vm_compute in E; discriminate E|vm_compute in E; discriminate E].
  destruct (saved_rows_share_columns _ _ _ _ E) as [cats [Hc [Hk [Hcols _]]]].
  vm_compute in Hc. injection Hc as <-.
  exists out. split; [reflexivity|]. split.
  - rewrite Hcols. vm_compute. reflexivity.
  - exact Hk.
Defined.

Lemma saved_row_standard_fields_witness :
  exists out rec,
    create_dreams_raw_data datetime_cells_only repr_placeholder
      (Some ledger_sheet) = Ok (Some out) /\
    nth_error (rows out) 8 = Some rec /\
    Dict.get rec "Location" = Some (PyStr "Corporate") /\
    Dict.get rec "Month" = Some (PyStr "February").
Proof.
  destruct (create_dreams_raw_data datetime_cells_only repr_placeholder
              (Some ledger_sheet)) as [[out|]|e] eqn:E;
    [|vm_compute in E; discriminate E|vm_compute in E; discriminate E].
  destruct (saved_row_standard_fields _ _ _ _ E)
    as [date_info [cats [Hf [Hc Hrow]]]].
  vm_compute in Hf. injection Hf as <-.
  vm_compute in Hc. injection Hc as <-.
  edestruct Hrow with (i := 1%nat) (j := 3%nat) (key := "Corp") (name := "Corporate")
    as [rec [Hnth [Hl [Hm _]]]].
  - reflexivity.
  - reflexivity.
  - exists out, rec. split; [reflexivity|]. split; [exact Hnth|]. split.
    + apply Hl. intros H. apply mem_In in H. vm_compute in H. discriminate H.
    + rewrite Hm; [reflexivity|].
      intros H. apply mem_In in H. vm_compute in H. discriminate H.
Defined.

End RecordShapeSpec.

(* ================================================================== *)
(** * Text values and month headers *)
(* ================================================================== *)

Module TextSpec.

Import Coercion Etl Fixtures PyFacts.

Lemma strip_non_numeric_app a b :
  strip_non_numeric (a ++ b)
  = (strip_non_numeric a ++ strip_non_numeric b)%string.
Proof.
  induction a as [|c a IH]; cbn [append strip_non_numeric]; [reflexivity|].
  destruct (keep_char c); cbn [append]; now rewrite IH.
Qed.

(** The cleaning of a text value ignores every character that is not a
    digit, '.' or '-', wherever it stands: currency signs, thousands
    separators, blanks, parentheses and letters (the 'e' of an exponent
    included) can be inserted or removed without changing the result. *)
Theorem clean_value_ignores_other_characters (a b : string) (c : ascii)
  (Hc : keep_char c = false) :
  clean_value (CStr (a ++ String c b)) = clean_value (CStr (a ++ b)).
Proof.
  unfold clean_value. cbn beta iota zeta delta [isna].
  rewrite !strip_non_numeric_app. cbn [strip_non_numeric]. now rewrite Hc.
Qed.

Lemma clean_value_ignores_other_characters_witness :
  clean_value (CStr "1,234") = clean_value (CStr "1234").
Proof.
  apply (clean_value_ignores_other_characters "1" "234" ","). reflexivity.
Defined.

Example clean_value_exponent : clean_value (CStr "1e5") = Ok (PyFloat (15 # 1)).
Proof. reflexivity. Qed.

Lemma month_index_range names s i m :
  month_index names s i = Some m ->
  (i <= m < i + Z.of_nat (List.length names))%Z.
Proof.
  revert i. induction names as [|n names IH]; intros i; cbn [month_index];
    [discriminate|].
  destruct (String.eqb (lower n) (lower s)).
  - intros H. injection H as <-. cbn [List.length]. lia.
  - intros H. apply IH in H. cbn [List.length]. lia.
Qed.

Lemma parse_m_range s m : parse_m s = Some m -> (1 <= m <= 12)%Z.
Proof.
  unfold parse_m.
  destruct (all_digits s && (1 <=? String.length s)%nat && (String.length s <=? 2)%nat
            && (1 <=? digits_or_zero s)%Z && (digits_or_zero s <=? 12)%Z) eqn:E;
    [|discriminate].
  intros H. injection H as <-.
  apply andb_prop in E. destruct E as [E E12].
  apply andb_prop in E. destruct E as [_ E1].
  apply Z.leb_le in E1. apply Z.leb_le in E12. lia.
Qed.

Lemma make_date_first y m t :
  make_date y m 1 = Some t -> t = mkTimestamp y m 1 0.
Proof.
  unfold make_date.
  match goal with |- (if ?c then _ else _) = _ -> _ => destruct c end;
    [|discriminate].
  intros H. injection H as <-. reflexivity.
Qed.

(** The four month-level formats date a header the first of its month
    at midnight. *)
Lemma month_formats_first_day (fmt : date_format) (s : string) (t : Timestamp)
  (Hfmt : In fmt [Fmt_b_y; Fmt_B_Y; Fmt_m_Y; Fmt_Y_m])
  (Hparse : strptime fmt s = Some t) :
  Pandas.day t = 1%Z /\ Pandas.time_ns t = 0%Z /\
  (1 <= Pandas.month t <= 12)%Z /\
  (ts_ltb forecast_cutoff t = true <->
   (2025 < Pandas.year t \/ (Pandas.year t = 2025 /\ 6 < Pandas.month t))%Z).
Proof.
  assert (Hshape : exists y m, t = mkTimestamp y m 1 0 /\ (1 <= m <= 12)%Z).
  { destruct Hfmt as [<-|[<-|[<-|[<-|[]]]]]; cbn [strptime] in Hparse.
    - destruct (split_on "-" s) as [|b [|y [|? ?]]]; try discriminate Hparse.
      destruct (month_index month_abbrs b 1) as [m|] eqn:Em; [|discriminate Hparse].
      destruct (parse_y y) as [yy|]; [|discriminate Hparse].
      apply make_date_first in Hparse. apply month_index_range in Em.
      exists yy, m. split; [exact Hparse|]. cbn [List.length month_abbrs] in Em.
      unfold month_abbrs in Em. cbn [List.length] in Em. lia.
    - destruct (split_space_run s) as [[b y]|]; [|discriminate Hparse].
      destruct (month_index month_names b 1) as [m|] eqn:Em; [|discriminate Hparse].
      destruct (parse_Y y) as [yy|]; [|discriminate Hparse].
      apply make_date_first in Hparse. apply month_index_range in Em.
      exists yy, m. split; [exact Hparse|].
      unfold month_names in Em. cbn [List.length] in Em. lia.
    - destruct (split_on "/" s) as [|m [|y [|? ?]]]; try discriminate Hparse.
      destruct (parse_m m) as [mm|] eqn:Em; [|discriminate Hparse].
      destruct (parse_Y y) as [yy|]; [|discriminate Hparse].
      apply make_date_first in Hparse. apply parse_m_range in Em.
      exists yy, mm. split; assumption.
    - destruct (split_on "-" s) as [|y [|m [|? ?]]]; try discriminate Hparse.
      destruct (parse_Y y) as [yy|]; [|discriminate Hparse].
      destruct (parse_m m) as [mm|] eqn:Em; [|discriminate Hparse].
      apply make_date_first in Hparse. apply parse_m_range in Em.
      exists yy, mm. split; assumption. }
  destruct Hshape as [y [m [-> Hm]]].
  cbn [Pandas.day Pandas.time_ns Pandas.month Pandas.year].
  split; [reflexivity|]. split; [reflexivity|]. split; [exact Hm|].
  rewrite HeaderSpec.ts_ltb_cutoff. unfold after_cutoff.
  cbn [Pandas.day Pandas.time_ns Pandas.month Pandas.year]. lia.
Qed.

Lemma try_formats_month s t :
  try_formats common_formats s = Some t ->
  strptime Fmt_Y_m_d s = None ->
  exists fmt, In fmt [Fmt_b_y; Fmt_B_Y; Fmt_m_Y; Fmt_Y_m] /\ strptime fmt s = Some t.
Proof.
  unfold common_formats. cbn [try_formats]. intros H Hd.
  destruct (strptime Fmt_b_y s) eqn:E1;
    [exists Fmt_b_y; split; [cbn [In]; tauto | congruence]|].
  destruct (strptime Fmt_B_Y s) eqn:E2;
    [exists Fmt_B_Y; split; [cbn [In]; tauto | congruence]|].
  destruct (strptime Fmt_m_Y s) eqn:E3;
    [exists Fmt_m_Y; split; [cbn [In]; tauto | congruence]|].
  destruct (strptime Fmt_Y_m s) eqn:E4;
    [exists Fmt_Y_m; split; [cbn [In]; tauto | congruence]|].
  rewrite Hd in H. discriminate H.
Qed.

Section WithReader.

Variable pd_to_datetime : cell -> result (option Timestamp).
Variable repr_other : cell -> string.

(** A discovered date whose header is a text that the direct parser does
    not read and that is not a full "year-month-day" date comes from a
    month-level format: it is the first of its month at midnight, its
    date string ends in "-01", and, the cutoff being 2025-06-30, its
    forecast type is "FORECAST" exactly from July 2025 on and "ACTUAL"
    up to June 2025. *)
Theorem month_header_forecast (df : Sheet) (dates : list DateInfo) (d : DateInfo)
  (s : string)
  (Hfind : find_date_headers pd_to_datetime repr_other (Some df)
           = (Some 0%nat, dates, Some df))
  (Hin : In d dates)
  (Hcell : values df 0 (col_idx d) = CStr s)
  (Hdirect : pd_to_datetime (CStr s) = Ok None)
  (Hday : strptime Fmt_Y_m_d (strip s) = None) :
  Pandas.day (parsed_date d) = 1%Z /\
  Pandas.time_ns (parsed_date d) = 0%Z /\
  date d = (pad4 (year d) ++ "-" ++ pad2 (Pandas.month (parsed_date d)) ++ "-01")%string /\
  (forecast_type d = "FORECAST" <->
   (2025 < year d \/ (year d = 2025 /\ 6 < Pandas.month (parsed_date d)))%Z) /\
  (forecast_type d = "ACTUAL" <->
   (year d < 2025 \/ (year d = 2025 /\ Pandas.month (parsed_date d) <= 6))%Z).
Proof.
  destruct (EmissionSpec.find_date_headers_inv pd_to_datetime repr_other df)
    as [Hf | [_ [_ Hf]]]; cbv zeta in *;
    rewrite Hf in Hfind; [discriminate Hfind|].
  injection Hfind as Hdates.
  destruct (DiscoverySpec.scan_closed pd_to_datetime repr_other 1
              (map (values df 0) (seq 1 (shape1 df - 1)))) as [_ [Hall _]].
  cbv zeta in Hall. rewrite length_map, length_seq in Hall.
  rewrite Forall_forall in Hall. rewrite Hdates in Hall.
  destruct (Hall d Hin) as [Hr [_ [Hp Hd]]].
  rewrite DiscoverySpec.nth_map_seq in Hp, Hd by lia.
  replace (1 + (col_idx d - 1))%nat with (col_idx d) in Hp, Hd by lia.
  rewrite Hcell in Hp, Hd.
  unfold parse_header_cell in Hp. rewrite Hdirect in Hp.
  apply try_formats_month in Hp; [|exact Hday].
  destruct Hp as [fmt [Hfmt Hparse]].
  destruct (month_formats_first_day fmt (strip s) (parsed_date d) Hfmt Hparse)
    as [H1 [H2 [H3 H4]]].
  pose proof (f_equal date Hd) as Hdate.
  pose proof (f_equal year Hd) as Hyear.
  pose proof (f_equal forecast_type Hd) as Hft.
  unfold make_date_info in Hdate, Hyear, Hft.
  cbn [date year forecast_type] in Hdate, Hyear, Hft.
  split; [exact H1|]. split; [exact H2|]. split.
  - rewrite Hdate, Hyear, H1. reflexivity.
  - rewrite Hft, Hyear.
    destruct (ts_ltb forecast_cutoff (parsed_date d)) eqn:E.
    + pose proof (proj1 H4 eq_refl) as H5.
      split; split; try reflexivity; try (intros _; exact H5);
        try (intros H; discriminate H).
      intros H. exfalso. lia.
    + assert (H5 : ~ (2025 < Pandas.year (parsed_date d) \/
                      Pandas.year (parsed_date d) = 2025 /\
                      6 < Pandas.month (parsed_date d))%Z).
      { intros H. apply H4 in H. discriminate H. }
      split; split; try reflexivity; try (intros H; discriminate H).
      * intros H. exfalso. apply H5. exact H.
      * intros _. lia.
Qed.

End WithReader.

Lemma month_header_forecast_witness :
  find_date_headers datetime_cells_only repr_placeholder (Some cutoff_sheet)
  = (Some 0%nat, cutoff_dates, Some cutoff_sheet) /\
  map forecast_type cutoff_dates = ["ACTUAL"; "FORECAST"; "FORECAST"] /\
  map date cutoff_dates = ["2025-06-01"; "2025-07-01"; "2025-08-01"].
Proof.
  assert (E : find_date_headers datetime_cells_only repr_placeholder
                (Some cutoff_sheet)
              = (Some 0%nat, cutoff_dates, Some cutoff_sheet))
    by (vm_compute; reflexivity).
  split; [exact E|].
  pose (june := make_date_info repr_placeholder 1 (CStr "Jun-25")
                  (mkTimestamp 2025 6 1 0)).
  pose (july := make_date_info repr_placeholder 2 (CStr "Jul-25")
                  (mkTimestamp 2025 7 1 0)).
  pose (august := make_date_info repr_placeholder 3 (CStr "Aug-25")
                    (mkTimestamp 2025 8 1 0)).
  destruct (month_header_forecast datetime_cells_only repr_placeholder
              cutoff_sheet cutoff_dates june "Jun-25" E)
    as [_ [_ [D1 [_ F1]]]];
    [now left | reflexivity | reflexivity | reflexivity |].
  destruct (month_header_forecast datetime_cells_only repr_placeholder
              cutoff_sheet cutoff_dates july "Jul-25" E)
    as [_ [_ [D2 [F2 _]]]];
    [right; now left | reflexivity | reflexivity | reflexivity |].
  destruct (month_header_forecast datetime_cells_only repr_placeholder
              cutoff_sheet cutoff_dates august "Aug-25" E)
    as [_ [_ [D3 [F3 _]]]];
    [right; right; now left | reflexivity | reflexivity | reflexivity |].
  split.
  - unfold cutoff_dates. cbn [map]. fold june july august.
    rewrite (proj2 F1), (proj2 F2), (proj2 F3); [reflexivity | | |];
      cbn [year make_date_info parsed_date Pandas.year Pandas.month june july august];
      lia.
  - unfold cutoff_dates. cbn [map]. fold june july august.
    rewrite D1, D2, D3. reflexivity.
Defined.

End TextSpec.

(* ================================================================== *)
(** * When the normaliser returns *)
(* ================================================================== *)

Module RunSpec.

Import Processor Fixtures PyFacts DictFacts.

Lemma unique_from_In seen series c :
  In c (unique_from seen series) -> In c series.
Proof.
  revert seen. induction series as [|v r IH]; intros seen; cbn [unique_from];
    [tauto|].
  destruct (existsb (same_value v) seen).
  - intros H. right. exact (IH _ H).
  - intros [<-|H]; [now left | right; exact (IH _ H)].
Qed.

Section WithPrimitives.

Variable re_search_nocase : string -> result (string -> bool).
Variable pd_to_numeric : list cell -> result (list cell).

Lemma clients_loop_ok master_df combined_df names sn clients (df : Frame) :
  Forall (resolvable re_search_nocase) clients ->
  exists out,
    for_each (process_client re_search_nocase pd_to_numeric master_df combined_df
                names sn) clients df = Ok out.
Proof.
  intros Hall. revert df. induction Hall as [|client clients Hc Hall IH]; intros df.
  - eexists. reflexivity.
  - cbn [for_each]. unfold process_client at 1.
    destruct Hc as [client_name [token [rest [search [-> [Hsplit Hs]]]]]].
    cbn [mapping_of_client].
    destruct (ResolverSpec.resolve_returns_with_token re_search_nocase master_df
                client_name token rest search Hsplit Hs) as [mapping ->].
    cbn [bind]. apply IH.
Qed.

(** [run_processing] raises [KeyError] when the combined table has no
    "Client Name" column; it raises [IndexError] when a master dataframe
    is loaded and the client name of the first row is empty or blank; and
    it returns a table whenever the column exists and every client name
    in it is text whose first token compiles. *)
Theorem run_processing_returns (master_df : option (list MasterRow))
  (combined_df : Frame) :
  (Dict.get combined_df "Client Name" = None ->
   run_processing re_search_nocase pd_to_numeric master_df combined_df
   = Raise KeyError) /\
  (forall rows blank names,
      master_df = Some rows ->
      Dict.get combined_df "Client Name" = Some (CStr blank :: names) ->
      split blank = [] ->
      run_processing re_search_nocase pd_to_numeric master_df combined_df
      = Raise IndexError) /\
  (forall names,
      Dict.get combined_df "Client Name" = Some names ->
      Forall (resolvable re_search_nocase) names ->
      exists out,
        run_processing re_search_nocase pd_to_numeric master_df combined_df
        = Ok out).
Proof.
  assert (Hcol : Dict.get (Dict.set combined_df "Record ID"
                             (map (fun i => CInt (Z.of_nat i))
                                  (seq 1 (len combined_df)))) "Client Name"
                 = Dict.get combined_df "Client Name").
  { apply get_set_other. intros H. discriminate H. }
  split; [|split].
  - intros Hnone. unfold run_processing, create_normalized_output_with_verification.
    unfold column. rewrite Hcol, Hnone. reflexivity.
  - intros rows blank names -> Hget Hblank.
    unfold run_processing, create_normalized_output_with_verification.
    unfold column. rewrite Hcol, Hget. cbn [bind].
    unfold unique. cbn [unique_from existsb for_each].
    unfold process_client at 1. cbn [mapping_of_client].
    unfold create_client_specific_mapping. rewrite Hblank. reflexivity.
  - intros names Hget Hall.
    unfold run_processing, create_normalized_output_with_verification.
    unfold column. rewrite Hcol, Hget. cbn [bind].
    match goal with
    | |- exists out, bind (for_each ?f ?cl ?df) _ = _ =>
        destruct (clients_loop_ok master_df
                    (Dict.set combined_df "Record ID"
                       (map (fun i => CInt (Z.of_nat i)) (seq 1 (len combined_df))))
                    names (sorted normalized_columns) cl df) as [out Hout]
    end.
    + apply Forall_forall. intros c Hc. unfold unique in Hc.
      apply unique_from_In in Hc. rewrite Forall_forall in Hall. exact (Hall c Hc).
    + rewrite Hout. cbn [bind]. eexists. reflexivity.
Qed.

End WithPrimitives.

Lemma run_processing_returns_witness :
  run_processing literal_search_nocase coerce_to_numeric (Some sample_rules)
    [("Sales", [CInt 5])] = Raise KeyError /\
  run_processing literal_search_nocase coerce_to_numeric (Some sample_rules)
    [("Client Name", [CStr " "; CStr "Splash"])] = Raise IndexError /\
  exists out,
    run_processing literal_search_nocase coerce_to_numeric (Some sample_rules)
      sample_combined = Ok out.
Proof.
  split; [|split].
  - apply (run_processing_returns literal_search_nocase coerce_to_numeric). reflexivity.
  - destruct (run_processing_returns literal_search_nocase coerce_to_numeric
                (Some sample_rules) [("Client Name", [CStr " "; CStr "Splash"])])
      as [_ [H _]].
    apply (H sample_rules " " [CStr "Splash"]); reflexivity.
  - destruct (run_processing_returns literal_search_nocase coerce_to_numeric
                (Some sample_rules) sample_combined) as [_ [_ H]].
    apply (H [CStr "Splash"; CStr "Splash"; CStr "Bubbles"]); [reflexivity|].
    repeat constructor;
      [exists "Splash", "Splash", (@nil string), (fun text => contains "splash" (lower text))
      |exists "Splash", "Splash", (@nil string), (fun text => contains "splash" (lower text))
      |exists "Bubbles", "Bubbles", (@nil string), (fun text => contains "bubbles" (lower text))];
      repeat split; reflexivity.
Defined.

End RunSpec.
